(** * truemeter-api: the odometer-fraud scoring pipeline

    A shallow embedding of [app/config.py], [app/models.py],
    [app/model_loader.py], [app/prediction_service.py] and
    [app/main.py], followed by the properties of the scoring pipeline.

    Numbers.  Python [int] is [Z].  Python [float] is IEEE binary64: a
    finite value is carried as the rational it denotes, next to the two
    infinities and NaN, and every arithmetic result is rounded to the
    nearest binary64 value, ties to even, overflowing to an infinity
    ([round64], [fl]).  The two zeros are not told apart: no operation
    of the pipeline distinguishes them.  The two transcendental library
    functions the service calls, [numpy.expm1] and [math.log1p], are
    parameters of the service.

    Effects.  Exceptions are explicit ([result]); the text [str(e)] of an
    exception, the formatting of an arbitrary object and the success or
    failure of [print] are parameters of the code that uses them.  The
    interpreter's limit on the number of digits in int-to-str
    conversions is taken as switched off. *)

From Stdlib Require Import ZArith QArith Qround Qabs Qpower Qreduction.
From Stdlib Require Import String Ascii List Bool Lia.
From Stdlib Require Import DecimalString.
Import ListNotations.

Local Open Scope Z_scope.

(** ** Exceptions and results *)

(** The exception classes the modelled code can meet, each with the
    message it was raised with.  All of them are subclasses of
    [Exception]; an exception of any other class is an
    [OtherException], and one that derives from [ValueError] is a
    [ValueError]. *)
Inductive exn : Type :=
| FileNotFoundError (msg : string)
| KeyError (key : string)
| TypeError (msg : string)
| AttributeError (msg : string)
| ValueError (msg : string)
| OverflowError (msg : string)
| ZeroDivisionError (msg : string)
| UnicodeEncodeError (msg : string)
| ValidationError (fields : list string)
| OtherException (msg : string).

(** The outcome of a call: a value, or a raised exception. *)
Inductive result (A : Type) : Type :=
| Ok (a : A)
| Raise (e : exn).
Arguments Ok {A} a.
Arguments Raise {A} e.

Definition rbind {A B : Type} (r : result A) (k : A -> result B) : result B :=
  match r with
  | Ok a => k a
  | Raise e => Raise e
  end.

Declare Scope result_scope.
Delimit Scope result_scope with result.
Notation "x <- r ;; k" := (rbind r (fun x => k))
  (at level 61, r at next level, right associativity) : result_scope.

(** ** Python numerics *)

Module PyNum.

(** *** Rounding rationals *)

(** Truncation toward zero. *)
Definition Qtrunc (x : Q) : Z := Z.quot (Qnum x) (Zpos (Qden x)).

(** The nearest integer, ties to the even one. *)
Definition round_half_even (x : Q) : Z :=
  let f := Qfloor x in
  let twice_frac := 2 * Qnum x - 2 * f * Zpos (Qden x) in
  match Z.compare twice_frac (Zpos (Qden x)) with
  | Lt => f
  | Gt => f + 1
  | Eq => if Z.even f then f else f + 1
  end.

Definition pow2 (k : Z) : Q := Qpower 2 k.

(** The binade of a non-zero rational: [2^(mag q) <= |q| < 2^(mag q + 1)]. *)
Definition mag (q : Q) : Z :=
  let k := Z.log2 (Z.abs (Qnum q)) - Z.log2 (Zpos (Qden q)) in
  if Qle_bool (pow2 k) (Qabs q) then k else k - 1.

(** The exponent of the last place of the binary64 numbers around [q]:
    53 significant bits, and no exponent below that of the subnormal
    numbers. *)
Definition ulp_exp (q : Q) : Z := Z.max (-1074) (mag q - 52).

(** The multiple of [2^(ulp_exp q)] nearest to [q], ties to the even
    multiple: rounding to binary64 with an unbounded exponent range
    upwards. *)
Definition round64 (q : Q) : Q :=
  let e := ulp_exp q in
  (inject_Z (round_half_even (q * pow2 (- e))) * pow2 e)%Q.

(** *** Floats *)

Inductive float : Type :=
| Fin (q : Q)
| PInf
| NInf
| NaN.

(** A real result, as the float the hardware delivers: rounded, and an
    infinity from [2^1024] on. *)
Definition fl (q : Q) : float :=
  let r := round64 q in
  if Qle_bool (pow2 1024) r then PInf
  else if Qle_bool r (- pow2 1024) then NInf
  else Fin (Qred r).

(** A decimal literal of the source, such as [0.70]. *)
Definition lit (q : Q) : float := fl q.

(** The sign of a rational: [-1], [0] or [1]. *)
Definition Qsgn (q : Q) : Z := Z.sgn (Qnum q).

(** The infinity of the given sign; NaN for sign [0]. *)
Definition inf_of_sign (s : Z) : float :=
  match s with
  | Z0 => NaN
  | Zpos _ => PInf
  | Zneg _ => NInf
  end.

(** [x * y] on floats. *)
Definition fmul (x y : float) : float :=
  match x, y with
  | NaN, _ | _, NaN => NaN
  | Fin a, Fin b => fl (a * b)
  | Fin a, PInf | PInf, Fin a => inf_of_sign (Qsgn a)
  | Fin a, NInf | NInf, Fin a => inf_of_sign (- Qsgn a)
  | PInf, PInf | NInf, NInf => PInf
  | PInf, NInf | NInf, PInf => NInf
  end.

(** [x - y] on floats. *)
Definition fsub (x y : float) : float :=
  match x, y with
  | NaN, _ | _, NaN => NaN
  | Fin a, Fin b => fl (a - b)
  | Fin _, PInf => NInf
  | Fin _, NInf => PInf
  | PInf, PInf | NInf, NInf => NaN
  | PInf, _ => PInf
  | NInf, _ => NInf
  end.

(** [x <= y] on floats; false as soon as a NaN is involved. *)
Definition fle (x y : float) : bool :=
  match x, y with
  | NaN, _ | _, NaN => false
  | NInf, _ => true
  | _, PInf => true
  | Fin a, Fin b => Qle_bool a b
  | _, _ => false
  end.

(** [x < y] on floats. *)
Definition flt (x y : float) : bool :=
  match x, y with
  | NaN, _ | _, NaN => false
  | Fin a, Fin b => negb (Qle_bool b a)
  | NInf, NInf => false
  | NInf, _ => true
  | PInf, _ => false
  | Fin _, PInf => true
  | Fin _, NInf => false
  end.

(** [x >= y] on floats. *)
Definition fge (x y : float) : bool := fle y x.

(** [int(x)] on a float: truncation toward zero. *)
Definition py_int (x : float) : result Z :=
  match x with
  | Fin q => Ok (Qtrunc q)
  | PInf | NInf => Raise (OverflowError "cannot convert float infinity to integer")
  | NaN => Raise (ValueError "cannot convert float NaN to integer")
  end.

(** [round(x)] on a float, no [ndigits]. *)
Definition py_round (x : float) : result Z :=
  match x with
  | Fin q => Ok (round_half_even q)
  | PInf | NInf => Raise (OverflowError "cannot convert float infinity to integer")
  | NaN => Raise (ValueError "cannot convert float NaN to integer")
  end.

(** [a / b] on two ints: the quotient correctly rounded. *)
Definition true_div (a b : Z) : result float :=
  if b =? 0 then Raise (ZeroDivisionError "division by zero")
  else
    match fl (inject_Z a / inject_Z b) with
    | Fin q => Ok (Fin q)
    | _ => Raise (OverflowError "integer division result too large for a float")
    end.

(** The conversion of an int where a float is expected. *)
Definition float_of_int (n : Z) : result float :=
  match fl (inject_Z n) with
  | Fin q => Ok (Fin q)
  | _ => Raise (OverflowError "int too large to convert to float")
  end.

(** [str(n)] for an int. *)
Definition str_int (n : Z) : string := NilZero.string_of_int (Z.to_int n).

(** Walks the digits from the least significant one; [seen] counts the
    digits already emitted in the current group of three. *)
Fixpoint commas_rev (digits_rev : list ascii) (seen : nat) : list ascii :=
  match digits_rev with
  | [] => []
  | c :: tl =>
      if Nat.eqb seen 3 then ","%char :: c :: commas_rev tl 1
      else c :: commas_rev tl (S seen)
  end.

(** [format(n, ",")]: decimal digits in groups of three, the sign in
    front. *)
Definition fmt_thousands (n : Z) : string :=
  let digits := list_ascii_of_string (str_int (Z.abs n)) in
  let grouped := string_of_list_ascii (rev (commas_rev (rev digits) 0)) in
  if n <? 0 then String "-"%char grouped else grouped.

End PyNum.
Import PyNum.

(** ** app/config.py *)

Module Config.

(** The model files, relative to [BASE_DIR]. *)
Definition REGRESSOR_PATH : string := "models/mileage_regressor_v2.joblib".
Definition CLASSIFIER_PATH : string := "models/fraud_classifier_xgb_v1.joblib".

(** [0.5], which is a binary64 number. *)
Definition DEFAULT_FRAUD_THRESHOLD : float := Fin (1 # 2).

(** [0.70]: the binary64 number nearest to 7/10, which is
    [6305039478318694 / 2^53], a little below 7/10. *)
Definition SUSPICIOUS_RATIO_THRESHOLD : float :=
  Fin (3152519739159347 # 4503599627370496).

Definition MARKET_DIFF_THRESHOLD : Z := -30000.

Definition API_TITLE : string := "API za detekciju prevare s kilometražom".
Definition CREATOR_NAME : string := "Zoran Janjic".
Definition CREATOR_WEBSITE : string := "https://www.linkedin.com/in/janjiczoran/".
Definition DATASET_SOURCE : string := "autoscout24-germany-dataset.csv".

End Config.
Import Config.

(** ** app/models.py *)

Module Models.

(** [CarInput]; the [Field] constraints are [CarInput_valid]. *)
Record CarInput : Type := {
  make : string;
  model : string;
  year : Z;
  reported_km : Z;
  fuelType : string;
  gearbox : string;
  horsepower : Z;
  price : Z;
  offerType : string
}.

Definition CarInput_valid (car : CarInput) : Prop :=
  1900 <= year car <= 2100 /\ 0 <= reported_km car
  /\ 0 <= horsepower car /\ 0 <= price car.

(** The same listing with another odometer reading. *)
Definition with_reported_km (car : CarInput) (km : Z) : CarInput :=
  {| make := make car; model := model car; year := year car;
     reported_km := km; fuelType := fuelType car; gearbox := gearbox car;
     horsepower := horsepower car; price := price car;
     offerType := offerType car |}.

Record FraudCheckResponse : Type := {
  fraud_score : Z;
  is_suspicious : bool;
  expected_km : Z;
  reasons : list string
}.

(** The fields whose [Field] constraint is violated: [fraud_score] has
    [ge=0, le=100], [expected_km] has [ge=0]. *)
Definition FraudCheckResponse_errors (score km : Z) : list string :=
  (if (0 <=? score) && (score <=? 100) then [] else ["fraud_score"%string])
  ++ (if 0 <=? km then [] else ["expected_km"%string]).

(** [FraudCheckResponse(fraud_score=..., ...)]: the constructor
    validates and raises [ValidationError] when a constraint fails. *)
Definition FraudCheckResponse_new (score : Z) (susp : bool) (km : Z)
    (rs : list string) : result FraudCheckResponse :=
  match FraudCheckResponse_errors score km with
  | [] => Ok {| fraud_score := score; is_suspicious := susp;
                expected_km := km; reasons := rs |}
  | errs => Raise (ValidationError errs)
  end.

(** [HealthCheckResponse]; its fields carry no constraint. *)
Record HealthCheckResponse : Type := {
  status : string;
  models_loaded : bool;
  service : string;
  creator : string;
  website : string;
  dataset : string
}.

End Models.
Import Models.

(** ** Feature rows and Python objects *)

(** The one-row [DataFrame] handed to the regression artifact. *)
Record reg_input : Type := {
  ri_year : Z;
  ri_price : Z;
  ri_horsepower : Z;
  ri_make : string;
  ri_model : string;
  ri_fuelType : string;
  ri_gearbox : string;
  ri_offerType : string;
  ri_age : Z;
  ri_age_squared : Z
}.

(** The one-row [DataFrame] handed to the classification artifact. *)
Record class_input : Type := {
  smart_ratio : float;
  age : Z;
  market_km_diff : Z;
  log_diff : float
}.

(** The Python objects that [joblib.load] can hand back and that the
    manager's attributes can hold: [None], a float, a string, a [dict]
    with string keys, or an object of some class [cls] described by
    what it does when the code uses it.  Each method of an object may
    be missing, and each call may raise:
    - [getitem key] is [obj[key]];
    - [get key] is [obj.get(key, default)], where [Ok None] stands for
      "returns [default]";
    - [predict row] is [obj.predict(row)[0]];
    - [predict_proba row] is [float(obj.predict_proba(row)[0, 1])];
    - [ge_float x] is [x >= obj] for a float [x]. *)
#[warnings="-register-all"]
Inductive pyval : Type :=
| PyNone
| PyFloat (x : float)
| PyStr (s : string)
| PyDict (items : list (string * pyval))
| PyObject (cls : string)
    (getitem : option (string -> result pyval))
    (get : option (string -> result (option pyval)))
    (predict : option (reg_input -> result float))
    (predict_proba : option (class_input -> result float))
    (ge_float : option (float -> result bool)).

Definition is_not_None (v : pyval) : bool :=
  match v with PyNone => false | _ => true end.

(** [type(v).__name__]. *)
Definition type_name (v : pyval) : string :=
  match v with
  | PyNone => "NoneType"
  | PyFloat _ => "float"
  | PyStr _ => "str"
  | PyDict _ => "dict"
  | PyObject cls _ _ _ _ _ => cls
  end.

Definition no_attribute (v : pyval) (attr : string) : exn :=
  AttributeError ("'" ++ type_name v ++ "' object has no attribute '" ++ attr ++ "'").

Fixpoint dict_lookup (items : list (string * pyval)) (key : string) : option pyval :=
  match items with
  | [] => None
  | (k, v) :: tl => if String.eqb k key then Some v else dict_lookup tl key
  end.

(** [obj[key]] for a string key. *)
Definition py_getitem (obj : pyval) (key : string) : result pyval :=
  match obj with
  | PyDict items =>
      match dict_lookup items key with
      | Some v => Ok v
      | None => Raise (KeyError key)
      end
  | PyObject _ (Some getitem) _ _ _ _ => getitem key
  | PyStr _ => Raise (TypeError "string indices must be integers, not 'str'")
  | _ => Raise (TypeError ("'" ++ type_name obj ++ "' object is not subscriptable"))
  end.

(** [obj.get(key, default)]. *)
Definition py_get (obj : pyval) (key : string) (default : pyval) : result pyval :=
  match obj with
  | PyDict items =>
      match dict_lookup items key with
      | Some v => Ok v
      | None => Ok default
      end
  | PyObject _ _ (Some get) _ _ _ =>
      (found <- get key ;;
       Ok (match found with Some v => v | None => default end))%result
  | _ => Raise (no_attribute obj "get")
  end.

(** [model.predict(row)[0]]. *)
Definition call_predict (m : pyval) (row : reg_input) : result float :=
  match m with
  | PyObject _ _ _ (Some predict) _ _ => predict row
  | _ => Raise (no_attribute m "predict")
  end.

(** [float(model.predict_proba(row)[0, 1])]. *)
Definition call_predict_proba (m : pyval) (row : class_input) : result float :=
  match m with
  | PyObject _ _ _ _ (Some predict_proba) _ => predict_proba row
  | _ => Raise (no_attribute m "predict_proba")
  end.

(** [x >= t] where [x] is a float and [t] whatever the manager holds as
    threshold. *)
Definition py_ge (x : float) (t : pyval) : result bool :=
  match t with
  | PyFloat y => Ok (fge x y)
  | PyObject _ _ _ _ _ (Some ge_float) => ge_float x
  | _ =>
      Raise (TypeError ("'>=' not supported between instances of 'float' and '"
                          ++ type_name t ++ "'"))
  end.

(** An artifact with a [predict] method and nothing else. *)
Definition regressor (predict : reg_input -> result float) : pyval :=
  PyObject "Regressor" None None (Some predict) None None.

(** An artifact with a [predict_proba] method and nothing else. *)
Definition classifier (predict_proba : class_input -> result float) : pyval :=
  PyObject "Classifier" None None None (Some predict_proba) None.

(** ** State and exceptions together

    [load_models] mutates [self] and may be interrupted by an exception
    at any statement; what was assigned before the exception stays
    assigned.  A computation therefore maps the state to the new state
    and an outcome. *)

Module StExn.

Definition M (S A : Type) : Type := S -> S * result A.

Definition ret {S A : Type} (a : A) : M S A := fun s => (s, Ok a).

Definition bind {S A B : Type} (m : M S A) (k : A -> M S B) : M S B :=
  fun s =>
    match m s with
    | (s', Ok a) => k a s'
    | (s', Raise e) => (s', Raise e)
    end.

(** A call that does not touch the state. *)
Definition call {S A : Type} (r : result A) : M S A := fun s => (s, r).

Definition get {S : Type} : M S S := fun s => (s, Ok s).

Definition modify {S : Type} (f : S -> S) : M S unit := fun s => (f s, Ok tt).

(** [try: body except ...: handler]; the handler sees the exception and
    the state as the body left it. *)
Definition try_except {S A : Type} (body : M S A) (handler : exn -> M S A) : M S A :=
  fun s =>
    match body s with
    | (s', Ok a) => (s', Ok a)
    | (s', Raise e) => handler e s'
    end.

End StExn.

Declare Scope stexn_scope.
Delimit Scope stexn_scope with stexn.
Notation "x <- m ;; k" := (StExn.bind m (fun x => k))
  (at level 61, m at next level, right associativity) : stexn_scope.
Notation "m ;; k" := (StExn.bind m (fun _ => k))
  (at level 61, right associativity) : stexn_scope.

(** ** app/model_loader.py *)

Module ModelLoader.

Record ModelManager : Type := {
  regressor_model : pyval;
  classifier_model : pyval;
  fraud_threshold : pyval
}.

(** [ModelManager.__init__]. *)
Definition init : ModelManager :=
  {| regressor_model := PyNone;
     classifier_model := PyNone;
     fraud_threshold := PyFloat DEFAULT_FRAUD_THRESHOLD |}.

Definition set_regressor_model (v : pyval) (self : ModelManager) : ModelManager :=
  {| regressor_model := v;
     classifier_model := classifier_model self;
     fraud_threshold := fraud_threshold self |}.

Definition set_classifier_model (v : pyval) (self : ModelManager) : ModelManager :=
  {| regressor_model := regressor_model self;
     classifier_model := v;
     fraud_threshold := fraud_threshold self |}.

Definition set_fraud_threshold (v : pyval) (self : ModelManager) : ModelManager :=
  {| regressor_model := regressor_model self;
     classifier_model := classifier_model self;
     fraud_threshold := v |}.

(** What [joblib.load] does for each path: the object it returns, or
    the exception it raises. *)
Definition disk : Type := string -> result pyval.

(** What surrounds the code: the text of an exception ([str(e)]), the
    text of an object inside an f-string, and whether printing a text
    succeeds (it fails, for instance, when the output stream cannot
    encode a character of the text). *)
Record console : Type := {
  exn_str : exn -> string;
  py_format : pyval -> result string;
  print : string -> result unit
}.

Section Load.

Variable io : console.
Variable joblib_load : disk.

Local Open Scope stexn_scope.
Local Open Scope string_scope.

(** The body of the [try] statement of [load_models]. *)
Definition load_models_try : StExn.M ModelManager (bool * string) :=
  StExn.call (print io ("Loading regression model from: " ++ REGRESSOR_PATH)) ;;
  reg <- StExn.call (joblib_load REGRESSOR_PATH) ;;
  StExn.modify (set_regressor_model reg) ;;
  StExn.call (print io ("Loading classification model from: " ++ CLASSIFIER_PATH)) ;;
  classifier_dict <- StExn.call (joblib_load CLASSIFIER_PATH) ;;
  pipeline <- StExn.call (py_getitem classifier_dict "pipeline") ;;
  StExn.modify (set_classifier_model pipeline) ;;
  threshold <- StExn.call
    (py_get classifier_dict "threshold" (PyFloat DEFAULT_FRAUD_THRESHOLD)) ;;
  StExn.modify (set_fraud_threshold threshold) ;;
  self <- StExn.get ;;
  text <- StExn.call (py_format io (fraud_threshold self)) ;;
  let success_msg := "✅ Models loaded successfully! Threshold: " ++ text in
  StExn.call (print io success_msg) ;;
  StExn.ret (true, success_msg).

(** The two [except] clauses of [load_models]. *)
Definition load_models_except (e : exn) : StExn.M ModelManager (bool * string) :=
  match e with
  | FileNotFoundError _ =>
      let error_msg := "❌ Model file not found: " ++ exn_str io e in
      StExn.call (print io error_msg) ;;
      StExn.ret (false, error_msg)
  | _ =>
      let error_msg := "❌ Error loading models: " ++ exn_str io e in
      StExn.call (print io error_msg) ;;
      StExn.ret (false, error_msg)
  end.

(** [load_models]. *)
Definition load_models : StExn.M ModelManager (bool * string) :=
  StExn.try_except load_models_try load_models_except.

End Load.

Definition are_models_loaded (self : ModelManager) : bool :=
  is_not_None (regressor_model self) && is_not_None (classifier_model self).

Definition get_regressor (self : ModelManager) : pyval := regressor_model self.
Definition get_classifier (self : ModelManager) : pyval := classifier_model self.
Definition get_threshold (self : ModelManager) : pyval := fraud_threshold self.

End ModelLoader.
Import ModelLoader.

(** ** app/prediction_service.py *)

Module PredictionService.

Local Open Scope string_scope.

(** The three message templates of [generate_reasons]. *)
Definition ratio_reason (percentage expected_km : Z) : string :=
  "Kilometraža je sumnjiva: Samo " ++ str_int percentage
    ++ "% od očekivanih " ++ fmt_thousands expected_km ++ " km.".

Definition market_reason (market_km_diff : Z) : string :=
  "Automobil ima " ++ fmt_thousands (Z.abs market_km_diff)
    ++ " km manje od sličnih oglasa na tržištu.".

Definition generic_reason : string :=
  "Otkrivena složena anomalija od strane AI (kombinacija cijene, starosti i specifikacija).".

(** [reasons.append(s)]. *)
Definition append {A : Type} (l : list A) (x : A) : list A := (l ++ [x])%list.

(** [not reasons]: the list is empty. *)
Definition is_empty {A : Type} (l : list A) : bool :=
  match l with [] => true | _ => false end.

(** The conditions of the first two [if] statements of
    [generate_reasons], by name. *)
Definition ratio_rule (smart_ratio : float) : bool :=
  flt smart_ratio SUSPICIOUS_RATIO_THRESHOLD.

Definition market_rule (market_km_diff : Z) : bool :=
  (market_km_diff <? MARKET_DIFF_THRESHOLD)%Z.

(** [generate_reasons]: three [if] statements in sequence, each of
    which may append to [reasons].  [market_km_diff] is the int that
    [check_fraud] passes. *)
Definition generate_reasons (smart_ratio : float) (market_km_diff : Z)
    (expected_km : Z) (is_suspicious : bool) : result (list string) :=
  (let reasons := [] in
   reasons <-
     (if flt smart_ratio SUSPICIOUS_RATIO_THRESHOLD then
        percentage <- py_int (fmul smart_ratio (Fin 100)) ;;
        Ok (append reasons (ratio_reason percentage expected_km))
      else Ok reasons) ;;
   let reasons :=
     if (market_km_diff <? MARKET_DIFF_THRESHOLD)%Z then
       append reasons (market_reason market_km_diff)
     else reasons in
   let reasons :=
     if is_empty reasons && is_suspicious then
       append reasons generic_reason
     else reasons in
   Ok reasons)%result.

Section Service.

(** [pd.Timestamp.now().year]. *)
Variable current_year : Z.

(** [numpy.expm1] on a float, which never raises, and [math.log1p] on a
    float, which raises outside its domain. *)
Variable expm1 : float -> float.
Variable log1p : float -> result float.

(** [max(1, current_year - car.year)]. *)
Definition car_age (car : CarInput) : Z := Z.max 1 (current_year - year car).

(** The regression feature row, as built in [check_fraud] and in
    [calculate_expected_mileage]. *)
Definition build_reg_input (car : CarInput) : reg_input :=
  let age := car_age car in
  let age_squared := age ^ 2 in
  {| ri_year := year car;
     ri_price := price car;
     ri_horsepower := horsepower car;
     ri_make := make car;
     ri_model := model car;
     ri_fuelType := fuelType car;
     ri_gearbox := gearbox car;
     ri_offerType := offerType car;
     ri_age := age;
     ri_age_squared := age_squared |}.

(** [math.log1p(n)] for an int [n]: the int is converted first. *)
Definition math_log1p (n : Z) : result float :=
  (x <- float_of_int n ;; log1p x)%result.

(** [calculate_expected_mileage], with the manager it reads. *)
Definition calculate_expected_mileage (mm : ModelManager) (car : CarInput)
    : result Z :=
  (let reg_model := get_regressor mm in
   predicted_log <- call_predict reg_model (build_reg_input car) ;;
   expected_km <- py_int (expm1 predicted_log) ;;
   Ok expected_km)%result.

(** [calculate_fraud_features]. *)
Definition calculate_fraud_features (car : CarInput) (expected_km : Z)
    (predicted_log : float) : result class_input :=
  (let age := car_age car in
   smart_ratio <- true_div (reported_km car) (Z.max 1 expected_km) ;;
   let market_km_diff := (reported_km car - expected_km)%Z in
   log_reported <- math_log1p (reported_km car) ;;
   let log_diff := fsub log_reported predicted_log in
   Ok {| smart_ratio := smart_ratio;
         age := age;
         market_km_diff := market_km_diff;
         log_diff := log_diff |})%result.

(** [check_fraud], with the manager it reads.  Steps 1 and 2 repeat
    the bodies of the two helpers above inline, as the source does. *)
Definition check_fraud (mm : ModelManager) (car : CarInput)
    : result FraudCheckResponse :=
  (if negb (are_models_loaded mm) then
     Raise (ValueError "Models are not loaded. Service is not ready.")
   else
     let reg_model := get_regressor mm in
     let class_model := get_classifier mm in
     let threshold := get_threshold mm in
     (* STEP 1 *)
     let age := Z.max 1 (current_year - year car) in
     let age_squared := (age ^ 2)%Z in
     let reg_input :=
       {| ri_year := year car;
          ri_price := price car;
          ri_horsepower := horsepower car;
          ri_make := make car;
          ri_model := model car;
          ri_fuelType := fuelType car;
          ri_gearbox := gearbox car;
          ri_offerType := offerType car;
          ri_age := age;
          ri_age_squared := age_squared |} in
     predicted_log <- call_predict reg_model reg_input ;;
     expected_km <- py_int (expm1 predicted_log) ;;
     (* STEP 2 *)
     smart_ratio <- true_div (reported_km car) (Z.max 1 expected_km) ;;
     let market_km_diff := (reported_km car - expected_km)%Z in
     log_reported <- math_log1p (reported_km car) ;;
     let log_diff := fsub log_reported predicted_log in
     let class_input :=
       {| smart_ratio := smart_ratio;
          age := age;
          market_km_diff := market_km_diff;
          log_diff := log_diff |} in
     (* STEP 3 *)
     fraud_prob <- call_predict_proba class_model class_input ;;
     fraud_score <- py_round (fmul fraud_prob (Fin 100)) ;;
     is_suspicious <- py_ge fraud_prob threshold ;;
     (* STEP 4 *)
     reasons <-
       generate_reasons smart_ratio market_km_diff expected_km is_suspicious ;;
     FraudCheckResponse_new fraud_score is_suspicious expected_km reasons)%result.

(** A scoring run in which the artifacts and the feature builder go
    through: both artifacts are held, the regressor answers
    [predicted_log] on the car's feature row, the expected mileage and
    the fraud features can be computed from it, the classifier answers
    [fraud_prob] on them, and the threshold is the float [threshold]. *)
Definition scoring_run (mm : ModelManager) (car : CarInput)
    (predicted_log fraud_prob threshold : float) : Prop :=
  are_models_loaded mm = true
  /\ call_predict (get_regressor mm) (build_reg_input car) = Ok predicted_log
  /\ (expected_km <- py_int (expm1 predicted_log) ;;
      features <- calculate_fraud_features car expected_km predicted_log ;;
      call_predict_proba (get_classifier mm) features)%result = Ok fraud_prob
  /\ get_threshold mm = PyFloat threshold.

End Service.

End PredictionService.
Import PredictionService.

(** ** app/main.py *)

Module Main.

Local Open Scope string_scope.

(** What an endpoint hands back to the framework: the body it returns,
    or the [HTTPException] it raises. *)
Inductive http_result (A : Type) : Type :=
| Returned (body : A)
| HTTPException (status_code : Z) (detail : string).
Arguments Returned {A} body.
Arguments HTTPException {A} status_code detail.

(** [isinstance(e, ValueError)].  Exceptions that derive from
    [ValueError] are represented by [ValueError] itself;
    [UnicodeEncodeError] and pydantic's [ValidationError] derive from
    [ValueError] too. *)
Definition is_ValueError (e : exn) : bool :=
  match e with
  | ValueError _ => true
  | UnicodeEncodeError _ => true
  | ValidationError _ => true
  | _ => false
  end.

(** The start-up half of [lifespan]: load the models, warn when that
    failed, and go on. *)
Definition lifespan_startup (io : console) (joblib_load : disk)
    : StExn.M ModelManager unit :=
  (status <- load_models io joblib_load ;;
   let '(success, message) := status in
   if negb success then
     StExn.call
       (print io
          ("⚠️  Warning: Application started but models failed to load: "
             ++ message))
   else StExn.ret tt)%stexn.

(** [health_check]. *)
Definition health_check (mm : ModelManager) : HealthCheckResponse :=
  let models_loaded := are_models_loaded mm in
  {| status := if models_loaded then "healthy" else "initializing";
     models_loaded := models_loaded;
     service := API_TITLE;
     creator := CREATOR_NAME;
     website := CREATOR_WEBSITE;
     dataset := DATASET_SOURCE |}.

Section Endpoint.

Variable io : console.
Variable current_year : Z.
Variable expm1 : float -> float.
Variable log1p : float -> result float.

(** [check_car]: the readiness check, then [check_fraud] inside
    [try]/[except ValueError]/[except Exception]. *)
Definition check_car (mm : ModelManager) (car : CarInput)
    : http_result FraudCheckResponse :=
  if negb (are_models_loaded mm) then
    HTTPException 503
      "Models are not loaded yet. Service is initializing. Please try again in a moment."
  else
    match check_fraud current_year expm1 log1p mm car with
    | Ok result => Returned result
    | Raise e =>
        if is_ValueError e then
          HTTPException 400 ("Prediction error: " ++ exn_str io e)
        else
          HTTPException 500 ("Internal server error: " ++ exn_str io e)
    end.

End Endpoint.

End Main.
Import Main.

(** ** How far a load gets *)

(** Where the [try] body of [load_models] stops, with what it had
    assigned by then: before the regressor is stored (lines 41-42),
    after it (lines 45-49), after the classifier is stored (line 50),
    after the threshold is stored (lines 52-53), or not at all. *)
Inductive load_progress : Type :=
| StoppedAtStart (e : exn)
| StoppedAfterRegressor (reg : pyval) (e : exn)
| StoppedAfterClassifier (reg pipeline : pyval) (e : exn)
| StoppedAfterThreshold (reg pipeline threshold : pyval) (e : exn)
| Completed (reg pipeline threshold : pyval) (success_msg : string).

Definition load_progress_of (io : console) (fs : disk) : load_progress :=
  match print io ("Loading regression model from: " ++ REGRESSOR_PATH) with
  | Raise e => StoppedAtStart e
  | Ok _ =>
  match fs REGRESSOR_PATH with
  | Raise e => StoppedAtStart e
  | Ok reg =>
  match print io ("Loading classification model from: " ++ CLASSIFIER_PATH) with
  | Raise e => StoppedAfterRegressor reg e
  | Ok _ =>
  match fs CLASSIFIER_PATH with
  | Raise e => StoppedAfterRegressor reg e
  | Ok classifier_dict =>
  match py_getitem classifier_dict "pipeline" with
  | Raise e => StoppedAfterRegressor reg e
  | Ok pipeline =>
  match py_get classifier_dict "threshold" (PyFloat DEFAULT_FRAUD_THRESHOLD) with
  | Raise e => StoppedAfterClassifier reg pipeline e
  | Ok threshold =>
  match py_format io threshold with
  | Raise e => StoppedAfterThreshold reg pipeline threshold e
  | Ok text =>
  let success_msg := ("✅ Models loaded successfully! Threshold: " ++ text)%string in
  match print io success_msg with
  | Raise e => StoppedAfterThreshold reg pipeline threshold e
  | Ok _ => Completed reg pipeline threshold success_msg
  end end end end end end end end.

(** The manager as the body leaves it. *)
Definition state_after (p : load_progress) (self : ModelManager) : ModelManager :=
  match p with
  | StoppedAtStart _ => self
  | StoppedAfterRegressor reg _ => set_regressor_model reg self
  | StoppedAfterClassifier reg pipeline _ =>
      set_classifier_model pipeline (set_regressor_model reg self)
  | StoppedAfterThreshold reg pipeline threshold _
  | Completed reg pipeline threshold _ =>
      set_fraud_threshold threshold
        (set_classifier_model pipeline (set_regressor_model reg self))
  end.

(** The exception that stopped the body, if any. *)
Definition stopped_by (p : load_progress) : option exn :=
  match p with
  | StoppedAtStart e | StoppedAfterRegressor _ e
  | StoppedAfterClassifier _ _ e | StoppedAfterThreshold _ _ _ e => Some e
  | Completed _ _ _ _ => None
  end.

(** The outcome of the body: the status pair it returns, or the
    exception that stopped it. *)
Definition body_outcome (p : load_progress) : result (bool * string) :=
  match p with
  | StoppedAtStart e | StoppedAfterRegressor _ e
  | StoppedAfterClassifier _ _ e | StoppedAfterThreshold _ _ _ e => Raise e
  | Completed _ _ _ success_msg => Ok (true, success_msg)
  end.


(** The body stopped before it stored a classifier. *)
Definition stopped_early (p : load_progress) : bool :=
  match p with
  | StoppedAtStart _ | StoppedAfterRegressor _ _ => true
  | _ => false
  end.

(** The message of the [except] clause that catches [e]. *)
Definition failure_message (io : console) (e : exn) : string :=
  match e with
  | FileNotFoundError _ => ("❌ Model file not found: " ++ exn_str io e)%string
  | _ => ("❌ Error loading models: " ++ exn_str io e)%string
  end.


(** ** Reading the numbers of a reason back *)

(** The character is not the thousands separator. *)
Definition not_comma (c : ascii) : bool := negb (Ascii.eqb c ","%char).

(** A string without its thousands separators. *)
Fixpoint strip_commas (s : string) : string :=
  match s with
  | EmptyString => EmptyString
  | String c tl =>
      if Ascii.eqb c ","%char then strip_commas tl
      else String c (strip_commas tl)
  end.

(** ** Float order as propositions *)

Definition float_le (x y : float) : Prop := fle x y = true.
Definition float_lt (x y : float) : Prop := flt x y = true.

(** ** Concrete inputs used by the examples *)

Module Samples.

Local Open Scope string_scope.

(** The request of the documentation, with the odometer at 40000 km. *)
Definition golf : CarInput :=
  {| make := "Volkswagen"; model := "Golf"; year := 2019;
     reported_km := 40000; fuelType := "Diesel"; gearbox := "Manual";
     horsepower := 115; price := 14500; offerType := "Used" |}.

(** A stand-in for [numpy.expm1] that agrees with it at the arguments
    the examples use: [expm1(0.0) == 0.0]; [expm1(12.0)] is
    [162753.791419] and [expm1(-0.5)] is [-0.393469] to six decimals;
    and from [-40.0] downwards [e^x - 1] is closer to [-1.0] than to any
    other binary64 number ([e^-40 < 2^-54]), so [expm1(x) == -1.0].  For
    the remaining finite arguments it keeps the first-order term. *)
Definition expm1_sample (x : float) : float :=
  match x with
  | Fin q =>
      if Qle_bool q (-40) then Fin (-1)
      else if Qeq_bool q 0 then Fin 0
      else if Qeq_bool q 12 then lit (162753791419 # 1000000)
      else if Qeq_bool q (- (1 # 2)) then lit (- (393469 # 1000000))
      else Fin q
  | PInf => PInf
  | NInf => Fin (-1)
  | NaN => NaN
  end.

(** A stand-in for [math.log1p]: a domain error up to [-1], exact at
    [0], first-order elsewhere.  Its values only reach the classifier,
    as [log_diff]. *)
Definition log1p_sample (x : float) : result float :=
  match x with
  | Fin q =>
      if Qle_bool q (-1) then Raise (ValueError "math domain error")
      else Ok (Fin q)
  | PInf => Ok PInf
  | NInf => Raise (ValueError "math domain error")
  | NaN => Ok NaN
  end.

Definition year_sample : Z := 2025.

(** The text of an exception raised with one string is that string,
    and that of a [KeyError] is the key in quotes.  The text pydantic
    gives a [ValidationError] depends on its version; the text here
    only stands in for it, and no statement below reads it. *)
Definition exn_text (e : exn) : string :=
  match e with
  | FileNotFoundError msg | TypeError msg | AttributeError msg
  | ValueError msg | OverflowError msg | ZeroDivisionError msg
  | UnicodeEncodeError msg | OtherException msg => msg
  | KeyError key => "'" ++ key ++ "'"
  | ValidationError fields =>
      "validation error for FraudCheckResponse: " ++ String.concat ", " fields
  end.

(** The formatting of the thresholds the examples use. *)
Definition format_sample (v : pyval) : result string :=
  match v with
  | PyNone => Ok "None"
  | PyStr s => Ok s
  | PyFloat (Fin q) => Ok (if Qeq_bool q (1 # 2) then "0.5" else "0.3")
  | _ => Ok "<object>"
  end.

(** A console that prints everything. *)
Definition utf8_console : console :=
  {| exn_str := exn_text;
     py_format := format_sample;
     print := fun _ => Ok tt |}.



(** A manager holding a regressor that always answers [predicted_log]
    and a classifier that always answers [fraud_prob]. *)
Definition constant_models (predicted_log fraud_prob threshold : float)
    : ModelManager :=
  {| regressor_model := regressor (fun _ => Ok predicted_log);
     classifier_model := classifier (fun _ => Ok fraud_prob);
     fraud_threshold := PyFloat threshold |}.




(** Both files are fine; the bundle carries its own threshold. *)
Definition disk_good : disk :=
  fun path =>
    if String.eqb path REGRESSOR_PATH then Ok (regressor (fun _ => Ok (Fin 0)))
    else Ok (PyDict [("pipeline", classifier (fun _ => Ok (Fin (1 # 2))));
                     ("threshold", PyFloat (lit (3 # 10)))]).

(** Both files are readable, but the bundle stores [None] as pipeline. *)
Definition disk_none_pipeline : disk :=
  fun path =>
    if String.eqb path REGRESSOR_PATH then Ok (regressor (fun _ => Ok (Fin 12)))
    else Ok (PyDict [("pipeline", PyNone); ("threshold", PyFloat (lit (3 # 10)))]).

(** The regressor file is fine (a regressor that predicts 11 in log
    space), the classifier file is corrupt. *)
Definition disk_other_regressor : disk :=
  fun path =>
    if String.eqb path REGRESSOR_PATH then Ok (regressor (fun _ => Ok (Fin 11)))
    else Raise (OtherException "invalid load key").


(** A regressor that rejects its input row. *)
Definition failing_regressor (threshold : float) : ModelManager :=
  {| regressor_model := regressor (fun _ => Raise (ValueError "feature mismatch"));
     classifier_model := classifier (fun _ => Ok (Fin (1 # 2)));
     fraud_threshold := PyFloat threshold |}.

(** A manager whose threshold is not a number. *)
Definition text_threshold : ModelManager :=
  {| regressor_model := regressor (fun _ => Ok (Fin 12));
     classifier_model := classifier (fun _ => Ok (Fin (1 # 2)));
     fraud_threshold := PyStr "high" |}.

(** The response for the Golf at 40000 km when the regressor predicts
    12 in log space and the classifier answers 0.85. *)
Definition golf_response : FraudCheckResponse :=
  {| fraud_score := 85;
     is_suspicious := true;
     expected_km := 162753;
     reasons :=
       ["Kilometraža je sumnjiva: Samo 24% od očekivanih 162,753 km.";
        "Automobil ima 122,753 km manje od sličnih oglasa na tržištu."] |}.

End Samples.

(** * Properties *)

(** ** Powers of two and binades *)

Section Pow2.

Lemma two_neq_0 : ~ (2 == 0)%Q.
Proof. discriminate. Qed.

Lemma pow2_pos (k : Z) : (0 < pow2 k)%Q.
Proof. apply Qpower_0_lt. reflexivity. Qed.

Lemma pow2_add (a b : Z) : (pow2 (a + b) == pow2 a * pow2 b)%Q.
Proof. apply Qpower_plus. exact two_neq_0. Qed.

Lemma pow2_opp (a : Z) : (pow2 (- a) == / pow2 a)%Q.
Proof. apply Qpower_opp. Qed.

Lemma pow2_le (a b : Z) : a <= b -> (pow2 a <= pow2 b)%Q.
Proof. intros H. apply Qpower_le_compat_l; [exact H | discriminate]. Qed.

Lemma pow2_lt (a b : Z) : a < b -> (pow2 a < pow2 b)%Q.
Proof. intros H. apply Qpower_lt_compat_l; [exact H | reflexivity]. Qed.

Lemma pow2_inject (k : Z) : 0 <= k -> (pow2 k == inject_Z (2 ^ k))%Q.
Proof. intros H. symmetry. apply (Zpower_Qpower 2 k H). Qed.

Lemma pow2_cancel (q : Q) (e : Z) : (q * pow2 (- e) * pow2 e == q)%Q.
Proof.
  rewrite <- Qmult_assoc, <- pow2_add.
  replace (- e + e) with 0 by lia. apply Qmult_1_r.
Qed.

Lemma pow2_succ (k : Z) : (pow2 (k + 1) == 2 * pow2 k)%Q.
Proof. rewrite pow2_add. rewrite Qmult_comm. reflexivity. Qed.

(** Scaling by a power of two keeps the order. *)
Lemma scale_le (x y : Q) (e : Z) : (x <= y)%Q -> (x * pow2 e <= y * pow2 e)%Q.
Proof. intros H. apply Qmult_le_compat_r; [exact H |]. apply Qlt_le_weak, pow2_pos. Qed.

Lemma scale_lt (x y : Q) (e : Z) : (x < y)%Q -> (x * pow2 e < y * pow2 e)%Q.
Proof. intros H. apply Qmult_lt_r; [apply pow2_pos | exact H]. Qed.

End Pow2.

(** ** The binade of a rational *)

Section Mag.

(** [2^(a-b)] as a quotient of integer powers. *)
Lemma pow2_sub_mul (a b : Z) : 0 <= a -> 0 <= b ->
  (pow2 (a - b) * inject_Z (2 ^ b) == inject_Z (2 ^ a))%Q.
Proof.
  intros Ha Hb. rewrite <- (pow2_inject b Hb), <- (pow2_inject a Ha).
  rewrite <- pow2_add. replace (a - b + b) with a by lia. reflexivity.
Qed.

Lemma Qabs_num_den (q : Q) :
  (Qabs q * inject_Z (Zpos (Qden q)) == inject_Z (Z.abs (Qnum q)))%Q.
Proof.
  destruct q as [n d]. unfold Qabs, Qeq, Qmult, inject_Z. cbn [Qnum Qden].
  rewrite Pos.mul_1_r. lia.
Qed.

(** Comparing [|q|] with [2^(a-b)] by cross multiplication. *)
Lemma Qabs_lt_pow2_sub (q : Q) (a b : Z) : 0 <= a -> 0 <= b ->
  Z.abs (Qnum q) * 2 ^ b < 2 ^ a * Zpos (Qden q) ->
  (Qabs q < pow2 (a - b))%Q.
Proof.
  intros Ha Hb H.
  assert (P : (0 < inject_Z (Zpos (Qden q)) * inject_Z (2 ^ b))%Q).
  { rewrite <- inject_Z_mult. change 0%Q with (inject_Z 0). rewrite <- Zlt_Qlt.
    apply Z.mul_pos_pos; [reflexivity | apply Z.pow_pos_nonneg; lia]. }
  apply (Qmult_lt_r _ _ _ P).
  rewrite Qmult_assoc, Qabs_num_den.
  rewrite (Qmult_comm (inject_Z (Z.pos (Qden q)))), Qmult_assoc, pow2_sub_mul by assumption.
  rewrite <- !inject_Z_mult, <- Zlt_Qlt. exact H.
Qed.

Lemma Qabs_ge_pow2_sub (q : Q) (a b : Z) : 0 <= a -> 0 <= b ->
  2 ^ a * Zpos (Qden q) <= Z.abs (Qnum q) * 2 ^ b ->
  (pow2 (a - b) <= Qabs q)%Q.
Proof.
  intros Ha Hb H.
  assert (P : (0 < inject_Z (Zpos (Qden q)) * inject_Z (2 ^ b))%Q).
  { rewrite <- inject_Z_mult. change 0%Q with (inject_Z 0). rewrite <- Zlt_Qlt.
    apply Z.mul_pos_pos; [reflexivity | apply Z.pow_pos_nonneg; lia]. }
  apply (Qmult_le_r _ _ _ P).
  rewrite (Qmult_assoc (Qabs q)), Qabs_num_den.
  rewrite (Qmult_comm (inject_Z (Z.pos (Qden q)))), Qmult_assoc, pow2_sub_mul by assumption.
  rewrite <- !inject_Z_mult, <- Zle_Qle. exact H.
Qed.

(** [mag q] is the binade of a non-zero [q]. *)
Lemma mag_spec (q : Q) : ~ (q == 0)%Q ->
  (pow2 (mag q) <= Qabs q < pow2 (mag q + 1))%Q.
Proof.
  intros Hq. unfold mag.
  set (n := Z.abs (Qnum q)). set (d := Zpos (Qden q)).
  assert (Hn : 0 < n).
  { unfold n. destruct q as [[| p | p] dd]; cbn; try lia.
    exfalso. apply Hq. reflexivity. }
  assert (Hd : 0 < d) by reflexivity.
  destruct (Z.log2_spec n Hn) as [Ln Un].
  destruct (Z.log2_spec d Hd) as [Ld Ud].
  pose proof (Z.log2_nonneg n) as Nn. pose proof (Z.log2_nonneg d) as Nd.
  set (a := Z.log2 n) in *. set (b := Z.log2 d) in *.
  assert (Up : (Qabs q < pow2 (a - b + 1))%Q).
  { replace (a - b + 1) with ((a + 1) - b) by lia.
    apply Qabs_lt_pow2_sub; try lia. fold n d.
    replace (Z.succ a) with (a + 1) in Un by lia.
    apply Z.lt_le_trans with (2 ^ (a + 1) * 2 ^ b).
    - apply Z.mul_lt_mono_pos_r; [apply Z.pow_pos_nonneg; lia | exact Un].
    - apply Z.mul_le_mono_nonneg_l; [apply Z.pow_nonneg; lia | exact Ld]. }
  assert (Lo : (pow2 (a - b - 1) <= Qabs q)%Q).
  { replace (a - b - 1) with (a - (b + 1)) by lia.
    apply Qabs_ge_pow2_sub; try lia. fold n d.
    replace (Z.succ b) with (b + 1) in Ud by lia.
    apply Z.le_trans with (2 ^ a * 2 ^ (b + 1)).
    - apply Z.mul_le_mono_nonneg_l; [apply Z.pow_nonneg; lia | lia].
    - apply Z.mul_le_mono_nonneg_r; [apply Z.pow_nonneg; lia | exact Ln]. }
  destruct (Qle_bool (pow2 (a - b)) (Qabs q)) eqn:E.
  - apply Qle_bool_iff in E. split; [exact E | exact Up].
  - split; [exact Lo |].
    replace (a - b - 1 + 1) with (a - b) by lia.
    apply Qnot_le_lt. intros L. apply Qle_bool_iff in L. congruence.
Qed.

(** The binade is monotone in the magnitude. *)
Lemma mag_mono (x y : Q) : ~ (x == 0)%Q -> (Qabs x <= Qabs y)%Q -> mag x <= mag y.
Proof.
  intros Hx H.
  assert (Hy : ~ (y == 0)%Q).
  { intros E. rewrite E in H. change (Qabs 0) with 0%Q in H.
    apply Hx. apply Qabs_Qle_condition in H. destruct H as [A B].
    apply Qle_antisym; assumption. }
  destruct (mag_spec x Hx) as [Lx _]. destruct (mag_spec y Hy) as [_ Uy].
  destruct (Z_le_gt_dec (mag x) (mag y)) as [L | G]; [exact L | exfalso].
  assert (C : (pow2 (mag y + 1) <= pow2 (mag x))%Q) by (apply pow2_le; lia).
  apply (Qlt_irrefl (Qabs y)).
  eapply Qlt_le_trans; [exact Uy |].
  eapply Qle_trans; [exact C |]. eapply Qle_trans; [exact Lx | exact H].
Qed.

Lemma ulp_exp_mono (x y : Q) : ~ (x == 0)%Q -> (Qabs x <= Qabs y)%Q ->
  ulp_exp x <= ulp_exp y.
Proof. intros Hx H. unfold ulp_exp. pose proof (mag_mono x y Hx H). lia. Qed.

Lemma ulp_exp_upper (q : Q) : ~ (q == 0)%Q -> (Qabs q < pow2 (ulp_exp q + 53))%Q.
Proof.
  intros Hq. destruct (mag_spec q Hq) as [_ U].
  eapply Qlt_le_trans; [exact U |]. apply pow2_le. unfold ulp_exp. lia.
Qed.

Lemma ulp_exp_lower (q : Q) : ~ (q == 0)%Q -> -1074 < ulp_exp q ->
  (pow2 (ulp_exp q + 52) <= Qabs q)%Q.
Proof.
  intros Hq H. destruct (mag_spec q Hq) as [L _].
  eapply Qle_trans; [| exact L]. apply pow2_le. unfold ulp_exp in *. lia.
Qed.

End Mag.

(** ** Rounding to an integer *)

Section RoundHalfEven.

Lemma Qnum_den_split (a : Z) (d : positive) :
  a = Zpos d * (a / Zpos d) + a mod Zpos d /\ 0 <= a mod Zpos d < Zpos d.
Proof.
  split.
  - apply Z.div_mod. discriminate.
  - apply Z.mod_pos_bound. reflexivity.
Qed.

Ltac open_round a d :=
  unfold round_half_even, Qfloor; cbn [Qnum Qden];
  destruct (Qnum_den_split a d) as [E B];
  set (q := a / Zpos d) in *; set (r := a mod Zpos d) in *;
  destruct (Z.compare_spec (2 * a - 2 * q * Zpos d) (Zpos d));
  try destruct (Z.even q).

Lemma round_half_even_lower (n : Z) (x : Q) :
  (inject_Z n <= x)%Q -> n <= round_half_even x.
Proof.
  destruct x as [a d]. unfold Qle, inject_Z. cbn [Qnum Qden]. intros H.
  open_round a d; nia.
Qed.

Lemma round_half_even_upper (n : Z) (x : Q) :
  (x <= inject_Z n)%Q -> round_half_even x <= n.
Proof.
  destruct x as [a d]. unfold Qle, inject_Z. cbn [Qnum Qden]. intros H.
  open_round a d; nia.
Qed.

Lemma round_half_even_nearest (a : Z) (d : positive) :
  2 * a - Zpos d <= 2 * Zpos d * round_half_even (a # d) <= 2 * a + Zpos d.
Proof. open_round a d; nia. Qed.

Lemma round_half_even_tie (a : Z) (d : positive) :
  2 * Zpos d * round_half_even (a # d) - 2 * a = Zpos d \/
  2 * a - 2 * Zpos d * round_half_even (a # d) = Zpos d ->
  Z.even (round_half_even (a # d)) = true.
Proof.
  unfold round_half_even, Qfloor; cbn [Qnum Qden].
  destruct (Qnum_den_split a d) as [E B].
  set (q := a / Zpos d) in *. set (r := a mod Zpos d) in *.
  destruct (Z.compare_spec (2 * a - 2 * q * Zpos d) (Zpos d)) as [C | C | C].
  - intros _. destruct (Z.even q) eqn:Ev; [exact Ev |].
    rewrite Z.even_add, Ev. reflexivity.
  - intros [T | T]; nia.
  - intros [T | T]; nia.
Qed.

Lemma round_half_even_mono (x y : Q) :
  (x <= y)%Q -> round_half_even x <= round_half_even y.
Proof.
  destruct x as [a d], y as [b e]. unfold Qle. cbn [Qnum Qden]. intros H.
  pose proof (round_half_even_nearest a d) as Nx.
  pose proof (round_half_even_nearest b e) as Ny.
  pose proof (round_half_even_tie a d) as Tx.
  pose proof (round_half_even_tie b e) as Ty.
  remember (round_half_even (a # d)) as rx eqn:Erx.
  remember (round_half_even (b # e)) as ry eqn:Ery.
  clear Erx Ery.
  destruct (Z_le_gt_dec rx ry) as [L | G]; [exact L | exfalso].
  assert (P : 0 < Zpos d * Zpos e) by lia.
  assert (S1 : 2 * Zpos d * ry + Zpos d <= 2 * a) by nia.
  assert (S2 : Zpos e * (2 * Zpos d * ry + Zpos d) <= Zpos e * (2 * a))
    by (apply Z.mul_le_mono_nonneg_l; lia).
  assert (S3 : Zpos d * (2 * Zpos e * ry + Zpos e) <= Zpos d * (2 * b)) by nia.
  assert (E1 : 2 * b = 2 * Zpos e * ry + Zpos e) by nia.
  assert (E0 : a * Zpos e = b * Zpos d) by nia.
  assert (S4 : Zpos e * (2 * Zpos d * rx) <= Zpos e * (2 * a + Zpos d))
    by (apply Z.mul_le_mono_nonneg_l; lia).
  assert (U : rx <= ry + 1) by nia.
  assert (Eq : rx = ry + 1) by lia. subst rx.
  assert (E2 : 2 * Zpos d * (ry + 1) = 2 * a + Zpos d) by nia.
  assert (Ex : Z.even (ry + 1) = true) by (apply Tx; left; lia).
  assert (Ey : Z.even ry = true) by (apply Ty; right; lia).
  rewrite Z.even_add, Ey in Ex. discriminate Ex.
Qed.

(** The distance to the rounded value, on rationals. *)
Lemma round_half_even_error (x : Q) :
  (x - (1 # 2) <= inject_Z (round_half_even x) <= x + (1 # 2))%Q.
Proof.
  destruct x as [a d]. pose proof (round_half_even_nearest a d) as N.
  remember (round_half_even (a # d)) as r eqn:Er. clear Er.
  unfold Qminus, Qplus, Qopp, Qle, inject_Z. cbn [Qnum Qden].
  rewrite !Pos2Z.inj_mul. split; nia.
Qed.

Lemma Qtrunc_nonneg (x : Q) : (-1 < x)%Q -> 0 <= Qtrunc x.
Proof.
  destruct x as [a d]. unfold Qlt, Qtrunc. cbn [Qnum Qden]. intros H.
  destruct (Z_lt_le_dec a 0) as [Hneg | Hpos].
  - replace a with (- (- a)) by lia.
    rewrite Z.quot_opp_l by discriminate.
    rewrite Z.quot_small by lia. lia.
  - apply Z.quot_pos; lia.
Qed.

Lemma Qtrunc_neg (x : Q) : (x <= -1)%Q -> Qtrunc x <= -1.
Proof.
  destruct x as [a d]. unfold Qle, Qtrunc. cbn [Qnum Qden]. intros H.
  replace a with (- (- a)) by lia.
  rewrite Z.quot_opp_l by discriminate.
  rewrite Z.quot_div_nonneg by lia.
  assert (1 <= - a / Zpos d) by (apply Z.div_le_lower_bound; lia).
  lia.
Qed.

Lemma Qtrunc_floor_nonneg (x : Q) : (0 <= x)%Q -> Qtrunc x = Qfloor x.
Proof.
  destruct x as [a d]. unfold Qle, Qtrunc, Qfloor. cbn [Qnum Qden]. intros H.
  apply Z.quot_div_nonneg; lia.
Qed.

End RoundHalfEven.

(** ** Rounding to binary64 *)

Section Round64.

Lemma round64_nonneg (q : Q) : (0 <= q)%Q -> (0 <= round64 q)%Q.
Proof.
  intros H. unfold round64. apply Qmult_le_0_compat.
  - change 0%Q with (inject_Z 0). rewrite <- Zle_Qle.
    apply round_half_even_lower. change (inject_Z 0) with 0%Q.
    apply Qmult_le_0_compat; [exact H | apply Qlt_le_weak, pow2_pos].
  - apply Qlt_le_weak, pow2_pos.
Qed.

Lemma round64_nonpos (q : Q) : (q <= 0)%Q -> (round64 q <= 0)%Q.
Proof.
  intros H. unfold round64.
  assert (R : round_half_even (q * pow2 (- ulp_exp q)) <= 0).
  { apply round_half_even_upper. change (inject_Z 0) with 0%Q.
    rewrite <- (Qmult_0_l (pow2 (- ulp_exp q))). apply scale_le. exact H. }
  rewrite <- (Qmult_0_l (pow2 (ulp_exp q))). apply scale_le.
  change 0%Q with (inject_Z 0). rewrite <- Zle_Qle. exact R.
Qed.

(** With the same exponent, rounding keeps the order. *)
Lemma round64_mono_same (x y : Q) :
  ulp_exp x = ulp_exp y -> (x <= y)%Q -> (round64 x <= round64 y)%Q.
Proof.
  intros E H. unfold round64. rewrite E. apply scale_le.
  rewrite <- Zle_Qle. apply round_half_even_mono. apply scale_le. exact H.
Qed.

(** A positive value rounds to at least the lower end of its binade and
    to at most the upper end. *)
Lemma round64_pos_lower (q : Q) : (0 < q)%Q -> -1074 < ulp_exp q ->
  (pow2 (ulp_exp q + 52) <= round64 q)%Q.
Proof.
  intros Hq He.
  assert (Nz : ~ (q == 0)%Q) by (intros E; rewrite E in Hq; discriminate Hq).
  pose proof (ulp_exp_lower q Nz He) as L.
  rewrite (Qabs_pos q (Qlt_le_weak _ _ Hq)) in L.
  unfold round64. set (e := ulp_exp q) in *.
  rewrite pow2_add, Qmult_comm. apply scale_le.
  rewrite (pow2_inject 52) by lia. rewrite <- Zle_Qle.
  apply round_half_even_lower. rewrite <- (pow2_inject 52) by lia.
  apply (Qmult_le_r _ _ (pow2 e)); [apply pow2_pos |].
  rewrite pow2_cancel, Qmult_comm, <- pow2_add. exact L.
Qed.

Lemma round64_pos_upper (q : Q) : (0 < q)%Q ->
  (round64 q <= pow2 (ulp_exp q + 53))%Q.
Proof.
  intros Hq.
  assert (Nz : ~ (q == 0)%Q) by (intros E; rewrite E in Hq; discriminate Hq).
  pose proof (ulp_exp_upper q Nz) as U.
  rewrite (Qabs_pos q (Qlt_le_weak _ _ Hq)) in U.
  unfold round64. set (e := ulp_exp q) in *.
  rewrite pow2_add, (Qmult_comm (pow2 e)). apply scale_le.
  rewrite (pow2_inject 53) by lia. rewrite <- Zle_Qle.
  apply round_half_even_upper. rewrite <- (pow2_inject 53) by lia.
  apply (Qmult_le_r _ _ (pow2 e)); [apply pow2_pos |].
  rewrite pow2_cancel, Qmult_comm, <- pow2_add. apply Qlt_le_weak. exact U.
Qed.

Lemma round64_neg_upper (q : Q) : (q < 0)%Q -> -1074 < ulp_exp q ->
  (round64 q <= - pow2 (ulp_exp q + 52))%Q.
Proof.
  intros Hq He.
  assert (Nz : ~ (q == 0)%Q) by (intros E; rewrite E in Hq; discriminate Hq).
  pose proof (ulp_exp_lower q Nz He) as L.
  rewrite (Qabs_neg q (Qlt_le_weak _ _ Hq)) in L.
  unfold round64. set (e := ulp_exp q) in *.
  assert (R : round_half_even (q * pow2 (- e)) <= - 2 ^ 52).
  { apply round_half_even_upper. rewrite inject_Z_opp, <- (pow2_inject 52) by lia.
    apply (Qmult_le_r _ _ (pow2 e)); [apply pow2_pos |].
    rewrite pow2_cancel.
    setoid_replace (- pow2 52 * pow2 e)%Q with (- (pow2 (e + 52)))%Q
      by (rewrite pow2_add; ring).
    apply Qopp_le_compat in L. rewrite Qopp_involutive in L. exact L. }
  rewrite Zle_Qle in R. rewrite inject_Z_opp, <- (pow2_inject 52) in R by lia.
  setoid_replace (- pow2 (e + 52))%Q with (- pow2 52 * pow2 e)%Q
    by (rewrite pow2_add; ring).
  apply scale_le. exact R.
Qed.

Lemma round64_neg_lower (q : Q) : (q < 0)%Q ->
  (- pow2 (ulp_exp q + 53) <= round64 q)%Q.
Proof.
  intros Hq.
  assert (Nz : ~ (q == 0)%Q) by (intros E; rewrite E in Hq; discriminate Hq).
  pose proof (ulp_exp_upper q Nz) as U.
  rewrite (Qabs_neg q (Qlt_le_weak _ _ Hq)) in U.
  unfold round64. set (e := ulp_exp q) in *.
  assert (R : - 2 ^ 53 <= round_half_even (q * pow2 (- e))).
  { apply round_half_even_lower. rewrite inject_Z_opp, <- (pow2_inject 53) by lia.
    apply (Qmult_le_r _ _ (pow2 e)); [apply pow2_pos |].
    rewrite pow2_cancel.
    setoid_replace (- pow2 53 * pow2 e)%Q with (- (pow2 (e + 53)))%Q
      by (rewrite pow2_add; ring).
    apply Qlt_le_weak in U. apply Qopp_le_compat in U.
    rewrite Qopp_involutive in U. exact U. }
  rewrite Zle_Qle in R. rewrite inject_Z_opp, <- (pow2_inject 53) in R by lia.
  setoid_replace (- pow2 (e + 53))%Q with (- pow2 53 * pow2 e)%Q
    by (rewrite pow2_add; ring).
  apply scale_le. exact R.
Qed.

(** Rounding to binary64 keeps the order. *)
Theorem round64_mono (x y : Q) : (x <= y)%Q -> (round64 x <= round64 y)%Q.
Proof.
  intros H.
  destruct (Qlt_le_dec 0 x) as [Px | Nx].
  - (* 0 < x <= y *)
    assert (Py : (0 < y)%Q) by exact (Qlt_le_trans _ _ _ Px H).
    assert (Nz : ~ (x == 0)%Q) by (intros E; rewrite E in Px; discriminate Px).
    assert (A : (Qabs x <= Qabs y)%Q).
    { rewrite !Qabs_pos by (apply Qlt_le_weak; assumption). exact H. }
    pose proof (ulp_exp_mono x y Nz A) as Em.
    destruct (Z.eq_dec (ulp_exp x) (ulp_exp y)) as [E | NE].
    + apply round64_mono_same; assumption.
    + eapply Qle_trans; [apply round64_pos_upper; exact Px |].
      eapply Qle_trans; [| apply round64_pos_lower; [exact Py |]].
      * apply pow2_le. lia.
      * unfold ulp_exp in *. lia.
  - destruct (Qlt_le_dec y 0) as [Ny | Py].
    + (* x <= y < 0 *)
      assert (Nx' : (x < 0)%Q) by exact (Qle_lt_trans _ _ _ H Ny).
      assert (Nz : ~ (y == 0)%Q) by (intros E; rewrite E in Ny; discriminate Ny).
      assert (A : (Qabs y <= Qabs x)%Q).
      { rewrite !Qabs_neg by (apply Qlt_le_weak; assumption).
        apply Qopp_le_compat. exact H. }
      pose proof (ulp_exp_mono y x Nz A) as Em.
      destruct (Z.eq_dec (ulp_exp x) (ulp_exp y)) as [E | NE].
      * apply round64_mono_same; assumption.
      * eapply Qle_trans; [apply round64_neg_upper; [exact Nx' |] |].
        { unfold ulp_exp in *. lia. }
        eapply Qle_trans; [| apply round64_neg_lower; exact Ny].
        apply Qopp_le_compat. apply pow2_le. lia.
    + (* x <= 0 <= y *)
      eapply Qle_trans; [apply round64_nonpos; exact Nx |].
      apply round64_nonneg; exact Py.
Qed.

(** Rounding does not depend on how the rational is written. *)
Lemma round64_proper (x y : Q) : (x == y)%Q -> (round64 x == round64 y)%Q.
Proof.
  intros E. apply Qle_antisym; apply round64_mono; rewrite E; apply Qle_refl.
Qed.

(** The rounding error is at most half a unit in the last place. *)
Lemma round64_error (q : Q) :
  (q - pow2 (ulp_exp q - 1) <= round64 q <= q + pow2 (ulp_exp q - 1))%Q.
Proof.
  unfold round64. set (e := ulp_exp q).
  destruct (round_half_even_error (q * pow2 (- e))) as [Lo Hi].
  apply (scale_le _ _ e) in Lo. apply (scale_le _ _ e) in Hi.
  assert (Half : (pow2 (e - 1) == (1 # 2) * pow2 e)%Q).
  { unfold Zminus. rewrite pow2_add. rewrite Qmult_comm. reflexivity. }
  split.
  - eapply Qle_trans; [| exact Lo]. rewrite Half.
    setoid_replace ((q * pow2 (- e) - (1 # 2)) * pow2 e)%Q
      with (q * pow2 (- e) * pow2 e - (1 # 2) * pow2 e)%Q by ring.
    rewrite pow2_cancel. apply Qle_refl.
  - eapply Qle_trans; [exact Hi |]. rewrite Half.
    setoid_replace ((q * pow2 (- e) + (1 # 2)) * pow2 e)%Q
      with (q * pow2 (- e) * pow2 e + (1 # 2) * pow2 e)%Q by ring.
    rewrite pow2_cancel. apply Qle_refl.
Qed.

End Round64.

(** ** Floats *)

Section Floats.

Lemma round64_0 : (round64 0 == 0)%Q.
Proof.
  apply Qle_antisym; [apply round64_nonpos | apply round64_nonneg]; apply Qle_refl.
Qed.

(** What [fl] delivers when it delivers a finite number. *)
Lemma fl_Fin_inv (q r : Q) :
  fl q = Fin r ->
  (r == round64 q)%Q /\ (- pow2 1024 < round64 q < pow2 1024)%Q.
Proof.
  unfold fl. cbv zeta. generalize (round64 q). intros rr.
  destruct (Qle_bool (pow2 1024) rr) eqn:Hi; [discriminate |].
  destruct (Qle_bool rr (- pow2 1024)) eqn:Lo; [discriminate |].
  intros H. assert (E : r = Qred rr) by congruence. subst r.
  split; [exact (Qred_correct rr) |]. split.
  - apply Qnot_le_lt. intros L. apply Qle_bool_iff in L. congruence.
  - apply Qnot_le_lt. intros L. apply Qle_bool_iff in L. congruence.
Qed.

(** A rounded value within the finite range is delivered as it is. *)
Lemma fl_Fin_intro (q : Q) :
  (- pow2 1024 < round64 q < pow2 1024)%Q ->
  exists r, fl q = Fin r /\ (r == round64 q)%Q.
Proof.
  unfold fl. cbv zeta. generalize (round64 q). intros rr [Lo Hi].
  destruct (Qle_bool (pow2 1024) rr) eqn:A.
  { apply Qle_bool_iff in A. exfalso. exact (Qlt_not_le _ _ Hi A). }
  destruct (Qle_bool rr (- pow2 1024)) eqn:B.
  { apply Qle_bool_iff in B. exfalso. exact (Qlt_not_le _ _ Lo B). }
  exists (Qred rr). split; [reflexivity | exact (Qred_correct rr)].
Qed.

(** A value between two bounds whose roundings are finite has a finite
    rounding between theirs. *)
Lemma fl_between (q lo hi : Q) :
  (lo <= q <= hi)%Q ->
  (- pow2 1024 < round64 lo)%Q -> (round64 hi < pow2 1024)%Q ->
  exists r, fl q = Fin r /\ (round64 lo <= r <= round64 hi)%Q.
Proof.
  intros [L H] Blo Bhi.
  pose proof (round64_mono _ _ L) as ML. pose proof (round64_mono _ _ H) as MH.
  destruct (fl_Fin_intro q) as (r & E & Er).
  - split; [eapply Qlt_le_trans | eapply Qle_lt_trans]; eassumption.
  - exists r. split; [exact E |]. rewrite Er. split; assumption.
Qed.

Lemma float_le_Fin (a b : Q) : float_le (Fin a) (Fin b) <-> (a <= b)%Q.
Proof. unfold float_le. cbn [fle]. apply Qle_bool_iff. Qed.

Lemma float_lt_Fin (a b : Q) : float_lt (Fin a) (Fin b) <-> (a < b)%Q.
Proof.
  unfold float_lt. cbn [flt]. rewrite negb_true_iff. split.
  - intros H. apply Qnot_le_lt. intros L. apply Qle_bool_iff in L. congruence.
  - intros H. destruct (Qle_bool b a) eqn:E; [| reflexivity].
    apply Qle_bool_iff in E. exfalso. exact (Qlt_not_le _ _ H E).
Qed.

Lemma flt_false_Fin (a b : Q) : flt (Fin a) (Fin b) = false <-> (b <= a)%Q.
Proof.
  cbn [flt]. rewrite negb_false_iff. apply Qle_bool_iff.
Qed.

(** Rounding keeps the order, infinities included. *)
Lemma fl_mono (x y : Q) : (x <= y)%Q -> float_le (fl x) (fl y).
Proof.
  intros H. pose proof (round64_mono _ _ H) as M.
  assert (P : (- pow2 1024 < pow2 1024)%Q) by reflexivity.
  unfold float_le, fl. cbv zeta.
  revert M. generalize (round64 x) (round64 y). intros rx ry M.
  destruct (Qle_bool (pow2 1024) rx) eqn:Ax.
  - apply Qle_bool_iff in Ax.
    assert (Ay : Qle_bool (pow2 1024) ry = true)
      by (apply Qle_bool_iff; eapply Qle_trans; eassumption).
    rewrite Ay. reflexivity.
  - destruct (Qle_bool rx (- pow2 1024)) eqn:Bx; cbn [fle].
    + destruct (Qle_bool (pow2 1024) ry);
        [| destruct (Qle_bool ry (- pow2 1024))]; reflexivity.
    + destruct (Qle_bool (pow2 1024) ry) eqn:Ay; [reflexivity |].
      destruct (Qle_bool ry (- pow2 1024)) eqn:By.
      * exfalso. apply Qle_bool_iff in By.
        assert (C : Qle_bool rx (- pow2 1024) = true)
          by (apply Qle_bool_iff; eapply Qle_trans; eassumption).
        congruence.
      * apply Qle_bool_iff. rewrite !Qred_correct. exact M.
Qed.

(** What [true_div] delivers. *)
Lemma true_div_inv (a b : Z) (x : float) :
  true_div a b = Ok x ->
  b <> 0 /\ exists q, x = Fin q /\ (q == round64 (inject_Z a / inject_Z b))%Q.
Proof.
  unfold true_div. destruct (Z.eqb_spec b 0) as [-> | Nb]; [discriminate |].
  destruct (fl (inject_Z a / inject_Z b)) as [q | | |] eqn:E; try discriminate.
  intros H. injection H as <-. split; [exact Nb |].
  exists q. split; [reflexivity |]. exact (proj1 (fl_Fin_inv _ _ E)).
Qed.

(** The quotient of integers by a positive integer keeps the order. *)
Lemma Qdiv_le_pos (a b c : Z) : 0 < c -> a <= b ->
  (inject_Z a / inject_Z c <= inject_Z b / inject_Z c)%Q.
Proof.
  intros Hc H. unfold Qdiv. apply Qmult_le_compat_r.
  - rewrite <- Zle_Qle. exact H.
  - apply Qlt_le_weak, Qinv_lt_0_compat. change 0%Q with (inject_Z 0).
    rewrite <- Zlt_Qlt. exact Hc.
Qed.

(** A quotient of integers against a fraction, by cross
    multiplication. *)
Lemma Qdiv_le_frac (a c n : Z) (m : positive) : 0 < c ->
  a * Zpos m <= n * c -> (inject_Z a / inject_Z c <= n # m)%Q.
Proof.
  intros Hc H. destruct c as [| p | p]; try lia.
  unfold Qdiv, Qinv, Qmult, Qle, inject_Z. cbn [Qnum Qden].
  rewrite Pos.mul_1_l. lia.
Qed.

Lemma Qdiv_ge_frac (a c n : Z) (m : positive) : 0 < c ->
  n * c <= a * Zpos m -> (n # m <= inject_Z a / inject_Z c)%Q.
Proof.
  intros Hc H. destruct c as [| p | p]; try lia.
  unfold Qdiv, Qinv, Qmult, Qle, inject_Z. cbn [Qnum Qden].
  rewrite Pos.mul_1_l. lia.
Qed.

Lemma true_div_mono (a b c : Z) (x y : float) :
  0 < c -> a <= b -> true_div a c = Ok x -> true_div b c = Ok y -> float_le x y.
Proof.
  intros Hc H Hx Hy.
  destruct (true_div_inv _ _ _ Hx) as (_ & qx & -> & Ex).
  destruct (true_div_inv _ _ _ Hy) as (_ & qy & -> & Ey).
  apply float_le_Fin. rewrite Ex, Ey. apply round64_mono.
  apply Qdiv_le_pos; assumption.
Qed.

(** A quotient that is exactly at most [B] rounds to at most the
    rounding of [B]. *)
Lemma true_div_le_bound (a c : Z) (x : float) (B : Q) :
  true_div a c = Ok x -> (inject_Z a / inject_Z c <= B)%Q ->
  exists q, x = Fin q /\ (q <= round64 B)%Q.
Proof.
  intros Hx H. destruct (true_div_inv _ _ _ Hx) as (_ & q & -> & E).
  exists q. split; [reflexivity |]. rewrite E. apply round64_mono. exact H.
Qed.

Lemma true_div_ge_bound (a c : Z) (x : float) (B : Q) :
  true_div a c = Ok x -> (B <= inject_Z a / inject_Z c)%Q ->
  exists q, x = Fin q /\ (round64 B <= q)%Q.
Proof.
  intros Hx H. destruct (true_div_inv _ _ _ Hx) as (_ & q & -> & E).
  exists q. split; [reflexivity |]. rewrite E. apply round64_mono. exact H.
Qed.

(** A non-negative dividend over a positive divisor of moderate size
    never overflows. *)
Lemma true_div_nonneg (a c : Z) (x : float) :
  0 <= a -> 0 < c -> true_div a c = Ok x ->
  exists q, x = Fin q /\ (0 <= q)%Q.
Proof.
  intros Ha Hc Hx.
  destruct (true_div_ge_bound a c x 0 Hx) as (q & -> & B).
  - apply Qle_shift_div_l.
    + change 0%Q with (inject_Z 0). rewrite <- Zlt_Qlt. exact Hc.
    + rewrite Qmult_0_l. change 0%Q with (inject_Z 0). rewrite <- Zle_Qle. exact Ha.
  - exists q. split; [reflexivity |]. rewrite <- round64_0. exact B.
Qed.

End Floats.

(** ** The explanation generator *)

Section Reasons.

Lemma ratio_rule_true (sr : float) :
  ratio_rule sr = true <-> float_lt sr SUSPICIOUS_RATIO_THRESHOLD.
Proof. reflexivity. Qed.

Lemma ratio_rule_false (sr : float) :
  ratio_rule sr = false <-> ~ float_lt sr SUSPICIOUS_RATIO_THRESHOLD.
Proof.
  unfold float_lt, ratio_rule.
  destruct (flt sr SUSPICIOUS_RATIO_THRESHOLD); split; congruence.
Qed.

Lemma market_rule_true (d : Z) : market_rule d = true <-> d < MARKET_DIFF_THRESHOLD.
Proof. unfold market_rule. apply Z.ltb_lt. Qed.

Lemma market_rule_false (d : Z) : market_rule d = false <-> MARKET_DIFF_THRESHOLD <= d.
Proof. unfold market_rule. apply Z.ltb_ge. Qed.

(** The list when the ratio rule fires: the ratio reason, then the
    market-diff reason if its rule fires too. *)
Lemma generate_reasons_ratio (sr : float) (d km : Z) (s : bool) :
  ratio_rule sr = true ->
  generate_reasons sr d km s
  = (percentage <- py_int (fmul sr (Fin 100)) ;;
     Ok (ratio_reason percentage km
           :: (if market_rule d then [market_reason d] else [])))%result.
Proof.
  unfold ratio_rule, generate_reasons. intros ->.
  destruct (py_int (fmul sr (Fin 100))) as [pct | e]; cbn [rbind]; [| reflexivity].
  fold (market_rule d). destruct (market_rule d); reflexivity.
Qed.

(** The list when it does not: the market-diff reason if its rule
    fires, else the generic reason for a flagged car. *)
Lemma generate_reasons_no_ratio (sr : float) (d km : Z) (s : bool) :
  ratio_rule sr = false ->
  generate_reasons sr d km s
  = Ok ((if market_rule d then [market_reason d] else [])
          ++ (if negb (market_rule d) && s then [generic_reason] else [])).
Proof.
  unfold ratio_rule, generate_reasons. intros ->. cbn [rbind].
  fold (market_rule d). destruct (market_rule d), s; reflexivity.
Qed.

(** Every list that [generate_reasons] returns has one of the two
    shapes. *)
Lemma generate_reasons_inv (sr : float) (d km : Z) (s : bool) (l : list string) :
  generate_reasons sr d km s = Ok l ->
  (ratio_rule sr = true
   /\ exists pct, py_int (fmul sr (Fin 100)) = Ok pct
        /\ l = ratio_reason pct km
                 :: (if market_rule d then [market_reason d] else []))
  \/ (ratio_rule sr = false
      /\ l = (if market_rule d then [market_reason d] else [])
               ++ (if negb (market_rule d) && s then [generic_reason] else [])).
Proof.
  intros H. destruct (ratio_rule sr) eqn:R.
  - left. split; [reflexivity |]. rewrite (generate_reasons_ratio _ _ _ _ R) in H.
    destruct (py_int (fmul sr (Fin 100))) as [pct | e]; [| discriminate H].
    cbn [rbind] in H. injection H as <-. exists pct. split; reflexivity.
  - right. split; [reflexivity |]. rewrite (generate_reasons_no_ratio _ _ _ _ R) in H.
    injection H as <-. reflexivity.
Qed.

(** The three templates start with different letters. *)
Lemma ratio_reason_not_generic (p km : Z) : ratio_reason p km <> generic_reason.
Proof. unfold ratio_reason, generic_reason. cbn [String.append]. discriminate. Qed.

Lemma market_reason_not_generic (d : Z) : market_reason d <> generic_reason.
Proof. unfold market_reason, generic_reason. cbn [String.append]. discriminate. Qed.

Lemma ratio_reason_not_market (p km d : Z) : ratio_reason p km <> market_reason d.
Proof. unfold ratio_reason, market_reason. cbn [String.append]. discriminate. Qed.

Lemma generic_reason_not_market (d : Z) : generic_reason <> market_reason d.
Proof. unfold market_reason, generic_reason. cbn [String.append]. discriminate. Qed.

Lemma round64_70 : (round64 70 == 70)%Q.
Proof. vm_compute. reflexivity. Qed.

(** Below the threshold a non-negative ratio has a percentage, and it
    is at most 70. *)
Lemma percentage_defined (q : Q) :
  (0 <= q)%Q -> float_lt (Fin q) SUSPICIOUS_RATIO_THRESHOLD ->
  exists pct, py_int (fmul (Fin q) (Fin 100)) = Ok pct /\ 0 <= pct <= 70.
Proof.
  intros Hq Hlt. apply float_lt_Fin in Hlt. cbn [fmul].
  destruct (fl_between (q * 100) 0 70) as (r & E & Lo & Hi).
  - split.
    + change 0%Q with (0 * 100)%Q. apply Qmult_le_compat_r; [exact Hq | discriminate].
    + apply Qle_trans
        with ((3152519739159347 # 4503599627370496) * 100)%Q; [| discriminate].
      apply Qmult_le_compat_r; [apply Qlt_le_weak; exact Hlt | discriminate].
  - rewrite round64_0. reflexivity.
  - rewrite round64_70. reflexivity.
  - rewrite E. cbn [py_int]. eexists. split; [reflexivity |].
    rewrite round64_0 in Lo. rewrite round64_70 in Hi.
    rewrite (Qtrunc_floor_nonneg _ Lo). split.
    + change 0 with (Qfloor 0). apply Qfloor_resp_le. exact Lo.
    + change 70 with (Qfloor 70). apply Qfloor_resp_le. exact Hi.
Qed.

(** A market-diff reason is in a returned list exactly when its rule
    fired. *)
Lemma market_reason_in_shape (sr : float) (d km : Z) (s : bool) (l : list string) :
  generate_reasons sr d km s = Ok l ->
  ((exists d', In (market_reason d') l) <-> market_rule d = true).
Proof.
  intros H. destruct (generate_reasons_inv _ _ _ _ _ H)
    as [(_ & pct & _ & ->) | (_ & ->)]; split.
  - intros [d' Hin]. destruct (market_rule d); [reflexivity | exfalso].
    cbn [In] in Hin. destruct Hin as [E | []].
    exact (ratio_reason_not_market _ _ _ E).
  - intros ->. exists d. right. left. reflexivity.
  - intros [d' Hin]. destruct (market_rule d); [reflexivity | exfalso].
    destruct s; cbn [negb andb app In] in Hin;
      repeat match goal with
        | H : _ \/ _ |- _ => destruct H as [H | H]
        | H : False |- _ => destruct H
        | H : generic_reason = market_reason _ |- _ =>
            destruct (generic_reason_not_market _ H)
        end.
  - intros ->. exists d. left. reflexivity.
Qed.

End Reasons.

(** C3, as the code has it.  Whenever [smart_ratio < 0.70] (the
    binary64 constant), the first reason returned by [generate_reasons]
    is the ratio-based one, and the percentage it cites is
    [int(smart_ratio * 100)]: the binary64 product truncated toward
    zero, not rounded.  For a non-negative ratio that percentage exists
    and the reason is emitted. *)
Theorem generate_reasons_cites_truncated_percentage
    (sr : float) (d km : Z) (s : bool) :
  float_lt sr SUSPICIOUS_RATIO_THRESHOLD ->
  (forall pct, py_int (fmul sr (Fin 100)) = Ok pct ->
     exists rest, generate_reasons sr d km s = Ok (ratio_reason pct km :: rest))
  /\ (forall l, generate_reasons sr d km s = Ok l ->
        exists pct rest, py_int (fmul sr (Fin 100)) = Ok pct
                         /\ l = ratio_reason pct km :: rest)
  /\ (forall q, sr = Fin q -> (0 <= q)%Q ->
        exists pct rest, py_int (fmul sr (Fin 100)) = Ok pct
                         /\ generate_reasons sr d km s
                            = Ok (ratio_reason pct km :: rest)).
Proof.
  intros H. apply ratio_rule_true in H as R.
  rewrite (generate_reasons_ratio sr d km s R).
  split; [| split].
  - intros pct E. rewrite E. cbn [rbind]. eexists. reflexivity.
  - intros l E. destruct (py_int (fmul sr (Fin 100))) as [pct | e];
      [| discriminate E].
    cbn [rbind] in E. injection E as <-. eexists. eexists. split; reflexivity.
  - intros q -> Hq. destruct (percentage_defined q Hq H) as (pct & E & _).
    rewrite E. cbn [rbind]. eexists. eexists. split; reflexivity.
Qed.

Lemma generate_reasons_cites_truncated_percentage_witness :
  float_lt (lit (4 # 15)) SUSPICIOUS_RATIO_THRESHOLD
  /\ py_int (fmul (lit (4 # 15)) (Fin 100)) = Ok 26
  /\ exists rest,
       generate_reasons (lit (4 # 15)) (-110000) 150000 true
       = Ok (ratio_reason 26 150000 :: rest).
Proof.
  assert (H : float_lt (lit (4 # 15)) SUSPICIOUS_RATIO_THRESHOLD)
    by (vm_compute; reflexivity).
  assert (P : py_int (fmul (lit (4 # 15)) (Fin 100)) = Ok 26)
    by (vm_compute; reflexivity).
  split; [exact H |]. split; [exact P |].
  exact (proj1 (generate_reasons_cites_truncated_percentage
                  (lit (4 # 15)) (-110000) 150000 true H) 26 P).
Defined.

(** C3 as stated fails: with 40000 km reported against 150000 expected,
    the ratio is below 0.70 and [round(ratio * 100)] is 27, but the reason
    emitted cites 26 and no reason citing 27 is in the list. *)
Lemma generate_reasons_percentage_not_rounded :
  exists sr reasons,
    true_div 40000 150000 = Ok sr
    /\ float_lt sr SUSPICIOUS_RATIO_THRESHOLD
    /\ py_round (fmul sr (Fin 100)) = Ok 27
    /\ generate_reasons sr (40000 - 150000) 150000 true = Ok reasons
    /\ reasons = [ratio_reason 26 150000; market_reason (-110000)]
    /\ ~ In (ratio_reason 27 150000) reasons.
Proof.
  exists (lit (4 # 15)), [ratio_reason 26 150000; market_reason (-110000)].
  split; [vm_compute; reflexivity |]. split; [vm_compute; reflexivity |].
  split; [vm_compute; reflexivity |]. split; [vm_compute; reflexivity |].
  split; [reflexivity |].
  vm_compute. intros [H | [H | []]]; discriminate H.
Qed.

(** C4.  A suspicious result is never left unexplained: with
    [is_suspicious] true every list that [generate_reasons] returns is
    non-empty, and when neither the ratio rule nor the market-diff rule
    fires it returns exactly the one generic complex-anomaly reason.
    The call returns for every finite non-negative ratio; it fails only
    when the ratio rule fires and [int(smart_ratio * 100)] raises. *)
Theorem generate_reasons_suspicious_nonempty (sr : float) (d km : Z) :
  (forall l, generate_reasons sr d km true = Ok l -> l <> [])
  /\ (~ float_lt sr SUSPICIOUS_RATIO_THRESHOLD -> ~ d < MARKET_DIFF_THRESHOLD ->
      generate_reasons sr d km true = Ok [generic_reason])
  /\ (forall q, sr = Fin q -> (0 <= q)%Q ->
        exists l, generate_reasons sr d km true = Ok l /\ l <> [])
  /\ (forall e, generate_reasons sr d km true = Raise e ->
        float_lt sr SUSPICIOUS_RATIO_THRESHOLD
        /\ py_int (fmul sr (Fin 100)) = Raise e).
Proof.
  assert (N : forall l, generate_reasons sr d km true = Ok l -> l <> []).
  { intros l H. destruct (generate_reasons_inv _ _ _ _ _ H)
      as [(_ & pct & _ & ->) | (_ & ->)]; [discriminate |].
    destruct (market_rule d); discriminate. }
  split; [exact N |]. split; [| split].
  - intros Hr Hm. apply ratio_rule_false in Hr.
    assert (Em : market_rule d = false) by (apply market_rule_false; lia).
    rewrite (generate_reasons_no_ratio _ _ _ _ Hr), Em. reflexivity.
  - intros q -> Hq. destruct (ratio_rule (Fin q)) eqn:R.
    + destruct (percentage_defined q Hq R) as (pct & E & _).
      rewrite (generate_reasons_ratio _ _ _ _ R), E. cbn [rbind].
      eexists. split; [reflexivity | discriminate].
    + rewrite (generate_reasons_no_ratio _ _ _ _ R).
      eexists. split; [reflexivity |]. destruct (market_rule d); discriminate.
  - intros e H. destruct (ratio_rule sr) eqn:R.
    + split; [exact R |]. rewrite (generate_reasons_ratio _ _ _ _ R) in H.
      destruct (py_int (fmul sr (Fin 100))) as [pct | e']; [discriminate H |].
      cbn [rbind] in H. congruence.
    + rewrite (generate_reasons_no_ratio _ _ _ _ R) in H. discriminate H.
Qed.

Lemma generate_reasons_suspicious_nonempty_witness :
  ~ float_lt (lit (92 # 95)) SUSPICIOUS_RATIO_THRESHOLD
  /\ ~ 92000 - 95000 < MARKET_DIFF_THRESHOLD
  /\ generate_reasons (lit (92 # 95)) (92000 - 95000) 95000 true
     = Ok [generic_reason].
Proof.
  assert (A : ~ float_lt (lit (92 # 95)) SUSPICIOUS_RATIO_THRESHOLD)
    by (intros H; vm_compute in H; discriminate H).
  assert (B : ~ 92000 - 95000 < MARKET_DIFF_THRESHOLD)
    by (intros H; vm_compute in H; discriminate H).
  split; [exact A |]. split; [exact B |].
  exact (proj1 (proj2 (generate_reasons_suspicious_nonempty
                         (lit (92 # 95)) (92000 - 95000) 95000)) A B).
Defined.

(** C6.  The rules are tried in a fixed order, ratio first and
    market-diff second, they are not exclusive, and the list keeps that
    order: a returned list is the ratio reason (if its rule fires), then
    the market-diff reason (if its rule fires), then the generic reason
    (if neither fired and the car is suspicious).  In particular 40000
    km reported against 150000 expected gives both reasons, ratio
    first. *)
Theorem generate_reasons_rule_order :
  (forall sr d km s l,
      generate_reasons sr d km s = Ok l ->
      exists ratio_part,
        l = ratio_part
              ++ (if market_rule d then [market_reason d] else [])
              ++ (if negb (ratio_rule sr) && negb (market_rule d) && s
                  then [generic_reason] else [])
        /\ if ratio_rule sr
           then exists pct, py_int (fmul sr (Fin 100)) = Ok pct
                            /\ ratio_part = [ratio_reason pct km]
           else ratio_part = [])
  /\ (forall sr d km s pct,
         float_lt sr SUSPICIOUS_RATIO_THRESHOLD -> d < MARKET_DIFF_THRESHOLD ->
         py_int (fmul sr (Fin 100)) = Ok pct ->
         generate_reasons sr d km s
         = Ok [ratio_reason pct km; market_reason d])
  /\ (forall s,
         exists sr,
           true_div 40000 150000 = Ok sr
           /\ generate_reasons sr (40000 - 150000) 150000 s
              = Ok ["Kilometraža je sumnjiva: Samo 26% od očekivanih 150,000 km.";
                    "Automobil ima 110,000 km manje od sličnih oglasa na tržištu."]%string).
Proof.
  split; [| split].
  - intros sr d km s l H. destruct (generate_reasons_inv _ _ _ _ _ H)
      as [(R & pct & E & ->) | (R & ->)]; rewrite R; cbn [negb andb].
    + exists [ratio_reason pct km]. split.
      * destruct (market_rule d); reflexivity.
      * exists pct. split; [exact E | reflexivity].
    + exists []. split; reflexivity.
  - intros sr d km s pct Hr Hm E. apply ratio_rule_true in Hr.
    apply market_rule_true in Hm.
    rewrite (generate_reasons_ratio _ _ _ _ Hr), E, Hm. reflexivity.
  - intros s. exists (lit (4 # 15)).
    split; [vm_compute; reflexivity |]. destruct s; vm_compute; reflexivity.
Qed.

Lemma generate_reasons_rule_order_witness :
  float_lt (lit (4 # 15)) SUSPICIOUS_RATIO_THRESHOLD
  /\ 40000 - 150000 < MARKET_DIFF_THRESHOLD
  /\ py_int (fmul (lit (4 # 15)) (Fin 100)) = Ok 26
  /\ generate_reasons (lit (4 # 15)) (40000 - 150000) 150000 false
     = Ok [ratio_reason 26 150000; market_reason (40000 - 150000)].
Proof.
  assert (Hr : float_lt (lit (4 # 15)) SUSPICIOUS_RATIO_THRESHOLD)
    by (vm_compute; reflexivity).
  assert (Hm : 40000 - 150000 < MARKET_DIFF_THRESHOLD) by reflexivity.
  assert (P : py_int (fmul (lit (4 # 15)) (Fin 100)) = Ok 26)
    by (vm_compute; reflexivity).
  split; [exact Hr |]. split; [exact Hm |]. split; [exact P |].
  exact (proj1 (proj2 generate_reasons_rule_order) _ _ 150000 false 26 Hr Hm P).
Defined.

(** C9.  [generate_reasons] returns at most two reasons, and the generic
    complex-anomaly reason is only ever returned alone. *)
Theorem generate_reasons_at_most_two
    (sr : float) (d km : Z) (s : bool) (l : list string) :
  generate_reasons sr d km s = Ok l ->
  (length l <= 2)%nat /\ (In generic_reason l -> l = [generic_reason]).
Proof.
  intros H. destruct (generate_reasons_inv _ _ _ _ _ H)
    as [(_ & pct & _ & ->) | (_ & ->)];
    destruct (market_rule d), s; cbn [negb andb app length];
    (split; [lia |]); cbn [In]; intros G;
    repeat match goal with
      | H : _ \/ _ |- _ => destruct H as [H | H]
      | H : False |- _ => destruct H
      | H : ratio_reason _ _ = generic_reason |- _ =>
          destruct (ratio_reason_not_generic _ _ H)
      | H : market_reason _ = generic_reason |- _ =>
          destruct (market_reason_not_generic _ H)
      end; reflexivity.
Qed.

Lemma generate_reasons_at_most_two_witness :
  generate_reasons (lit (92 # 95)) (-3000) 95000 true = Ok [generic_reason]
  /\ (length [generic_reason] <= 2)%nat
  /\ In generic_reason [generic_reason].
Proof.
  assert (H : generate_reasons (lit (92 # 95)) (-3000) 95000 true
              = Ok [generic_reason]) by (vm_compute; reflexivity).
  split; [exact H |].
  destruct (generate_reasons_at_most_two _ _ _ _ _ H) as [L _].
  split; [exact L | left; reflexivity].
Defined.

(** ** The response constructor *)

Section Response.

Lemma FraudCheckResponse_new_ok (sc km : Z) (s : bool) (rs : list string) :
  0 <= sc <= 100 -> 0 <= km ->
  FraudCheckResponse_new sc s km rs
  = Ok {| fraud_score := sc; is_suspicious := s;
          expected_km := km; reasons := rs |}.
Proof.
  intros Hs Hk. unfold FraudCheckResponse_new, FraudCheckResponse_errors.
  replace (0 <=? sc) with true by (symmetry; apply Z.leb_le; lia).
  replace (sc <=? 100) with true by (symmetry; apply Z.leb_le; lia).
  replace (0 <=? km) with true by (symmetry; apply Z.leb_le; lia).
  reflexivity.
Qed.

Lemma FraudCheckResponse_new_inv (sc km : Z) (s : bool) (rs : list string)
    (r : FraudCheckResponse) :
  FraudCheckResponse_new sc s km rs = Ok r ->
  0 <= sc <= 100 /\ 0 <= km
  /\ r = {| fraud_score := sc; is_suspicious := s;
            expected_km := km; reasons := rs |}.
Proof.
  unfold FraudCheckResponse_new, FraudCheckResponse_errors.
  destruct (Z.leb_spec 0 sc), (Z.leb_spec sc 100), (Z.leb_spec 0 km);
    cbn [andb app]; intros Hnew; try discriminate Hnew.
  injection Hnew as <-. repeat split; lia.
Qed.

Lemma FraudCheckResponse_new_rejects (sc km : Z) (s : bool) (rs : list string) :
  sc < 0 \/ 100 < sc \/ km < 0 ->
  exists errs, errs <> []
    /\ FraudCheckResponse_new sc s km rs = Raise (ValidationError errs).
Proof.
  intros Hout. unfold FraudCheckResponse_new, FraudCheckResponse_errors.
  destruct (Z.leb_spec 0 sc), (Z.leb_spec sc 100), (Z.leb_spec 0 km);
    cbn [andb app]; try lia;
    (eexists; split; [| reflexivity]; discriminate).
Qed.

Lemma FraudCheckResponse_new_raise_inv (sc km : Z) (s : bool) (rs : list string)
    (e : exn) :
  FraudCheckResponse_new sc s km rs = Raise e ->
  exists errs, errs <> [] /\ e = ValidationError errs
    /\ (sc < 0 \/ 100 < sc \/ km < 0).
Proof.
  intros H.
  assert (D : (0 <= sc <= 100 /\ 0 <= km) \/ (sc < 0 \/ 100 < sc \/ km < 0)) by lia.
  destruct D as [[Hs Hk] | Hout].
  - rewrite (FraudCheckResponse_new_ok _ _ _ _ Hs Hk) in H. discriminate H.
  - destruct (FraudCheckResponse_new_rejects sc km s rs Hout) as (errs & Hne & E).
    rewrite E in H. injection H as <-.
    exists errs. split; [exact Hne |]. split; [reflexivity | exact Hout].
Qed.

End Response.

(** ** The orchestrator *)

Section CheckFraud.

Variable current_year : Z.
Variable expm1 : float -> float.
Variable log1p : float -> result float.

Let check := check_fraud current_year expm1 log1p.
Let run := scoring_run current_year expm1 log1p.
Let features := calculate_fraud_features current_year log1p.

(** What the feature builder delivers. *)
Lemma calculate_fraud_features_inv (car : CarInput) (km : Z) (plog : float)
    (f : class_input) :
  features car km plog = Ok f ->
  true_div (reported_km car) (Z.max 1 km) = Ok (smart_ratio f)
  /\ market_km_diff f = reported_km car - km
  /\ age f = car_age current_year car
  /\ exists lr, math_log1p log1p (reported_km car) = Ok lr
                /\ log_diff f = fsub lr plog.
Proof.
  unfold features, calculate_fraud_features.
  destruct (true_div (reported_km car) (Z.max 1 km)) as [sr | e]; [| discriminate].
  cbn [rbind].
  destruct (math_log1p log1p (reported_km car)) as [lr | e]; [| discriminate].
  cbn [rbind]. intros H. injection H as <-. cbn.
  repeat split. exists lr. split; reflexivity.
Qed.

(** Why the feature builder fails, when it does. *)
Lemma calculate_fraud_features_raise_inv (car : CarInput) (km : Z) (plog : float)
    (e : exn) :
  features car km plog = Raise e ->
  true_div (reported_km car) (Z.max 1 km) = Raise e
  \/ math_log1p log1p (reported_km car) = Raise e.
Proof.
  unfold features, calculate_fraud_features.
  destruct (true_div (reported_km car) (Z.max 1 km)) as [sr | e1].
  - cbn [rbind].
    destruct (math_log1p log1p (reported_km car)) as [lr | e2]; [discriminate |].
    cbn [rbind]. intros H. right. congruence.
  - cbn [rbind]. intros H. left. congruence.
Qed.

(** With both artifacts held, [check_fraud] is the chain regressor,
    truncation, feature builder, classifier, rounding, threshold test,
    explanation, response; its inline steps 1 and 2 are the bodies of
    [build_reg_input] and [calculate_fraud_features]. *)
Lemma check_fraud_steps (mm : ModelManager) (car : CarInput) :
  are_models_loaded mm = true ->
  check mm car =
    (predicted_log <- call_predict (get_regressor mm)
                        (build_reg_input current_year car) ;;
     km <- py_int (expm1 predicted_log) ;;
     f <- features car km predicted_log ;;
     fraud_prob <- call_predict_proba (get_classifier mm) f ;;
     score <- py_round (fmul fraud_prob (Fin 100)) ;;
     susp <- py_ge fraud_prob (get_threshold mm) ;;
     reasons <- generate_reasons (smart_ratio f) (market_km_diff f) km susp ;;
     FraudCheckResponse_new score susp km reasons)%result.
Proof.
  intros L. unfold check, check_fraud. rewrite L. cbn [negb].
  change (call_predict (get_regressor mm)
            {| ri_year := year car; ri_price := price car;
               ri_horsepower := horsepower car; ri_make := make car;
               ri_model := model car; ri_fuelType := fuelType car;
               ri_gearbox := gearbox car; ri_offerType := offerType car;
               ri_age := Z.max 1 (current_year - year car);
               ri_age_squared := Z.max 1 (current_year - year car) ^ 2 |})
    with (call_predict (get_regressor mm) (build_reg_input current_year car)).
  destruct (call_predict (get_regressor mm) (build_reg_input current_year car))
    as [plog | e]; [| reflexivity].
  cbn [rbind]. destruct (py_int (expm1 plog)) as [km | e]; [| reflexivity].
  cbn [rbind]. unfold features, calculate_fraud_features.
  destruct (true_div (reported_km car) (Z.max 1 km)) as [sr | e]; [| reflexivity].
  cbn [rbind].
  destruct (math_log1p log1p (reported_km car)) as [lr | e]; reflexivity.
Qed.

Lemma check_fraud_not_loaded (mm : ModelManager) (car : CarInput) :
  are_models_loaded mm = false ->
  check mm car = Raise (ValueError "Models are not loaded. Service is not ready.").
Proof.
  intros L. unfold check, check_fraud. rewrite L. reflexivity.
Qed.

(** What a scoring run leaves to be done: rounding the score,
    explaining, and building the response. *)
Lemma check_fraud_run (mm : ModelManager) (car : CarInput) (plog p t : float) :
  run mm car plog p t ->
  exists km f,
    py_int (expm1 plog) = Ok km
    /\ features car km plog = Ok f
    /\ call_predict_proba (get_classifier mm) f = Ok p
    /\ check mm car =
         (score <- py_round (fmul p (Fin 100)) ;;
          reasons <- generate_reasons (smart_ratio f) (market_km_diff f) km
                       (fge p t) ;;
          FraudCheckResponse_new score (fge p t) km reasons)%result.
Proof.
  intros (L & R & C & T).
  destruct (py_int (expm1 plog)) as [km | e] eqn:K; [| discriminate C].
  cbn [rbind] in C.
  destruct (calculate_fraud_features current_year log1p car km plog)
    as [f | e] eqn:F; [| discriminate C].
  cbn [rbind] in C. exists km, f. repeat split; try assumption.
  rewrite (check_fraud_steps mm car L), R. cbn [rbind]. rewrite K. cbn [rbind].
  unfold features. rewrite F. cbn [rbind]. rewrite C. cbn [rbind].
  destruct (py_round (fmul p (Fin 100))) as [s | e]; [| reflexivity].
  cbn [rbind]. rewrite T. reflexivity.
Qed.

(** Every response is built step by step from what the artifacts
    answered. *)
Lemma check_fraud_ok_shape (mm : ModelManager) (car : CarInput)
    (r : FraudCheckResponse) :
  check mm car = Ok r ->
  exists plog f p,
    are_models_loaded mm = true
    /\ call_predict (get_regressor mm) (build_reg_input current_year car) = Ok plog
    /\ py_int (expm1 plog) = Ok (expected_km r)
    /\ features car (expected_km r) plog = Ok f
    /\ call_predict_proba (get_classifier mm) f = Ok p
    /\ py_round (fmul p (Fin 100)) = Ok (fraud_score r)
    /\ py_ge p (get_threshold mm) = Ok (is_suspicious r)
    /\ generate_reasons (smart_ratio f) (market_km_diff f) (expected_km r)
         (is_suspicious r) = Ok (reasons r)
    /\ 0 <= fraud_score r <= 100
    /\ 0 <= expected_km r.
Proof.
  intros H. destruct (are_models_loaded mm) eqn:L.
  2:{ rewrite (check_fraud_not_loaded mm car L) in H. discriminate H. }
  rewrite (check_fraud_steps mm car L) in H.
  destruct (call_predict (get_regressor mm) (build_reg_input current_year car))
    as [plog | e] eqn:R; [| discriminate H].
  cbn [rbind] in H.
  destruct (py_int (expm1 plog)) as [km | e] eqn:K; [| discriminate H].
  cbn [rbind] in H.
  destruct (features car km plog) as [f | e] eqn:F; [| discriminate H].
  cbn [rbind] in H.
  destruct (call_predict_proba (get_classifier mm) f) as [p | e] eqn:C;
    [| discriminate H].
  cbn [rbind] in H.
  destruct (py_round (fmul p (Fin 100))) as [s | e] eqn:S; [| discriminate H].
  cbn [rbind] in H.
  destruct (py_ge p (get_threshold mm)) as [susp | e] eqn:G; [| discriminate H].
  cbn [rbind] in H.
  destruct (generate_reasons (smart_ratio f) (market_km_diff f) km susp)
    as [rs | e] eqn:Rs; [| discriminate H].
  cbn [rbind] in H. apply FraudCheckResponse_new_inv in H.
  destruct H as (Hs & Hk & ->). cbn [fraud_score is_suspicious expected_km reasons].
  exists plog, f, p. repeat split; solve [assumption | reflexivity | lia].
Qed.

(** For a non-negative odometer reading the features carry a finite
    non-negative ratio, and the explanation goes through. *)
Lemma reasons_defined (car : CarInput) (km : Z) (plog : float) (f : class_input)
    (susp : bool) :
  0 <= reported_km car ->
  features car km plog = Ok f ->
  exists rs, generate_reasons (smart_ratio f) (market_km_diff f) km susp = Ok rs.
Proof.
  intros Hr F. destruct (calculate_fraud_features_inv _ _ _ _ F) as (D & _).
  assert (Hm : 0 < Z.max 1 km) by lia.
  destruct (true_div_nonneg _ _ _ Hr Hm D) as (q & E & Hq).
  rewrite E. destruct (ratio_rule (Fin q)) eqn:R.
  - destruct (percentage_defined q Hq R) as (pct & P & _).
    rewrite (generate_reasons_ratio _ _ _ _ R), P. cbn [rbind].
    eexists. reflexivity.
  - rewrite (generate_reasons_no_ratio _ _ _ _ R). eexists. reflexivity.
Qed.

(** A scoring run whose score and expected mileage validate returns a
    response, for a non-negative odometer reading. *)
Lemma check_fraud_returns (mm : ModelManager) (car : CarInput) (plog p t : float)
    (s km : Z) :
  run mm car plog p t ->
  py_round (fmul p (Fin 100)) = Ok s -> 0 <= s <= 100 ->
  py_int (expm1 plog) = Ok km -> 0 <= km ->
  0 <= reported_km car ->
  exists rs,
    check mm car
    = Ok {| fraud_score := s; is_suspicious := fge p t;
            expected_km := km; reasons := rs |}.
Proof.
  intros Hrun S Hs K Hk Hr.
  destruct (check_fraud_run mm car plog p t Hrun) as (km' & f & K' & F & _ & E).
  assert (km' = km) by congruence. subst km'.
  destruct (reasons_defined car km plog f (fge p t) Hr F) as (rs & G).
  exists rs. rewrite E, S. cbn [rbind]. rewrite G. cbn [rbind].
  apply FraudCheckResponse_new_ok; assumption.
Qed.

(** The stand-alone estimator computes the mileage that [check_fraud]
    computes inline. *)
Lemma calculate_expected_mileage_agrees (mm : ModelManager) (car : CarInput)
    (plog : float) (km : Z) :
  call_predict (get_regressor mm) (build_reg_input current_year car) = Ok plog ->
  py_int (expm1 plog) = Ok km ->
  calculate_expected_mileage current_year expm1 mm car = Ok km.
Proof.
  intros R K. unfold calculate_expected_mileage. rewrite R. cbn [rbind].
  rewrite K. reflexivity.
Qed.




(** C2, as the code has it.  In a scoring run with log-space prediction
    [plog], every response carries
    [expected_km = int(expm1(plog))], which is non-negative; no floor
    is applied.  Whenever [expm1(plog)] is finite and above -1 the
    truncation itself gives a non-negative integer, and (the score
    being within [0, 100] and the odometer reading non-negative) the
    response is returned. *)
Theorem check_fraud_expected_km_is_unfloored_truncation
    (mm : ModelManager) (car : CarInput) (plog p t : float) :
  run mm car plog p t ->
  (forall r, check mm car = Ok r ->
     py_int (expm1 plog) = Ok (expected_km r) /\ 0 <= expected_km r)
  /\ (forall x, expm1 plog = Fin x -> (-1 < x)%Q ->
        py_int (expm1 plog) = Ok (Qtrunc x) /\ 0 <= Qtrunc x)
  /\ (forall x s, expm1 plog = Fin x -> (-1 < x)%Q ->
        py_round (fmul p (Fin 100)) = Ok s -> 0 <= s <= 100 ->
        0 <= reported_km car ->
        exists r, check mm car = Ok r
                  /\ expected_km r = Qtrunc x
                  /\ 0 <= expected_km r).
Proof.
  intros Hrun. split; [| split].
  - intros r Hr.
    destruct (check_fraud_run mm car plog p t Hrun) as (km & f & K & _ & _ & E).
    rewrite E in Hr.
    destruct (py_round (fmul p (Fin 100))) as [s | e]; [| discriminate Hr].
    cbn [rbind] in Hr.
    destruct (generate_reasons (smart_ratio f) (market_km_diff f) km (fge p t))
      as [rs | e]; [| discriminate Hr].
    cbn [rbind] in Hr. apply FraudCheckResponse_new_inv in Hr.
    destruct Hr as (_ & Hk & ->). cbn [expected_km]. split; assumption.
  - intros x Ex Hx. rewrite Ex. cbn [py_int]. split; [reflexivity |].
    apply Qtrunc_nonneg. exact Hx.
  - intros x s Ex Hx S Hs Hr.
    assert (K : py_int (expm1 plog) = Ok (Qtrunc x)) by (rewrite Ex; reflexivity).
    pose proof (Qtrunc_nonneg x Hx) as Hk.
    destruct (check_fraud_returns mm car plog p t s (Qtrunc x) Hrun S Hs K Hk Hr)
      as (rs & E).
    eexists. split; [exact E |]. cbn [expected_km]. split; [reflexivity | exact Hk].
Qed.

(** C5.  In a scoring run with probability [p] and threshold [t], the
    response has [is_suspicious] true exactly when [p >= t]; a
    probability equal to the threshold is flagged.  The response is
    returned whenever score and expected mileage pass validation, for a
    non-negative odometer reading. *)
Theorem check_fraud_threshold_inclusive
    (mm : ModelManager) (car : CarInput) (plog p t : float) :
  run mm car plog p t ->
  (forall r, check mm car = Ok r -> (is_suspicious r = true <-> float_le t p))
  /\ (forall r a b, check mm car = Ok r -> p = Fin a -> t = Fin b ->
        (a == b)%Q -> is_suspicious r = true)
  /\ (forall s km,
        py_round (fmul p (Fin 100)) = Ok s -> 0 <= s <= 100 ->
        py_int (expm1 plog) = Ok km -> 0 <= km -> 0 <= reported_km car ->
        exists r, check mm car = Ok r
                  /\ (is_suspicious r = true <-> float_le t p)).
Proof.
  intros Hrun.
  assert (I : forall r, check mm car = Ok r ->
                        (is_suspicious r = true <-> float_le t p)).
  { intros r Hr.
    destruct (check_fraud_run mm car plog p t Hrun) as (km & f & _ & _ & _ & E).
    rewrite E in Hr.
    destruct (py_round (fmul p (Fin 100))) as [s | e]; [| discriminate Hr].
    cbn [rbind] in Hr.
    destruct (generate_reasons (smart_ratio f) (market_km_diff f) km (fge p t))
      as [rs | e]; [| discriminate Hr].
    cbn [rbind] in Hr. apply FraudCheckResponse_new_inv in Hr.
    destruct Hr as (_ & _ & ->). cbn [is_suspicious]. reflexivity. }
  split; [exact I |]. split.
  - intros r a b Hr -> -> Heq. apply (I r Hr). apply float_le_Fin.
    rewrite Heq. apply Qle_refl.
  - intros s km S Hs K Hk Hr.
    destruct (check_fraud_returns mm car plog p t s km Hrun S Hs K Hk Hr)
      as (rs & E).
    eexists. split; [exact E |]. apply I. exact E.
Qed.

(** C10.  [check_fraud] neither clamps the score nor floors the
    expected mileage: in a scoring run (non-negative odometer reading)
    whose score falls outside [0, 100] or whose expected mileage is
    negative, building the response raises a validation error; and
    every response that is returned carries the computed values as they
    are, within the ranges the response type requires. *)
Theorem check_fraud_rejects_out_of_range
    (mm : ModelManager) (car : CarInput) (plog p t : float) :
  run mm car plog p t ->
  (forall s km,
      py_round (fmul p (Fin 100)) = Ok s -> py_int (expm1 plog) = Ok km ->
      0 <= reported_km car ->
      s < 0 \/ 100 < s \/ km < 0 ->
      exists errs, errs <> [] /\ check mm car = Raise (ValidationError errs))
  /\ (forall r, check mm car = Ok r ->
        py_round (fmul p (Fin 100)) = Ok (fraud_score r)
        /\ py_int (expm1 plog) = Ok (expected_km r)
        /\ 0 <= fraud_score r <= 100 /\ 0 <= expected_km r).
Proof.
  intros Hrun.
  destruct (check_fraud_run mm car plog p t Hrun) as (km & f & K & F & _ & E).
  split.
  - intros s km' S K' Hr Hout. assert (km' = km) by congruence. subst km'.
    destruct (reasons_defined car km plog f (fge p t) Hr F) as (rs & G).
    rewrite E, S. cbn [rbind]. rewrite G. cbn [rbind].
    apply FraudCheckResponse_new_rejects. exact Hout.
  - intros r Hr. rewrite E in Hr.
    destruct (py_round (fmul p (Fin 100))) as [s | e]; [| discriminate Hr].
    cbn [rbind] in Hr.
    destruct (generate_reasons (smart_ratio f) (market_km_diff f) km (fge p t))
      as [rs | e]; [| discriminate Hr].
    cbn [rbind] in Hr. apply FraudCheckResponse_new_inv in Hr.
    destruct Hr as (Hs & Hk & ->). cbn [fraud_score expected_km].
    repeat split; solve [assumption | reflexivity | lia].
Qed.

End CheckFraud.

Ltac prove_run :=
  split; [reflexivity |];
  split; [reflexivity |];
  split; [vm_compute; reflexivity | reflexivity].

(** A whole run: the Golf with 40000 km on the odometer, a regressor
    that predicts 12 in log space (162753 km), a classifier that answers
    0.85, threshold 0.5. *)
Example check_fraud_golf_run :
  check_fraud Samples.year_sample Samples.expm1_sample Samples.log1p_sample
    (Samples.constant_models (Fin 12) (lit (85 # 100)) (Fin (1 # 2))) Samples.golf
  = Ok Samples.golf_response.
Proof. vm_compute. reflexivity. Qed.

Example check_fraud_not_ready_run :
  check_fraud Samples.year_sample Samples.expm1_sample Samples.log1p_sample
    init Samples.golf
  = Raise (ValueError "Models are not loaded. Service is not ready.").
Proof. reflexivity. Qed.

(** The products of the source are binary64 products: [0.495 * 100] is
    [49.5] and rounds to 50, [0.57 * 100] is below 57, [0.03 * 100] is 3,
    [0.7 * 100] is 70, [-0.005 * 100] is [-0.5] and rounds to 0,
    [0.505 * 100] is [50.5] and rounds to 50. *)
Example binary64_products :
  py_round (fmul (lit (495 # 1000)) (Fin 100)) = Ok 50
  /\ py_int (fmul (lit (57 # 100)) (Fin 100)) = Ok 56
  /\ py_int (fmul (lit (3 # 100)) (Fin 100)) = Ok 3
  /\ fmul (lit (7 # 10)) (Fin 100) = Fin 70
  /\ py_round (fmul (lit (- (5 # 1000))) (Fin 100)) = Ok 0
  /\ py_round (fmul (lit (505 # 1000)) (Fin 100)) = Ok 50
  /\ lit (7 # 10) = SUSPICIOUS_RATIO_THRESHOLD
  /\ lit (1 # 2) = DEFAULT_FRAUD_THRESHOLD.
Proof. repeat split; vm_compute; reflexivity. Qed.

(** The threshold itself does not trigger the ratio rule: at exactly
    [0.70], with a small difference and no flag, there is no reason. *)
Example generate_reasons_at_threshold :
  generate_reasons (lit (7 # 10)) (-100) 100000 false = Ok []
  /\ generate_reasons SUSPICIOUS_RATIO_THRESHOLD (-100) 100000 true
     = Ok [generic_reason].
Proof. split; vm_compute; reflexivity. Qed.

(** Quotients of ints are rounded, and fail when they do not fit. *)
Example binary64_quotients :
  true_div (2 ^ 53 + 1) 1 = Ok (Fin (inject_Z (2 ^ 53)))
  /\ true_div (10 ^ 400) 1
     = Raise (OverflowError "integer division result too large for a float")
  /\ float_of_int (10 ^ 400)
     = Raise (OverflowError "int too large to convert to float")
  /\ true_div 1 (10 ^ 400) = Ok (Fin 0).
Proof. repeat split; vm_compute; reflexivity. Qed.



(** C2 as stated fails: for a log-space prediction of -40, binary64
    [expm1] gives -1.0, the truncation gives -1, nothing floors it at
    zero, and instead of a response with [expected_km = 0] [check_fraud]
    raises the validation error of the response type. *)
Lemma check_fraud_expected_km_not_floored :
  let mm := Samples.constant_models (Fin (-40)) (Fin (1 # 2)) (Fin (1 # 2)) in
  let check :=
    check_fraud Samples.year_sample Samples.expm1_sample Samples.log1p_sample in
  scoring_run Samples.year_sample Samples.expm1_sample Samples.log1p_sample
    mm Samples.golf (Fin (-40)) (Fin (1 # 2)) (Fin (1 # 2))
  /\ py_int (Samples.expm1_sample (Fin (-40))) = Ok (-1)
  /\ check mm Samples.golf = Raise (ValidationError ["expected_km"%string])
  /\ forall r, check mm Samples.golf <> Ok r.
Proof.
  cbv zeta. split; [prove_run |]. split; [reflexivity |].
  assert (E : check_fraud Samples.year_sample Samples.expm1_sample
                Samples.log1p_sample
                (Samples.constant_models (Fin (-40)) (Fin (1 # 2)) (Fin (1 # 2)))
                Samples.golf
              = Raise (ValidationError ["expected_km"%string]))
    by (vm_compute; reflexivity).
  split; [exact E |]. intros r H. rewrite E in H. discriminate H.
Qed.

Lemma check_fraud_expected_km_is_unfloored_truncation_witness :
  let mm := Samples.constant_models (Fin (- (1 # 2))) (Fin (1 # 2)) (Fin (1 # 2)) in
  scoring_run Samples.year_sample Samples.expm1_sample Samples.log1p_sample
    mm Samples.golf (Fin (- (1 # 2))) (Fin (1 # 2)) (Fin (1 # 2))
  /\ py_round (fmul (Fin (1 # 2)) (Fin 100)) = Ok 50
  /\ 0 <= reported_km Samples.golf
  /\ exists x r,
       Samples.expm1_sample (Fin (- (1 # 2))) = Fin x
       /\ (-1 < x)%Q
       /\ check_fraud Samples.year_sample Samples.expm1_sample
            Samples.log1p_sample mm Samples.golf = Ok r
       /\ expected_km r = Qtrunc x
       /\ 0 <= expected_km r.
Proof.
  cbv zeta.
  assert (R : scoring_run Samples.year_sample Samples.expm1_sample
                Samples.log1p_sample
                (Samples.constant_models (Fin (- (1 # 2))) (Fin (1 # 2))
                   (Fin (1 # 2)))
                Samples.golf (Fin (- (1 # 2))) (Fin (1 # 2)) (Fin (1 # 2)))
    by prove_run.
  assert (S : py_round (fmul (Fin (1 # 2)) (Fin 100)) = Ok 50)
    by (vm_compute; reflexivity).
  assert (G : 0 <= reported_km Samples.golf) by discriminate.
  destruct (Samples.expm1_sample (Fin (- (1 # 2)))) as [x | | |] eqn:Ex;
    try (vm_compute in Ex; discriminate Ex).
  assert (Hx : (-1 < x)%Q).
  { vm_compute in Ex. injection Ex as <-. reflexivity. }
  split; [exact R |]. split; [exact S |]. split; [exact G |].
  destruct (proj2 (proj2 (check_fraud_expected_km_is_unfloored_truncation
                            _ _ _ _ _ _ _ _ R))
              x 50 Ex Hx S ltac:(split; discriminate) G) as (r & A & B & C).
  exists x, r. split; [reflexivity |]. split; [exact Hx |].
  split; [exact A |]. split; [exact B | exact C].
Defined.

Lemma check_fraud_threshold_inclusive_witness :
  let mm := Samples.constant_models (Fin 12) (Fin (1 # 2)) (Fin (1 # 2)) in
  scoring_run Samples.year_sample Samples.expm1_sample Samples.log1p_sample
    mm Samples.golf (Fin 12) (Fin (1 # 2)) (Fin (1 # 2))
  /\ exists r,
       check_fraud Samples.year_sample Samples.expm1_sample Samples.log1p_sample
         mm Samples.golf = Ok r
       /\ (is_suspicious r = true <-> float_le (Fin (1 # 2)) (Fin (1 # 2)))
       /\ is_suspicious r = true.
Proof.
  cbv zeta.
  assert (R : scoring_run Samples.year_sample Samples.expm1_sample
                Samples.log1p_sample
                (Samples.constant_models (Fin 12) (Fin (1 # 2)) (Fin (1 # 2)))
                Samples.golf (Fin 12) (Fin (1 # 2)) (Fin (1 # 2))) by prove_run.
  assert (S : py_round (fmul (Fin (1 # 2)) (Fin 100)) = Ok 50)
    by (vm_compute; reflexivity).
  assert (K : py_int (Samples.expm1_sample (Fin 12)) = Ok 162753)
    by (vm_compute; reflexivity).
  assert (G : 0 <= reported_km Samples.golf) by discriminate.
  destruct (check_fraud_threshold_inclusive _ _ _ _ _ _ _ _ R) as (I & B & Ex).
  destruct (Ex 50 162753 S ltac:(split; discriminate) K ltac:(discriminate) G)
    as (r & Hr & Hi).
  split; [exact R |]. exists r. split; [exact Hr |]. split; [exact Hi |].
  exact (B r (1 # 2) (1 # 2) Hr eq_refl eq_refl (Qeq_refl _)).
Defined.

Lemma check_fraud_rejects_out_of_range_witness :
  let mm := Samples.constant_models (Fin 12) (Fin (3 # 2)) (Fin (1 # 2)) in
  scoring_run Samples.year_sample Samples.expm1_sample Samples.log1p_sample
    mm Samples.golf (Fin 12) (Fin (3 # 2)) (Fin (1 # 2))
  /\ py_round (fmul (Fin (3 # 2)) (Fin 100)) = Ok 150
  /\ py_int (Samples.expm1_sample (Fin 12)) = Ok 162753
  /\ 0 <= reported_km Samples.golf
  /\ 100 < 150
  /\ exists errs, errs <> []
       /\ check_fraud Samples.year_sample Samples.expm1_sample Samples.log1p_sample
            mm Samples.golf = Raise (ValidationError errs).
Proof.
  cbv zeta.
  assert (R : scoring_run Samples.year_sample Samples.expm1_sample
                Samples.log1p_sample
                (Samples.constant_models (Fin 12) (Fin (3 # 2)) (Fin (1 # 2)))
                Samples.golf (Fin 12) (Fin (3 # 2)) (Fin (1 # 2))) by prove_run.
  assert (S : py_round (fmul (Fin (3 # 2)) (Fin 100)) = Ok 150)
    by (vm_compute; reflexivity).
  assert (K : py_int (Samples.expm1_sample (Fin 12)) = Ok 162753)
    by (vm_compute; reflexivity).
  assert (G : 0 <= reported_km Samples.golf) by discriminate.
  assert (O : 100 < 150) by reflexivity.
  split; [exact R |]. split; [exact S |]. split; [exact K |]. split; [exact G |].
  split; [exact O |].
  exact (proj1 (check_fraud_rejects_out_of_range _ _ _ _ _ _ _ _ R)
           150 162753 S K G (or_intror (or_introl O))).
Defined.

(** ** Strict order through rounding *)

Section Strict.

Lemma pow2_double (e : Z) : (pow2 e == pow2 (e - 1) + pow2 (e - 1))%Q.
Proof.
  replace e with ((e - 1) + 1) at 1 by lia. rewrite pow2_succ. ring.
Qed.

(** Two non-negative values more than one unit in the last place apart
    keep their strict order through rounding. *)
Lemma round64_strict (x y : Q) :
  (0 <= x)%Q -> (pow2 (ulp_exp y) < y - x)%Q -> (round64 x < round64 y)%Q.
Proof.
  intros Hx Gap.
  assert (Pe : (0 < pow2 (ulp_exp y))%Q) by apply pow2_pos.
  assert (Hxy : (x < y)%Q).
  { apply Qlt_minus_iff. eapply Qlt_trans; [exact Pe | exact Gap]. }
  destruct (round64_error y) as [Ly _].
  assert (Ux : (round64 x <= x + pow2 (ulp_exp y - 1))%Q).
  { destruct (Qeq_dec x 0) as [Z0 | NZ].
    - rewrite (round64_proper _ _ Z0), round64_0, Z0, Qplus_0_l.
      apply Qlt_le_weak, pow2_pos.
    - destruct (round64_error x) as [_ U]. eapply Qle_trans; [exact U |].
      apply Qplus_le_r. apply pow2_le.
      assert (A : (Qabs x <= Qabs y)%Q).
      { rewrite (Qabs_pos x Hx).
        rewrite (Qabs_pos y (Qle_trans _ _ _ Hx (Qlt_le_weak _ _ Hxy))).
        apply Qlt_le_weak. exact Hxy. }
      pose proof (ulp_exp_mono x y NZ A). lia. }
  eapply Qle_lt_trans; [exact Ux |].
  eapply Qlt_le_trans; [| exact Ly].
  rewrite (pow2_double (ulp_exp y)) in Gap.
  apply (Qplus_lt_l _ _ (- x - pow2 (ulp_exp y - 1))).
  setoid_replace (x + pow2 (ulp_exp y - 1) + (- x - pow2 (ulp_exp y - 1)))%Q
    with 0%Q by ring.
  setoid_replace (y - pow2 (ulp_exp y - 1) + (- x - pow2 (ulp_exp y - 1)))%Q
    with ((y - x) - (pow2 (ulp_exp y - 1) + pow2 (ulp_exp y - 1)))%Q by ring.
  apply Qlt_minus_iff in Gap.
  setoid_replace (y - x - (pow2 (ulp_exp y - 1) + pow2 (ulp_exp y - 1)))%Q
    with (y - x + - (pow2 (ulp_exp y - 1) + pow2 (ulp_exp y - 1)))%Q by ring.
  exact Gap.
Qed.

(** The unit in the last place of a quotient [b / c] with
    [0 < b < 2^52] and [0 < c < 2^1074] is below [1 / c]. *)
Lemma ulp_below_step (b c : Z) :
  0 < b < 2 ^ 52 -> 0 < c < 2 ^ 1074 ->
  (pow2 (ulp_exp (inject_Z b / inject_Z c)) < 1 / inject_Z c)%Q.
Proof.
  intros [Hb Ub] [Hc Uc].
  assert (Pc : (0 < inject_Z c)%Q)
    by (change 0%Q with (inject_Z 0); rewrite <- Zlt_Qlt; exact Hc).
  assert (Nc : ~ (inject_Z c == 0)%Q)
    by (intros E; rewrite E in Pc; discriminate Pc).
  set (Y := (inject_Z b / inject_Z c)%Q).
  assert (PY : (0 < Y)%Q).
  { unfold Y. apply Qlt_shift_div_l; [exact Pc |]. rewrite Qmult_0_l.
    change 0%Q with (inject_Z 0). rewrite <- Zlt_Qlt. exact Hb. }
  assert (NY : ~ (Y == 0)%Q) by (intros E; rewrite E in PY; discriminate PY).
  apply Qlt_shift_div_l; [exact Pc |].
  unfold ulp_exp. destruct (Z.max_spec (-1074) (mag Y - 52)) as [[_ ->] | [_ ->]].
  - (* normal *)
    destruct (mag_spec Y NY) as [L _]. rewrite (Qabs_pos Y (Qlt_le_weak _ _ PY)) in L.
    unfold Zminus. rewrite pow2_add.
    apply Qle_lt_trans with (Y * pow2 (- (52)) * inject_Z c)%Q.
    + apply Qmult_le_compat_r; [| apply Qlt_le_weak; exact Pc].
      apply Qmult_le_compat_r; [exact L | apply Qlt_le_weak, pow2_pos].
    + setoid_replace (Y * pow2 (- (52)) * inject_Z c)%Q
        with (inject_Z b * pow2 (- (52)))%Q
        by (unfold Y; field; exact Nc).
      apply Qlt_le_trans with (pow2 52 * pow2 (- (52)))%Q.
      * apply Qmult_lt_r; [apply pow2_pos |].
        rewrite (pow2_inject 52) by lia. rewrite <- Zlt_Qlt. exact Ub.
      * rewrite <- pow2_add. apply Qle_refl.
  - (* subnormal *)
    apply Qlt_le_trans with (pow2 (-1074) * pow2 1074)%Q.
    + apply Qmult_lt_l; [apply pow2_pos |].
      rewrite (pow2_inject 1074) by lia. rewrite <- Zlt_Qlt. exact Uc.
    + rewrite <- pow2_add. apply Qle_refl.
Qed.

(** Below [2^52] the rounded quotient keeps the strict order of the
    dividends. *)
Lemma true_div_strict (a b c : Z) (x y : float) :
  0 <= a -> a < b -> b < 2 ^ 52 -> 0 < c < 2 ^ 1074 ->
  true_div a c = Ok x -> true_div b c = Ok y -> float_lt x y.
Proof.
  intros Ha Hab Hb Hc Hx Hy.
  destruct (true_div_inv _ _ _ Hx) as (_ & qx & -> & Ex).
  destruct (true_div_inv _ _ _ Hy) as (_ & qy & -> & Ey).
  apply float_lt_Fin. rewrite Ex, Ey.
  assert (Pc : (0 < inject_Z c)%Q)
    by (change 0%Q with (inject_Z 0); rewrite <- Zlt_Qlt; lia).
  assert (Nc : ~ (inject_Z c == 0)%Q)
    by (intros E; rewrite E in Pc; discriminate Pc).
  apply round64_strict.
  - apply Qle_shift_div_l; [exact Pc |]. rewrite Qmult_0_l.
    change 0%Q with (inject_Z 0). rewrite <- Zle_Qle. exact Ha.
  - eapply Qlt_le_trans; [apply ulp_below_step; lia |].
    setoid_replace (inject_Z b / inject_Z c - inject_Z a / inject_Z c)%Q
      with (inject_Z (b - a) / inject_Z c)%Q
      by (unfold Zminus; rewrite inject_Z_plus, inject_Z_opp; field; exact Nc).
    unfold Qdiv. apply Qmult_le_compat_r.
    + change 1%Q with (inject_Z 1). rewrite <- Zle_Qle. lia.
    + apply Qlt_le_weak, Qinv_lt_0_compat. exact Pc.
Qed.

End Strict.

(** ** The feature builder *)

Section Features.

Variable current_year : Z.
Variable log1p : float -> result float.

Let features := calculate_fraud_features current_year log1p.

(** The regression row does not mention the odometer reading. *)
Lemma build_reg_input_ignores_reported_km (car : CarInput) (km : Z) :
  build_reg_input current_year (with_reported_km car km)
  = build_reg_input current_year car.
Proof. reflexivity. Qed.

(** The derived age is at least one year, also for a car dated in the
    future. *)
Lemma car_age_at_least_one (car : CarInput) : 1 <= car_age current_year car.
Proof. unfold car_age. apply Z.le_max_l. Qed.

Lemma float_le_lt_trans (a b c : Q) :
  float_le (Fin a) (Fin b) -> float_lt (Fin b) (Fin c) -> float_lt (Fin a) (Fin c).
Proof.
  rewrite float_le_Fin, !float_lt_Fin. apply Qle_lt_trans.
Qed.

(** C7, as the code has it.  With the regression outputs
    [expected_km] and [predicted_log] and every other field of the car
    fixed, a strictly larger [reported_km] gives a strictly larger
    [market_km_diff = reported_km - expected_km] and a
    [smart_ratio = reported_km / max(1, expected_km)] that is not
    smaller; the ratio is the quotient rounded to binary64, and it is
    strictly larger as long as the readings are non-negative and below
    [2^52] (and the expected mileage below [2^1074]).  The regression
    row is the same for both readings, so inside [check_fraud] the
    regression outputs are fixed by themselves. *)
Theorem reported_km_increases_features
    (car : CarInput) (km1 km2 expected_km : Z) (predicted_log : float)
    (f1 f2 : class_input) :
  km1 < km2 ->
  features (with_reported_km car km1) expected_km predicted_log = Ok f1 ->
  features (with_reported_km car km2) expected_km predicted_log = Ok f2 ->
  float_le (smart_ratio f1) (smart_ratio f2)
  /\ market_km_diff f1 < market_km_diff f2
  /\ (0 <= km1 -> km2 < 2 ^ 52 -> expected_km < 2 ^ 1074 ->
      float_lt (smart_ratio f1) (smart_ratio f2))
  /\ true_div km1 (Z.max 1 expected_km) = Ok (smart_ratio f1)
  /\ market_km_diff f1 = km1 - expected_km
  /\ build_reg_input current_year (with_reported_km car km1)
     = build_reg_input current_year (with_reported_km car km2).
Proof.
  intros H F1 F2.
  destruct (calculate_fraud_features_inv _ _ _ _ _ _ F1) as (D1 & M1 & _).
  destruct (calculate_fraud_features_inv _ _ _ _ _ _ F2) as (D2 & M2 & _).
  cbn [with_reported_km reported_km] in D1, D2, M1, M2.
  assert (Hm : 0 < Z.max 1 expected_km) by lia.
  split; [exact (true_div_mono _ _ _ _ _ Hm (Z.lt_le_incl _ _ H) D1 D2) |].
  split; [lia |]. split.
  - intros H0 H52 He.
    apply (true_div_strict km1 km2 (Z.max 1 expected_km)); try assumption.
    split; [exact Hm |]. apply Z.max_lub_lt; [reflexivity | exact He].
  - split; [exact D1 |]. split; [exact M1 | reflexivity].
Qed.

(** The two features tell the same story: with an expected mileage of
    at least 1 km, a ratio below 1 means a negative difference and a
    ratio above 1 a positive one; conversely a difference that is not
    positive gives a ratio at most 1, and one that is not negative a
    ratio at least 1. *)
Theorem smart_ratio_agrees_with_market_km_diff
    (car : CarInput) (expected_km : Z) (predicted_log : float) (f : class_input) :
  1 <= expected_km ->
  features car expected_km predicted_log = Ok f ->
  (market_km_diff f <= 0 -> float_le (smart_ratio f) (Fin 1))
  /\ (0 <= market_km_diff f -> float_le (Fin 1) (smart_ratio f))
  /\ (float_lt (smart_ratio f) (Fin 1) -> market_km_diff f < 0)
  /\ (float_lt (Fin 1) (smart_ratio f) -> 0 < market_km_diff f).
Proof.
  intros He F.
  destruct (calculate_fraud_features_inv _ _ _ _ _ _ F) as (D & M & _).
  replace (Z.max 1 expected_km) with expected_km in D by lia.
  assert (R1 : (round64 1 == 1)%Q) by (vm_compute; reflexivity).
  assert (Le : market_km_diff f <= 0 -> float_le (smart_ratio f) (Fin 1)).
  { intros Hd. destruct (true_div_le_bound _ _ _ 1 D) as (q & E & B).
    - change 1%Q with (1 # 1). apply Qdiv_le_frac; lia.
    - rewrite E. apply float_le_Fin. rewrite R1 in B. exact B. }
  assert (Ge : 0 <= market_km_diff f -> float_le (Fin 1) (smart_ratio f)).
  { intros Hd. destruct (true_div_ge_bound _ _ _ 1 D) as (q & E & B).
    - change 1%Q with (1 # 1). apply Qdiv_ge_frac; lia.
    - rewrite E. apply float_le_Fin. rewrite R1 in B. exact B. }
  split; [exact Le |]. split; [exact Ge |].
  destruct (true_div_inv _ _ _ D) as (_ & q & E & _). rewrite E in *.
  split.
  - intros Hlt. destruct (Z_lt_le_dec (market_km_diff f) 0) as [A | A];
      [exact A | exfalso].
    apply float_lt_Fin in Hlt. specialize (Ge A). apply float_le_Fin in Ge.
    exact (Qlt_not_le _ _ Hlt Ge).
  - intros Hlt. destruct (Z_lt_le_dec 0 (market_km_diff f)) as [A | A];
      [exact A | exfalso].
    apply float_lt_Fin in Hlt. specialize (Le A). apply float_le_Fin in Le.
    exact (Qlt_not_le _ _ Hlt Le).
Qed.

(** The market-diff rule can only fire for a car expected to have run
    more than 30000 km, and up to an expectation of 100000 km it never
    fires without the ratio rule firing too. *)
Theorem market_rule_needs_large_expected_km
    (car : CarInput) (expected_km : Z) (predicted_log : float) (f : class_input) :
  0 <= reported_km car ->
  features car expected_km predicted_log = Ok f ->
  market_km_diff f < MARKET_DIFF_THRESHOLD ->
  30000 < expected_km
  /\ (expected_km <= 100000 ->
      float_lt (smart_ratio f) SUSPICIOUS_RATIO_THRESHOLD).
Proof.
  intros Hr F.
  destruct (calculate_fraud_features_inv _ _ _ _ _ _ F) as (D & M & _).
  rewrite M. unfold MARKET_DIFF_THRESHOLD. intros Hd.
  split; [lia |]. intros He.
  destruct (true_div_le_bound _ _ _ (69999 # 100000) D) as (q & E & B).
  - apply Qdiv_le_frac; lia.
  - rewrite E. apply float_lt_Fin.
    eapply Qle_lt_trans; [exact B |]. vm_compute. reflexivity.
Qed.

(** A higher odometer reading never brings in a rule that the lower
    reading did not trigger. *)
Theorem higher_reading_triggers_no_new_rule
    (car : CarInput) (km1 km2 expected_km : Z) (predicted_log : float)
    (f1 f2 : class_input) :
  km1 <= km2 ->
  features (with_reported_km car km1) expected_km predicted_log = Ok f1 ->
  features (with_reported_km car km2) expected_km predicted_log = Ok f2 ->
  (float_lt (smart_ratio f2) SUSPICIOUS_RATIO_THRESHOLD ->
   float_lt (smart_ratio f1) SUSPICIOUS_RATIO_THRESHOLD)
  /\ (market_km_diff f2 < MARKET_DIFF_THRESHOLD ->
      market_km_diff f1 < MARKET_DIFF_THRESHOLD).
Proof.
  intros H F1 F2.
  destruct (calculate_fraud_features_inv _ _ _ _ _ _ F1) as (D1 & M1 & _).
  destruct (calculate_fraud_features_inv _ _ _ _ _ _ F2) as (D2 & M2 & _).
  cbn [with_reported_km reported_km] in D1, D2, M1, M2.
  assert (Hm : 0 < Z.max 1 expected_km) by lia.
  pose proof (true_div_mono _ _ _ _ _ Hm H D1 D2) as Le.
  destruct (true_div_inv _ _ _ D1) as (_ & q1 & E1 & _).
  destruct (true_div_inv _ _ _ D2) as (_ & q2 & E2 & _).
  rewrite E1, E2 in *. split.
  - apply float_le_lt_trans. exact Le.
  - lia.
Qed.

(** The age handed to both artifacts is at least 1, it is the plain
    difference of the years for a car of a past year, and its square is
    never below it. *)
Theorem derived_age_properties (car : CarInput) (expected_km : Z)
    (predicted_log : float) :
  let row := build_reg_input current_year car in
  1 <= ri_age row
  /\ (forall f, features car expected_km predicted_log = Ok f ->
                age f = ri_age row)
  /\ ri_age_squared row = ri_age row * ri_age row
  /\ ri_age row <= ri_age_squared row
  /\ (year car < current_year -> ri_age row = current_year - year car)
  /\ (current_year <= year car -> ri_age row = 1).
Proof.
  cbv zeta. unfold build_reg_input, car_age. cbn [ri_age ri_age_squared].
  replace (Z.max 1 (current_year - year car) ^ 2)
    with (Z.max 1 (current_year - year car) * Z.max 1 (current_year - year car))
    by (rewrite Z.pow_2_r; reflexivity).
  split; [lia |]. split.
  - intros f F.
    destruct (calculate_fraud_features_inv _ _ _ _ _ _ F) as (_ & _ & A & _).
    exact A.
  - repeat split; try lia; nia.
Qed.

End Features.

(** ** More on the explanation generator *)

(** [generate_reasons] returns an empty list exactly when
    [is_suspicious] is false, [smart_ratio] is not below the threshold
    constant and [market_km_diff] is not below -30000. *)
Theorem generate_reasons_empty_iff (sr : float) (d km : Z) (s : bool) :
  generate_reasons sr d km s = Ok []
  <-> s = false
      /\ ~ float_lt sr SUSPICIOUS_RATIO_THRESHOLD
      /\ ~ d < MARKET_DIFF_THRESHOLD.
Proof.
  split.
  - intros H. destruct (generate_reasons_inv _ _ _ _ _ H)
      as [(R & pct & _ & E) | (R & E)]; [discriminate E |].
    apply ratio_rule_false in R.
    destruct (market_rule d) eqn:M; [discriminate E |].
    apply market_rule_false in M.
    destruct s; [discriminate E |].
    split; [reflexivity |]. split; [exact R | lia].
  - intros (-> & R & M). apply ratio_rule_false in R.
    rewrite (generate_reasons_no_ratio _ _ _ _ R).
    assert (M' : market_rule d = false) by (apply market_rule_false; lia).
    rewrite M'. reflexivity.
Qed.

Lemma generate_reasons_empty_iff_witness :
  ~ float_lt (lit (92 # 95)) SUSPICIOUS_RATIO_THRESHOLD
  /\ ~ 92000 - 95000 < MARKET_DIFF_THRESHOLD
  /\ generate_reasons (lit (92 # 95)) (92000 - 95000) 95000 false = Ok [].
Proof.
  assert (A : ~ float_lt (lit (92 # 95)) SUSPICIOUS_RATIO_THRESHOLD)
    by (intros H; vm_compute in H; discriminate H).
  assert (B : ~ 92000 - 95000 < MARKET_DIFF_THRESHOLD)
    by (intros H; vm_compute in H; discriminate H).
  split; [exact A |]. split; [exact B |].
  exact (proj2 (generate_reasons_empty_iff (lit (92 # 95))
                  (92000 - 95000) 95000 false)
           (conj eq_refl (conj A B))).
Defined.

(** As soon as one of the two rules fires, the suspicious flag has no
    influence on the outcome of [generate_reasons]. *)
Theorem generate_reasons_ignores_flag_when_rule_fires (sr : float) (d km : Z) :
  float_lt sr SUSPICIOUS_RATIO_THRESHOLD \/ d < MARKET_DIFF_THRESHOLD ->
  generate_reasons sr d km true = generate_reasons sr d km false.
Proof.
  intros H. destruct (ratio_rule sr) eqn:R.
  - rewrite !(generate_reasons_ratio _ _ _ _ R). reflexivity.
  - rewrite !(generate_reasons_no_ratio _ _ _ _ R).
    destruct H as [H | H].
    + apply ratio_rule_true in H. congruence.
    + apply market_rule_true in H. rewrite H. reflexivity.
Qed.

Lemma generate_reasons_ignores_flag_when_rule_fires_witness :
  (float_lt (lit (4 # 15)) SUSPICIOUS_RATIO_THRESHOLD
   \/ -110000 < MARKET_DIFF_THRESHOLD)
  /\ generate_reasons (lit (4 # 15)) (-110000) 150000 true
     = generate_reasons (lit (4 # 15)) (-110000) 150000 false.
Proof.
  assert (A : float_lt (lit (4 # 15)) SUSPICIOUS_RATIO_THRESHOLD
              \/ -110000 < MARKET_DIFF_THRESHOLD)
    by (right; reflexivity).
  split; [exact A |].
  exact (generate_reasons_ignores_flag_when_rule_fires (lit (4 # 15))
           (-110000) 150000 A).
Defined.

(** ** Responses of [check_fraud] *)

Section Responses.

Variable current_year : Z.
Variable expm1 : float -> float.
Variable log1p : float -> result float.

Let check := check_fraud current_year expm1 log1p.
Let features := calculate_fraud_features current_year log1p.

(** A quotient below 7/10 with a divisor of at most 100000 rounds to a
    float below the threshold constant. *)
Lemma small_ratio_fires (r m : Z) (sr : float) :
  0 < m <= 100000 -> 10 * r < 7 * m ->
  true_div r m = Ok sr -> float_lt sr SUSPICIOUS_RATIO_THRESHOLD.
Proof.
  intros Hm H D.
  destruct (true_div_le_bound _ _ _ (699999 # 1000000) D) as (q & E & B).
  - apply Qdiv_le_frac; lia.
  - rewrite E. apply float_lt_Fin.
    eapply Qle_lt_trans; [exact B |]. vm_compute. reflexivity.
Qed.

(** In a response, a flagged car always comes with a reason; an empty
    reason list means the car is not flagged, has at least 70% of the
    expected mileage and is at most 30000 km below it; and there are
    never more than two reasons. *)
Theorem check_fraud_response_explained (mm : ModelManager) (car : CarInput)
    (r : FraudCheckResponse) :
  check mm car = Ok r ->
  (is_suspicious r = true -> reasons r <> [])
  /\ (reasons r = [] ->
      is_suspicious r = false
      /\ 7 * Z.max 1 (expected_km r) <= 10 * reported_km car
      /\ expected_km r - reported_km car <= 30000)
  /\ (length (reasons r) <= 2)%nat.
Proof.
  intros H.
  destruct (check_fraud_ok_shape _ _ _ _ _ _ H)
    as (plog & f & p & _ & _ & _ & F & _ & _ & _ & G & _ & Hkm).
  destruct (calculate_fraud_features_inv _ _ _ _ _ _ F) as (D & M & _).
  destruct (generate_reasons_inv _ _ _ _ _ G) as [(R & pct & _ & E) | (R & E)].
  - rewrite E. split; [discriminate |]. split; [discriminate |].
    destruct (market_rule (market_km_diff f)); cbn [length]; lia.
  - rewrite E. destruct (market_rule (market_km_diff f)) eqn:Mr.
    + split; [discriminate |]. split; [discriminate | cbn; lia].
    + apply market_rule_false in Mr. unfold MARKET_DIFF_THRESHOLD in Mr.
      cbn [negb andb app].
      destruct (is_suspicious r).
      * split; [discriminate |]. split; [discriminate | cbn; lia].
      * split; [discriminate |]. split; [| cbn; lia]. intros _.
        split; [reflexivity |]. split; [| lia].
        destruct (Z_lt_le_dec (10 * reported_km car) (7 * Z.max 1 (expected_km r)))
          as [Lt | Ge]; [exfalso | exact Ge].
        destruct (Z_le_gt_dec (Z.max 1 (expected_km r)) 100000) as [Sm | Bg];
          [| lia].
        apply ratio_rule_false in R. apply R.
        apply (small_ratio_fires (reported_km car) (Z.max 1 (expected_km r)));
          [lia | exact Lt | exact D].
Qed.

(** For a valid request whose returned expected mileage is at most
    30000 km, the response never carries the market-diff reason. *)
Theorem check_fraud_no_market_reason_for_small_expected_km
    (mm : ModelManager) (car : CarInput) (r : FraudCheckResponse) :
  CarInput_valid car ->
  check mm car = Ok r ->
  expected_km r <= 30000 ->
  forall d, ~ In (market_reason d) (reasons r).
Proof.
  intros (_ & Hr & _) H Hkm d Hin.
  destruct (check_fraud_ok_shape _ _ _ _ _ _ H)
    as (plog & f & p & _ & _ & _ & F & _ & _ & _ & G & _ & _).
  destruct (calculate_fraud_features_inv _ _ _ _ _ _ F) as (_ & M & _).
  assert (Mr : market_rule (market_km_diff f) = true).
  { apply (market_reason_in_shape _ _ _ _ _ G). exists d. exact Hin. }
  apply market_rule_true in Mr. unfold MARKET_DIFF_THRESHOLD in Mr. lia.
Qed.

Lemma fmul_Fin_inv (p : float) (c x : Q) :
  fmul p (Fin c) = Fin x -> exists a, p = Fin a /\ fl (a * c) = Fin x.
Proof.
  destruct p as [a | | |]; cbn [fmul].
  - intros H. exists a. split; [reflexivity | exact H].
  - destruct (Qsgn c); discriminate.
  - destruct (- Qsgn c); discriminate.
  - discriminate.
Qed.

Lemma py_round_inv (x : float) (s : Z) :
  py_round x = Ok s -> exists q, x = Fin q /\ s = round_half_even q.
Proof.
  destruct x as [q | | |]; cbn [py_round]; intros H; try discriminate H.
  exists q. split; [reflexivity | congruence].
Qed.

(** Scores follow probabilities: a larger probability never gets a
    smaller score. *)
Lemma score_mono (a b : float) (sa sb : Z) :
  float_le a b ->
  py_round (fmul a (Fin 100)) = Ok sa -> py_round (fmul b (Fin 100)) = Ok sb ->
  sa <= sb.
Proof.
  intros Le Ha Hb.
  destruct (py_round_inv _ _ Ha) as (xa & Fa & ->).
  destruct (py_round_inv _ _ Hb) as (xb & Fb & ->).
  destruct (fmul_Fin_inv _ _ _ Fa) as (qa & -> & Ea).
  destruct (fmul_Fin_inv _ _ _ Fb) as (qb & -> & Eb).
  apply float_le_Fin in Le.
  apply round_half_even_mono.
  assert (L : float_le (fl (qa * 100)) (fl (qb * 100))).
  { apply fl_mono. apply Qmult_le_compat_r; [exact Le | discriminate]. }
  rewrite Ea, Eb in L. apply float_le_Fin in L. exact L.
Qed.

(** The score and the flag of a response agree on which side of the
    threshold the car is: with a float threshold whose own score is
    [st], a flagged car scores at least [st] and a car that is not
    flagged at most [st].  With the default threshold 0.5 that is 50. *)
Theorem check_fraud_score_follows_flag (mm : ModelManager) (car : CarInput)
    (t : float) (st : Z) (r : FraudCheckResponse) :
  check mm car = Ok r ->
  get_threshold mm = PyFloat t ->
  py_round (fmul t (Fin 100)) = Ok st ->
  (is_suspicious r = true -> st <= fraud_score r)
  /\ (is_suspicious r = false -> fraud_score r <= st)
  /\ (t = DEFAULT_FRAUD_THRESHOLD -> st = 50).
Proof.
  intros H T St.
  destruct (check_fraud_ok_shape _ _ _ _ _ _ H)
    as (plog & f & p & _ & _ & _ & _ & _ & Sc & Ge & _).
  rewrite T in Ge. cbn [py_ge] in Ge. injection Ge as Ge.
  destruct (py_round_inv _ _ Sc) as (xp & Fp & _).
  destruct (fmul_Fin_inv _ _ _ Fp) as (a & Ep & _).
  destruct (py_round_inv _ _ St) as (xt & Ft & _).
  destruct (fmul_Fin_inv _ _ _ Ft) as (b & Et & _).
  split; [| split].
  - intros S. rewrite S in Ge. apply (score_mono t p); assumption.
  - intros S. rewrite S in Ge. apply (score_mono p t); try assumption.
    subst p t. unfold fge in Ge. cbn [fle] in Ge.
    apply float_le_Fin.
    destruct (Qle_bool a b) eqn:Q1; [apply Qle_bool_iff; exact Q1 |].
    destruct (Qle_bool b a) eqn:Q2; [discriminate Ge |].
    destruct (Qlt_le_dec a b) as [L | L].
    + apply Qlt_le_weak. exact L.
    + apply Qle_bool_iff in L. congruence.
  - intros ->. vm_compute in St. congruence.
Qed.

(** Every way [check_fraud] can fail: the readiness check, one of the
    two artifacts, a conversion to int ([int(expm1(...))],
    [round(...)], the percentage of the ratio reason), the division,
    [math.log1p], the comparison with the threshold, or the
    constraints of the response type.  The exception is the one that
    step raised. *)
Theorem check_fraud_failure_causes (mm : ModelManager) (car : CarInput) (e : exn) :
  check mm car = Raise e ->
  (are_models_loaded mm = false
   /\ e = ValueError "Models are not loaded. Service is not ready.")
  \/ (are_models_loaded mm = true
      /\ (call_predict (get_regressor mm) (build_reg_input current_year car)
          = Raise e
          \/ exists plog,
               call_predict (get_regressor mm) (build_reg_input current_year car)
               = Ok plog
               /\ (py_int (expm1 plog) = Raise e
                   \/ exists km,
                        py_int (expm1 plog) = Ok km
                        /\ (true_div (reported_km car) (Z.max 1 km) = Raise e
                            \/ math_log1p log1p (reported_km car) = Raise e
                            \/ exists f,
                                 features car km plog = Ok f
                                 /\ (call_predict_proba (get_classifier mm) f
                                     = Raise e
                                     \/ exists p,
                                          call_predict_proba (get_classifier mm) f
                                          = Ok p
                                          /\ (py_round (fmul p (Fin 100)) = Raise e
                                              \/ py_ge p (get_threshold mm) = Raise e
                                              \/ py_int (fmul (smart_ratio f) (Fin 100))
                                                 = Raise e
                                              \/ exists errs,
                                                   errs <> []
                                                   /\ e = ValidationError errs)))))).
Proof.
  intros H. destruct (are_models_loaded mm) eqn:L.
  - right. split; [reflexivity |].
    unfold check in H. rewrite (check_fraud_steps _ _ _ _ _ L) in H.
    destruct (call_predict _ _) as [plog | e0] eqn:P;
      cbn [rbind] in H; [| left; congruence].
    right. exists plog. split; [reflexivity |].
    destruct (py_int (expm1 plog)) as [km | e0] eqn:K;
      cbn [rbind] in H; [| left; congruence].
    right. exists km. split; [reflexivity |].
    destruct (calculate_fraud_features current_year log1p car km plog)
      as [f | e0] eqn:F; cbn [rbind] in H.
    + right. right. exists f. split; [exact F |].
      destruct (call_predict_proba _ _) as [p | e0] eqn:C;
        cbn [rbind] in H; [| left; congruence].
      right. exists p. split; [reflexivity |].
      destruct (py_round _) as [s | e0] eqn:S;
        cbn [rbind] in H; [| left; congruence].
      destruct (py_ge _ _) as [b | e0] eqn:G;
        cbn [rbind] in H; [| right; left; congruence].
      destruct (generate_reasons _ _ _ _) as [rs | e0] eqn:R;
        cbn [rbind] in H.
      * right. right. right.
        destruct (FraudCheckResponse_new_raise_inv _ _ _ _ _ H)
          as (errs & Ne & -> & _).
        exists errs. split; [exact Ne | reflexivity].
      * right. right. left. injection H as <-.
        destruct (ratio_rule (smart_ratio f)) eqn:Rr.
        -- rewrite (generate_reasons_ratio _ _ _ _ Rr) in R.
           destruct (py_int (fmul (smart_ratio f) (Fin 100))) eqn:Pc;
             cbn [rbind] in R; [discriminate R | congruence].
        -- rewrite (generate_reasons_no_ratio _ _ _ _ Rr) in R. discriminate R.
    + injection H as <-.
      destruct (calculate_fraud_features_raise_inv _ _ _ _ _ _ F) as [A | A].
      * left. exact A.
      * right. left. exact A.
  - left. split; [reflexivity |].
    unfold check in H. rewrite (check_fraud_not_loaded _ _ _ _ _ L) in H.
    congruence.
Qed.

(** The stand-alone estimator and the orchestrator agree: whenever
    [check_fraud] returns a response, [calculate_expected_mileage]
    returns its [expected_km].  Unlike the orchestrator it does not
    check readiness: with an empty regressor slot it fails on the
    missing [predict] attribute. *)
Theorem calculate_expected_mileage_matches_check_fraud
    (mm : ModelManager) (car : CarInput) :
  (forall r, check mm car = Ok r ->
     calculate_expected_mileage current_year expm1 mm car = Ok (expected_km r))
  /\ (regressor_model mm = PyNone ->
      (exists msg,
          calculate_expected_mileage current_year expm1 mm car
          = Raise (AttributeError msg))
      /\ check mm car
         = Raise (ValueError "Models are not loaded. Service is not ready.")).
Proof.
  split.
  - intros r H.
    destruct (check_fraud_ok_shape _ _ _ _ _ _ H)
      as (plog & f & p & _ & P & K & _).
    exact (calculate_expected_mileage_agrees _ _ _ _ _ _ P K).
  - intros N. split.
    + unfold calculate_expected_mileage, get_regressor. rewrite N.
      cbn [call_predict rbind]. eexists. reflexivity.
    + apply check_fraud_not_loaded. unfold are_models_loaded. rewrite N.
      reflexivity.
Qed.

(** An odometer reading so large that the quotient by the expected
    mileage does not fit a float stops [check_fraud] with an
    [OverflowError], whatever the classifier would have said; readings
    below [2^1023] never do. *)
Theorem check_fraud_huge_reading_overflows
    (mm : ModelManager) (car : CarInput) (plog : float) (km : Z) :
  are_models_loaded mm = true ->
  call_predict (get_regressor mm) (build_reg_input current_year car) = Ok plog ->
  py_int (expm1 plog) = Ok km ->
  (2 ^ 1024 * Z.max 1 km <= reported_km car ->
   check mm car
   = Raise (OverflowError "integer division result too large for a float"))
  /\ (0 <= reported_km car < 2 ^ 1023 ->
      exists sr, true_div (reported_km car) (Z.max 1 km) = Ok sr
                 /\ float_le (Fin 0) sr).
Proof.
  intros L P K.
  assert (Hm : 0 < Z.max 1 km) by lia.
  assert (Pm : (0 < inject_Z (Z.max 1 km))%Q)
    by (change 0%Q with (inject_Z 0); rewrite <- Zlt_Qlt; exact Hm).
  split.
  - intros Big. unfold check. rewrite (check_fraud_steps _ _ _ _ _ L), P.
    cbn [rbind]. rewrite K. cbn [rbind].
    assert (T : true_div (reported_km car) (Z.max 1 km)
                = Raise (OverflowError
                           "integer division result too large for a float")).
    { unfold true_div.
      destruct (Z.eqb_spec (Z.max 1 km) 0) as [E | _]; [lia |].
      destruct (fl (inject_Z (reported_km car) / inject_Z (Z.max 1 km)))
        as [q | | |] eqn:F; try reflexivity.
      exfalso. destruct (fl_Fin_inv _ _ F) as (_ & _ & U).
      apply (Qlt_not_le _ _ U).
      assert (R : (round64 (pow2 1024) == pow2 1024)%Q)
        by (vm_compute; reflexivity).
      rewrite <- R. apply round64_mono.
      apply Qle_shift_div_l; [exact Pm |].
      rewrite (pow2_inject 1024) by lia.
      rewrite <- inject_Z_mult, <- Zle_Qle. exact Big. }
    unfold calculate_fraud_features. rewrite T. reflexivity.
  - intros [H0 H1].
    destruct (fl_between (inject_Z (reported_km car) / inject_Z (Z.max 1 km))
                0 (pow2 1023)) as (q & F & Lo & _).
    + split.
      * apply Qle_shift_div_l; [exact Pm |]. rewrite Qmult_0_l.
        change 0%Q with (inject_Z 0). rewrite <- Zle_Qle. exact H0.
      * apply Qle_shift_div_r; [exact Pm |].
        rewrite (pow2_inject 1023) by lia.
        rewrite <- inject_Z_mult, <- Zle_Qle. nia.
    + vm_compute. reflexivity.
    + vm_compute. reflexivity.
    + exists (Fin q). split.
      * unfold true_div.
        destruct (Z.eqb_spec (Z.max 1 km) 0) as [E | _]; [lia |].
        rewrite F. reflexivity.
      * apply float_le_Fin. rewrite round64_0 in Lo. exact Lo.
Qed.

End Responses.

(** ** The percentage a ratio reason cites *)

Section Percentage.

(** The binary64 number just below the threshold constant. *)
Let below_070 : Q := 6305039478318693 # 9007199254740992.

(** A rounded non-negative value below the threshold constant is at
    most the binary64 number just below it. *)
Lemma round64_below_threshold (x : Q) :
  (0 <= x)%Q ->
  (round64 x < 3152519739159347 # 4503599627370496)%Q ->
  (round64 x <= below_070)%Q.
Proof.
  intros Hx Hlt.
  destruct (Qlt_le_dec x (1 # 2)) as [Small | Large].
  - apply Qle_trans with (round64 (1 # 2)).
    + apply round64_mono. apply Qlt_le_weak. exact Small.
    + vm_compute. discriminate.
  - assert (Up : (x < 3152519739159347 # 4503599627370496)%Q).
    { destruct (Qlt_le_dec x (3152519739159347 # 4503599627370496))
        as [A | A]; [exact A | exfalso].
      apply (Qlt_not_le _ _ Hlt).
      apply Qle_trans with (round64 (3152519739159347 # 4503599627370496)).
      - vm_compute. discriminate.
      - apply round64_mono. exact A. }
    assert (Px : (0 < x)%Q)
      by (eapply Qlt_le_trans; [| exact Large]; reflexivity).
    assert (Nx : ~ (x == 0)%Q) by (intros E; rewrite E in Px; discriminate Px).
    assert (M : mag x = -1).
    { assert (A : mag (1 # 2) <= mag x).
      { apply mag_mono; [discriminate |].
        rewrite (Qabs_pos x Hx). exact Large. }
      assert (B : mag x <= mag (3152519739159347 # 4503599627370496)).
      { apply mag_mono; [exact Nx |].
        rewrite (Qabs_pos x Hx). apply Qlt_le_weak. exact Up. }
      change (mag (1 # 2)) with (-1) in A.
      change (mag (3152519739159347 # 4503599627370496)) with (-1) in B.
      lia. }
    unfold round64 in *. unfold ulp_exp in *. rewrite M in *.
    change (Z.max (-1074) (-1 - 52)) with (-53) in *.
    set (n := round_half_even (x * pow2 (- -53))) in *.
    assert (N : n <= 6305039478318693).
    { destruct (Z_le_gt_dec n 6305039478318693) as [A | A]; [exact A | exfalso].
      apply (Qlt_not_le _ _ Hlt).
      apply Qle_trans with (inject_Z 6305039478318694 * pow2 (-53))%Q.
      - vm_compute. discriminate.
      - apply scale_le. rewrite <- Zle_Qle. lia. }
    apply Qle_trans with (inject_Z 6305039478318693 * pow2 (-53))%Q.
    + apply scale_le. rewrite <- Zle_Qle. exact N.
    + vm_compute. discriminate.
Qed.

(** The ratio reason of a quotient of a non-negative reading by a
    positive expected mileage cites a percentage between 0 and 69:
    exactly 70% of the expected mileage does not trigger the rule, and
    nothing below the threshold is shown as 70%. *)
Theorem ratio_reason_percentage_bounds
    (reported expected : Z) (sr : float) (d km : Z) (s : bool) :
  0 <= reported -> 0 < expected ->
  true_div reported expected = Ok sr ->
  float_lt sr SUSPICIOUS_RATIO_THRESHOLD ->
  exists pct rest,
    py_int (fmul sr (Fin 100)) = Ok pct
    /\ 0 <= pct <= 69
    /\ generate_reasons sr d km s = Ok (ratio_reason pct km :: rest).
Proof.
  intros Hr He D Hlt.
  destruct (true_div_inv _ _ _ D) as (_ & q & -> & Eq).
  assert (Hx : (0 <= inject_Z reported / inject_Z expected)%Q).
  { apply Qle_shift_div_l.
    - change 0%Q with (inject_Z 0). rewrite <- Zlt_Qlt. exact He.
    - rewrite Qmult_0_l. change 0%Q with (inject_Z 0). rewrite <- Zle_Qle.
      exact Hr. }
  assert (Hq : (0 <= q)%Q) by (rewrite Eq; apply round64_nonneg; exact Hx).
  assert (Up : (q <= below_070)%Q).
  { rewrite Eq. apply round64_below_threshold; [exact Hx |].
    rewrite <- Eq. apply float_lt_Fin. exact Hlt. }
  assert (P : exists pct, py_int (fmul (Fin q) (Fin 100)) = Ok pct
                          /\ 0 <= pct <= 69).
  { cbn [fmul].
    destruct (fl_between (q * 100) 0 (below_070 * 100)) as (r & E & Lo & Hi).
    - split.
      + change 0%Q with (0 * 100)%Q.
        apply Qmult_le_compat_r; [exact Hq | discriminate].
      + apply Qmult_le_compat_r; [exact Up | discriminate].
    - rewrite round64_0. reflexivity.
    - vm_compute. reflexivity.
    - rewrite E. cbn [py_int]. eexists. split; [reflexivity |].
      rewrite round64_0 in Lo.
      rewrite (Qtrunc_floor_nonneg _ Lo). split.
      + change 0 with (Qfloor 0). apply Qfloor_resp_le. exact Lo.
      + assert (Lt : (r < 70)%Q).
        { eapply Qle_lt_trans; [exact Hi |]. vm_compute. reflexivity. }
        assert (F : Qfloor r < 70).
        { rewrite Zlt_Qlt. eapply Qle_lt_trans; [apply Qfloor_le | exact Lt]. }
        lia. }
  destruct P as (pct & P & B).
  apply ratio_rule_true in Hlt.
  rewrite (generate_reasons_ratio _ _ _ _ Hlt), P. cbn [rbind].
  exists pct. eexists. split; [reflexivity |]. split; [exact B | reflexivity].
Qed.

End Percentage.

Lemma ratio_reason_percentage_bounds_witness :
  exists sr pct rest,
    true_div 69999 100000 = Ok sr
    /\ float_lt sr SUSPICIOUS_RATIO_THRESHOLD
    /\ py_int (fmul sr (Fin 100)) = Ok pct
    /\ 0 <= pct <= 69
    /\ generate_reasons sr (-30001) 100000 false
       = Ok (ratio_reason pct 100000 :: rest).
Proof.
  destruct (true_div 69999 100000) as [sr | e] eqn:D;
    [| vm_compute in D; discriminate D].
  assert (L : float_lt sr SUSPICIOUS_RATIO_THRESHOLD).
  { vm_compute in D. injection D as <-. vm_compute. reflexivity. }
  destruct (ratio_reason_percentage_bounds 69999 100000 sr (-30001) 100000 false
              ltac:(discriminate) ltac:(reflexivity) D L)
    as (pct & rest & A & B & C).
  exists sr, pct, rest.
  split; [reflexivity |]. split; [exact L |]. split; [exact A |].
  split; [exact B | exact C].
Defined.

(** ** Closed instances of the feature builder *)

(** C7 as stated fails: from [2^53] km to [2^53 + 1] km, against an
    expected mileage of 1 km, [market_km_diff] grows but [smart_ratio]
    does not; both quotients round to the float [2^53]. *)
Lemma smart_ratio_not_strictly_increasing :
  let features :=
    calculate_fraud_features Samples.year_sample Samples.log1p_sample in
  2 ^ 53 < 2 ^ 53 + 1
  /\ exists f1 f2,
       features (with_reported_km Samples.golf (2 ^ 53)) 1 (Fin 1) = Ok f1
       /\ features (with_reported_km Samples.golf (2 ^ 53 + 1)) 1 (Fin 1) = Ok f2
       /\ smart_ratio f1 = Fin (inject_Z (2 ^ 53))
       /\ smart_ratio f2 = Fin (inject_Z (2 ^ 53))
       /\ ~ float_lt (smart_ratio f1) (smart_ratio f2)
       /\ market_km_diff f1 < market_km_diff f2.
Proof.
  cbv zeta. split; [reflexivity |].
  eexists. eexists.
  split; [vm_compute; reflexivity |].
  split; [vm_compute; reflexivity |].
  cbn [smart_ratio market_km_diff].
  split; [vm_compute; reflexivity |].
  split; [vm_compute; reflexivity |].
  split; [| reflexivity].
  intros H. vm_compute in H. discriminate H.
Qed.

Lemma reported_km_increases_features_witness :
  let features :=
    calculate_fraud_features Samples.year_sample Samples.log1p_sample in
  40000 < 92000
  /\ exists f1 f2,
       features (with_reported_km Samples.golf 40000) 150000 (Fin 12) = Ok f1
       /\ features (with_reported_km Samples.golf 92000) 150000 (Fin 12) = Ok f2
       /\ float_le (smart_ratio f1) (smart_ratio f2)
       /\ market_km_diff f1 < market_km_diff f2
       /\ float_lt (smart_ratio f1) (smart_ratio f2).
Proof.
  cbv zeta.
  assert (K : 40000 < 92000) by reflexivity.
  split; [exact K |].
  destruct (calculate_fraud_features Samples.year_sample Samples.log1p_sample
              (with_reported_km Samples.golf 40000) 150000 (Fin 12))
    as [f1 | e] eqn:F1; [| vm_compute in F1; discriminate F1].
  destruct (calculate_fraud_features Samples.year_sample Samples.log1p_sample
              (with_reported_km Samples.golf 92000) 150000 (Fin 12))
    as [f2 | e] eqn:F2; [| vm_compute in F2; discriminate F2].
  destruct (reported_km_increases_features Samples.year_sample
              Samples.log1p_sample Samples.golf 40000 92000 150000 (Fin 12)
              f1 f2 K F1 F2) as (A & B & C & _).
  exists f1, f2. split; [reflexivity |]. split; [reflexivity |].
  split; [exact A |]. split; [exact B |].
  apply C; [discriminate | reflexivity | reflexivity].
Defined.

Lemma smart_ratio_agrees_with_market_km_diff_witness :
  let features :=
    calculate_fraud_features Samples.year_sample Samples.log1p_sample in
  1 <= 150000
  /\ exists f,
       features Samples.golf 150000 (Fin 12) = Ok f
       /\ market_km_diff f <= 0
       /\ float_le (smart_ratio f) (Fin 1).
Proof.
  cbv zeta.
  assert (K : 1 <= 150000) by discriminate.
  split; [exact K |].
  destruct (calculate_fraud_features Samples.year_sample Samples.log1p_sample
              Samples.golf 150000 (Fin 12))
    as [f | e] eqn:F; [| vm_compute in F; discriminate F].
  assert (M : market_km_diff f <= 0).
  { vm_compute in F. injection F as <-. discriminate. }
  destruct (smart_ratio_agrees_with_market_km_diff Samples.year_sample
              Samples.log1p_sample Samples.golf 150000 (Fin 12) f K F)
    as (A & _).
  exists f. split; [reflexivity |]. split; [exact M | exact (A M)].
Defined.

Lemma market_rule_needs_large_expected_km_witness :
  let features :=
    calculate_fraud_features Samples.year_sample Samples.log1p_sample in
  0 <= reported_km Samples.golf
  /\ exists f,
       features Samples.golf 90000 (Fin 12) = Ok f
       /\ market_km_diff f < MARKET_DIFF_THRESHOLD
       /\ 30000 < 90000
       /\ float_lt (smart_ratio f) SUSPICIOUS_RATIO_THRESHOLD.
Proof.
  cbv zeta.
  assert (K : 0 <= reported_km Samples.golf) by discriminate.
  split; [exact K |].
  destruct (calculate_fraud_features Samples.year_sample Samples.log1p_sample
              Samples.golf 90000 (Fin 12))
    as [f | e] eqn:F; [| vm_compute in F; discriminate F].
  assert (M : market_km_diff f < MARKET_DIFF_THRESHOLD).
  { vm_compute in F. injection F as <-. reflexivity. }
  destruct (market_rule_needs_large_expected_km Samples.year_sample
              Samples.log1p_sample Samples.golf 90000 (Fin 12) f K F M)
    as (A & B).
  exists f. split; [reflexivity |]. split; [exact M |]. split; [exact A |].
  apply B. discriminate.
Defined.

Lemma higher_reading_triggers_no_new_rule_witness :
  let features :=
    calculate_fraud_features Samples.year_sample Samples.log1p_sample in
  40000 <= 60000
  /\ exists f1 f2,
       features (with_reported_km Samples.golf 40000) 150000 (Fin 12) = Ok f1
       /\ features (with_reported_km Samples.golf 60000) 150000 (Fin 12) = Ok f2
       /\ float_lt (smart_ratio f2) SUSPICIOUS_RATIO_THRESHOLD
       /\ float_lt (smart_ratio f1) SUSPICIOUS_RATIO_THRESHOLD
       /\ market_km_diff f2 < MARKET_DIFF_THRESHOLD
       /\ market_km_diff f1 < MARKET_DIFF_THRESHOLD.
Proof.
  cbv zeta.
  assert (K : 40000 <= 60000) by discriminate.
  split; [exact K |].
  destruct (calculate_fraud_features Samples.year_sample Samples.log1p_sample
              (with_reported_km Samples.golf 40000) 150000 (Fin 12))
    as [f1 | e] eqn:F1; [| vm_compute in F1; discriminate F1].
  destruct (calculate_fraud_features Samples.year_sample Samples.log1p_sample
              (with_reported_km Samples.golf 60000) 150000 (Fin 12))
    as [f2 | e] eqn:F2; [| vm_compute in F2; discriminate F2].
  assert (R2 : float_lt (smart_ratio f2) SUSPICIOUS_RATIO_THRESHOLD
               /\ market_km_diff f2 < MARKET_DIFF_THRESHOLD).
  { vm_compute in F2. injection F2 as <-. split; vm_compute; reflexivity. }
  destruct (higher_reading_triggers_no_new_rule Samples.year_sample
              Samples.log1p_sample Samples.golf 40000 60000 150000 (Fin 12)
              f1 f2 K F1 F2) as (A & B).
  exists f1, f2. split; [reflexivity |]. split; [reflexivity |].
  split; [exact (proj1 R2) |]. split; [exact (A (proj1 R2)) |].
  split; [exact (proj2 R2) | exact (B (proj2 R2))].
Defined.

Lemma derived_age_properties_witness :
  let row := build_reg_input Samples.year_sample Samples.golf in
  ri_age row = 6
  /\ ri_age_squared row = 36
  /\ 1 <= ri_age row
  /\ ri_age row <= ri_age_squared row
  /\ (year Samples.golf < Samples.year_sample ->
      ri_age row = Samples.year_sample - year Samples.golf).
Proof.
  cbv zeta.
  destruct (derived_age_properties Samples.year_sample Samples.log1p_sample
              Samples.golf 150000 (Fin 12)) as (A & _ & _ & B & C & _).
  split; [reflexivity |]. split; [reflexivity |].
  split; [exact A |]. split; [exact B | exact C].
Defined.

(** ** Closed instances of [check_fraud] *)

Lemma check_fraud_response_explained_witness :
  check_fraud Samples.year_sample Samples.expm1_sample Samples.log1p_sample
    (Samples.constant_models (Fin 12) (lit (85 # 100)) (Fin (1 # 2))) Samples.golf
  = Ok Samples.golf_response
  /\ (is_suspicious Samples.golf_response = true ->
      reasons Samples.golf_response <> [])
  /\ (length (reasons Samples.golf_response) <= 2)%nat.
Proof.
  split; [exact check_fraud_golf_run |].
  destruct (check_fraud_response_explained Samples.year_sample
              Samples.expm1_sample Samples.log1p_sample _ _ _
              check_fraud_golf_run) as (A & _ & C).
  split; [exact A | exact C].
Defined.

Lemma check_fraud_no_market_reason_for_small_expected_km_witness :
  let r := {| fraud_score := 50; is_suspicious := true; expected_km := 0;
              reasons := [generic_reason] |} in
  CarInput_valid Samples.golf
  /\ check_fraud Samples.year_sample Samples.expm1_sample Samples.log1p_sample
       (Samples.constant_models (Fin 0) (Fin (1 # 2)) (Fin (1 # 2))) Samples.golf
     = Ok r
  /\ expected_km r <= 30000
  /\ forall d, ~ In (market_reason d) (reasons r).
Proof.
  cbv zeta.
  assert (V : CarInput_valid Samples.golf)
    by (repeat split; discriminate).
  assert (E : check_fraud Samples.year_sample Samples.expm1_sample
                Samples.log1p_sample
                (Samples.constant_models (Fin 0) (Fin (1 # 2)) (Fin (1 # 2)))
                Samples.golf
              = Ok {| fraud_score := 50; is_suspicious := true; expected_km := 0;
                      reasons := [generic_reason] |})
    by (vm_compute; reflexivity).
  split; [exact V |]. split; [exact E |].
  split; [discriminate |].
  exact (check_fraud_no_market_reason_for_small_expected_km Samples.year_sample
           Samples.expm1_sample Samples.log1p_sample _ _ _ V E
           ltac:(discriminate)).
Defined.

Lemma check_fraud_score_follows_flag_witness :
  check_fraud Samples.year_sample Samples.expm1_sample Samples.log1p_sample
    (Samples.constant_models (Fin 12) (lit (85 # 100)) (Fin (1 # 2))) Samples.golf
  = Ok Samples.golf_response
  /\ py_round (fmul (Fin (1 # 2)) (Fin 100)) = Ok 50
  /\ is_suspicious Samples.golf_response = true
  /\ 50 <= fraud_score Samples.golf_response.
Proof.
  assert (S : py_round (fmul (Fin (1 # 2)) (Fin 100)) = Ok 50)
    by (vm_compute; reflexivity).
  split; [exact check_fraud_golf_run |]. split; [exact S |].
  split; [reflexivity |].
  destruct (check_fraud_score_follows_flag Samples.year_sample
              Samples.expm1_sample Samples.log1p_sample _ _ (Fin (1 # 2)) 50 _
              check_fraud_golf_run eq_refl S) as (A & _).
  apply A. reflexivity.
Defined.

Lemma check_fraud_failure_causes_witness :
  check_fraud Samples.year_sample Samples.expm1_sample Samples.log1p_sample
    init Samples.golf
  = Raise (ValueError "Models are not loaded. Service is not ready.")
  /\ ((are_models_loaded init = false
       /\ ValueError "Models are not loaded. Service is not ready."
          = ValueError "Models are not loaded. Service is not ready.")
      \/ are_models_loaded init = true).
Proof.
  split; [exact check_fraud_not_ready_run |].
  destruct (check_fraud_failure_causes Samples.year_sample Samples.expm1_sample
              Samples.log1p_sample init Samples.golf _ check_fraud_not_ready_run)
    as [H | [L _]]; [left; exact H | right; exact L].
Defined.

Lemma calculate_expected_mileage_matches_check_fraud_witness :
  check_fraud Samples.year_sample Samples.expm1_sample Samples.log1p_sample
    (Samples.constant_models (Fin 12) (lit (85 # 100)) (Fin (1 # 2))) Samples.golf
  = Ok Samples.golf_response
  /\ calculate_expected_mileage Samples.year_sample Samples.expm1_sample
       (Samples.constant_models (Fin 12) (lit (85 # 100)) (Fin (1 # 2)))
       Samples.golf
     = Ok 162753.
Proof.
  split; [exact check_fraud_golf_run |].
  exact (proj1 (calculate_expected_mileage_matches_check_fraud
                  Samples.year_sample Samples.expm1_sample Samples.log1p_sample
                  _ _)
           _ check_fraud_golf_run).
Defined.

Lemma check_fraud_huge_reading_overflows_witness :
  let mm := Samples.constant_models (Fin 0) (Fin (1 # 2)) (Fin (1 # 2)) in
  let car := with_reported_km Samples.golf (2 ^ 1024) in
  are_models_loaded mm = true
  /\ py_int (Samples.expm1_sample (Fin 0)) = Ok 0
  /\ 2 ^ 1024 * Z.max 1 0 <= reported_km car
  /\ check_fraud Samples.year_sample Samples.expm1_sample Samples.log1p_sample
       mm car
     = Raise (OverflowError "integer division result too large for a float").
Proof.
  cbv zeta.
  assert (B : 2 ^ 1024 * Z.max 1 0
              <= reported_km (with_reported_km Samples.golf (2 ^ 1024)))
    by (vm_compute; discriminate).
  split; [reflexivity |]. split; [reflexivity |]. split; [exact B |].
  exact (proj1 (check_fraud_huge_reading_overflows Samples.year_sample
                  Samples.expm1_sample Samples.log1p_sample
                  (Samples.constant_models (Fin 0) (Fin (1 # 2)) (Fin (1 # 2)))
                  (with_reported_km Samples.golf (2 ^ 1024)) (Fin 0) 0
                  eq_refl eq_refl eq_refl)
           B).
Defined.

(** ** The endpoints *)

Section Endpoints.

Variable io : console.
Variable current_year : Z.
Variable expm1 : float -> float.
Variable log1p : float -> result float.

Let check := check_fraud current_year expm1 log1p.
Let endpoint := check_car io current_year expm1 log1p.
Let run := scoring_run current_year expm1 log1p.
Let features := calculate_fraud_features current_year log1p.

Local Open Scope string_scope.

(** The scoring endpoint answers 503 exactly when the registry is not
    ready, which is exactly when the health endpoint says
    "initializing"; the health endpoint reports the readiness flag
    itself. *)
Theorem check_car_unavailable_iff_not_ready (mm : ModelManager) (car : CarInput) :
  ((exists detail, endpoint mm car = HTTPException 503 detail)
   <-> are_models_loaded mm = false)
  /\ (status (health_check mm) = "initializing" <-> are_models_loaded mm = false)
  /\ (status (health_check mm) = "healthy" <-> are_models_loaded mm = true)
  /\ models_loaded (health_check mm) = are_models_loaded mm.
Proof.
  unfold endpoint, check_car, health_check. cbn [status models_loaded].
  destruct (are_models_loaded mm); cbn [negb].
  - split; [| repeat split; congruence || discriminate].
    split; [| discriminate].
    intros [detail H].
    destruct (check_fraud current_year expm1 log1p mm car) as [r | e];
      [discriminate H |].
    destruct (is_ValueError e); discriminate H.
  - split; [| repeat split; congruence || discriminate].
    split; [reflexivity |]. intros _. eexists. reflexivity.
Qed.

(** The scoring endpoint returns exactly the responses of
    [check_fraud]; it raises only 400, 500 and 503; a 400 always wraps a
    [ValueError] raised with both artifacts held, so the not-ready
    [ValueError] of [check_fraud] never reaches the client; a 500 wraps
    any other exception. *)
Theorem check_car_outcomes (mm : ModelManager) (car : CarInput) :
  (forall r, endpoint mm car = Returned r <-> check mm car = Ok r)
  /\ (forall code detail,
        endpoint mm car = HTTPException code detail ->
        code = 400 \/ code = 500 \/ code = 503)
  /\ (forall detail,
        endpoint mm car = HTTPException 400 detail ->
        are_models_loaded mm = true
        /\ exists e, check mm car = Raise e /\ is_ValueError e = true
                     /\ detail = "Prediction error: " ++ exn_str io e)
  /\ (forall detail,
        endpoint mm car = HTTPException 500 detail ->
        are_models_loaded mm = true
        /\ exists e, check mm car = Raise e /\ is_ValueError e = false
                     /\ detail = "Internal server error: " ++ exn_str io e).
Proof.
  unfold endpoint, check_car, check.
  destruct (are_models_loaded mm) eqn:L; cbn [negb].
  - destruct (check_fraud current_year expm1 log1p mm car) as [r0 | e] eqn:C.
    + split; [intros r; split; intros H; injection H as <-; reflexivity |].
      split; [intros code detail H; discriminate H |].
      split; intros detail H; discriminate H.
    + destruct (is_ValueError e) eqn:V.
      * split; [intros r; split; intros H; discriminate H |].
        split; [intros code detail H; injection H as <- _; left; reflexivity |].
        split; intros detail H; [| discriminate H].
        injection H as <-. split; [reflexivity |].
        exists e. repeat split. exact V.
      * split; [intros r; split; intros H; discriminate H |].
        split; [intros code detail H; injection H as <- _; right; left; reflexivity |].
        split; intros detail H; [discriminate H |].
        injection H as <-. split; [reflexivity |].
        exists e. repeat split. exact V.
  - rewrite (check_fraud_not_loaded current_year expm1 log1p mm car L).
    split; [intros r; split; intros H; discriminate H |].
    split; [intros code detail H; injection H as <- _; right; right; reflexivity |].
    split; intros detail H; discriminate H.
Qed.

(** A score outside [0, 100] or a negative expected mileage reaches the
    client as a 400 "Prediction error" followed by the text of the
    validation error, for a car with a non-negative odometer reading. *)
Theorem check_car_out_of_range_is_400
    (mm : ModelManager) (car : CarInput) (plog p t : float) (s km : Z) :
  run mm car plog p t ->
  0 <= reported_km car ->
  py_round (fmul p (Fin 100)) = Ok s ->
  py_int (expm1 plog) = Ok km ->
  s < 0 \/ 100 < s \/ km < 0 ->
  exists errs, errs <> []
    /\ check mm car = Raise (ValidationError errs)
    /\ endpoint mm car
       = HTTPException 400
           ("Prediction error: " ++ exn_str io (ValidationError errs)).
Proof.
  intros Hrun Hr S K Hout. pose proof Hrun as (L & _).
  destruct (check_fraud_run _ _ _ _ _ _ _ _ Hrun) as (km' & f & K' & F & _ & E).
  assert (km' = km) by congruence. subst km'.
  destruct (reasons_defined _ _ _ _ _ _ (fge p t) Hr F) as (rs & G).
  assert (C : exists errs, errs <> []
                /\ check mm car = Raise (ValidationError errs)).
  { unfold check. rewrite E, S. cbn [rbind]. rewrite G. cbn [rbind].
    apply FraudCheckResponse_new_rejects. exact Hout. }
  destruct C as (errs & Ne & C). exists errs.
  split; [exact Ne |]. split; [exact C |].
  unfold endpoint, check_car. rewrite L. cbn [negb].
  unfold check in C. rewrite C. reflexivity.
Qed.

(** An exception of the regression artifact reaches the client as a 400
    when it is a [ValueError] and as a 500 otherwise, with the text of
    the exception in the detail. *)
Theorem check_car_wraps_regressor_exception
    (mm : ModelManager) (car : CarInput) (e : exn) :
  are_models_loaded mm = true ->
  call_predict (get_regressor mm) (build_reg_input current_year car) = Raise e ->
  endpoint mm car
  = if is_ValueError e
    then HTTPException 400 ("Prediction error: " ++ exn_str io e)
    else HTTPException 500 ("Internal server error: " ++ exn_str io e).
Proof.
  intros L R. unfold endpoint, check_car. rewrite L. cbn [negb].
  rewrite (check_fraud_steps _ _ _ _ _ L). rewrite R. cbn [rbind].
  destruct (is_ValueError e); reflexivity.
Qed.

(** A threshold that is [None] or a string lets both artifacts run and
    then fails: the client gets a 500, whatever probability the
    classifier answered, unless that was a NaN.  When the score could
    be computed, the detail is the text of the [TypeError] of the
    comparison. *)
Theorem check_car_bad_threshold_is_500
    (mm : ModelManager) (car : CarInput) (plog p : float) (km : Z)
    (f : class_input) :
  are_models_loaded mm = true ->
  call_predict (get_regressor mm) (build_reg_input current_year car) = Ok plog ->
  py_int (expm1 plog) = Ok km ->
  features car km plog = Ok f ->
  call_predict_proba (get_classifier mm) f = Ok p ->
  p <> NaN ->
  get_threshold mm = PyNone \/ (exists s, get_threshold mm = PyStr s) ->
  (exists detail, endpoint mm car = HTTPException 500 detail)
  /\ (forall s, py_round (fmul p (Fin 100)) = Ok s ->
        endpoint mm car
        = HTTPException 500
            ("Internal server error: "
               ++ exn_str io
                    (TypeError
                       ("'>=' not supported between instances of 'float' and '"
                          ++ type_name (get_threshold mm) ++ "'")))).
Proof.
  intros L R K F C Hp T. unfold endpoint, check_car. rewrite L. cbn [negb].
  rewrite (check_fraud_steps _ _ _ _ _ L). rewrite R. cbn [rbind].
  rewrite K. cbn [rbind]. unfold features in F. rewrite F. cbn [rbind].
  rewrite C. cbn [rbind].
  assert (G : py_ge p (get_threshold mm)
              = Raise (TypeError
                         ("'>=' not supported between instances of 'float' and '"
                            ++ type_name (get_threshold mm) ++ "'"))).
  { destruct T as [-> | [s ->]]; reflexivity. }
  split.
  - destruct (py_round (fmul p (Fin 100))) as [s | e] eqn:S; cbn [rbind].
    + rewrite G. cbn [rbind is_ValueError]. eexists. reflexivity.
    + assert (V : is_ValueError e = false).
      { destruct (fmul p (Fin 100)) as [x | | |] eqn:M; cbn [py_round] in S;
          try (injection S as <-; reflexivity); [discriminate S |].
        exfalso. destruct p as [a | | |]; cbn [fmul] in M;
          try discriminate M; try (apply Hp; reflexivity).
        unfold fl in M. cbv zeta in M.
        destruct (Qle_bool _ _); [discriminate M |].
        destruct (Qle_bool _ _); discriminate M. }
      rewrite V. eexists. reflexivity.
  - intros s S. rewrite S. cbn [rbind]. rewrite G. reflexivity.
Qed.

End Endpoints.

Lemma check_car_unavailable_iff_not_ready_witness :
  are_models_loaded init = false
  /\ exists detail,
       check_car Samples.utf8_console Samples.year_sample Samples.expm1_sample
         Samples.log1p_sample init Samples.golf
       = HTTPException 503 detail.
Proof.
  assert (L : are_models_loaded init = false) by reflexivity.
  split; [exact L |].
  exact (proj2 (proj1 (check_car_unavailable_iff_not_ready Samples.utf8_console
                         Samples.year_sample Samples.expm1_sample
                         Samples.log1p_sample init Samples.golf)) L).
Defined.

Lemma check_car_outcomes_witness :
  check_car Samples.utf8_console Samples.year_sample Samples.expm1_sample
    Samples.log1p_sample
    (Samples.constant_models (Fin 12) (lit (85 # 100)) (Fin (1 # 2))) Samples.golf
  = Returned Samples.golf_response
  /\ check_fraud Samples.year_sample Samples.expm1_sample Samples.log1p_sample
       (Samples.constant_models (Fin 12) (lit (85 # 100)) (Fin (1 # 2)))
       Samples.golf
     = Ok Samples.golf_response.
Proof.
  assert (H : check_car Samples.utf8_console Samples.year_sample
                Samples.expm1_sample Samples.log1p_sample
                (Samples.constant_models (Fin 12) (lit (85 # 100)) (Fin (1 # 2)))
                Samples.golf
              = Returned Samples.golf_response) by (vm_compute; reflexivity).
  split; [exact H |].
  exact (proj1 (proj1 (check_car_outcomes Samples.utf8_console
                         Samples.year_sample Samples.expm1_sample
                         Samples.log1p_sample _ _) Samples.golf_response) H).
Defined.

Lemma check_car_out_of_range_is_400_witness :
  let mm := Samples.constant_models (Fin 12) (Fin (3 # 2)) (Fin (1 # 2)) in
  scoring_run Samples.year_sample Samples.expm1_sample Samples.log1p_sample
    mm Samples.golf (Fin 12) (Fin (3 # 2)) (Fin (1 # 2))
  /\ 0 <= reported_km Samples.golf
  /\ py_round (fmul (Fin (3 # 2)) (Fin 100)) = Ok 150
  /\ py_int (Samples.expm1_sample (Fin 12)) = Ok 162753
  /\ 100 < 150
  /\ exists errs, errs <> []
       /\ check_car Samples.utf8_console Samples.year_sample
            Samples.expm1_sample Samples.log1p_sample mm Samples.golf
          = HTTPException 400
              ("Prediction error: "
                 ++ exn_str Samples.utf8_console (ValidationError errs))%string.
Proof.
  cbv zeta.
  assert (R : scoring_run Samples.year_sample Samples.expm1_sample
                Samples.log1p_sample
                (Samples.constant_models (Fin 12) (Fin (3 # 2)) (Fin (1 # 2)))
                Samples.golf (Fin 12) (Fin (3 # 2)) (Fin (1 # 2)))
    by prove_run.
  assert (G : 0 <= reported_km Samples.golf) by discriminate.
  assert (S : py_round (fmul (Fin (3 # 2)) (Fin 100)) = Ok 150)
    by (vm_compute; reflexivity).
  assert (K : py_int (Samples.expm1_sample (Fin 12)) = Ok 162753)
    by (vm_compute; reflexivity).
  assert (O : 100 < 150) by reflexivity.
  split; [exact R |]. split; [exact G |]. split; [exact S |].
  split; [exact K |]. split; [exact O |].
  destruct (check_car_out_of_range_is_400 Samples.utf8_console _ _ _ _ _ _ _ _
              150 162753 R G S K (or_intror (or_introl O)))
    as (errs & Ne & _ & E).
  exists errs. split; [exact Ne | exact E].
Defined.

Lemma check_car_wraps_regressor_exception_witness :
  are_models_loaded (Samples.failing_regressor (Fin (1 # 2))) = true
  /\ check_car Samples.utf8_console Samples.year_sample Samples.expm1_sample
       Samples.log1p_sample (Samples.failing_regressor (Fin (1 # 2)))
       Samples.golf
     = HTTPException 400 "Prediction error: feature mismatch"%string.
Proof.
  assert (L : are_models_loaded (Samples.failing_regressor (Fin (1 # 2))) = true)
    by reflexivity.
  split; [exact L |].
  exact (check_car_wraps_regressor_exception Samples.utf8_console
           Samples.year_sample Samples.expm1_sample Samples.log1p_sample
           (Samples.failing_regressor (Fin (1 # 2))) Samples.golf
           (ValueError "feature mismatch") L eq_refl).
Defined.

Lemma check_car_bad_threshold_is_500_witness :
  are_models_loaded Samples.text_threshold = true
  /\ check_car Samples.utf8_console Samples.year_sample Samples.expm1_sample
       Samples.log1p_sample Samples.text_threshold Samples.golf
     = HTTPException 500
         "Internal server error: '>=' not supported between instances of 'float' and 'str'"%string.
Proof.
  assert (L : are_models_loaded Samples.text_threshold = true) by reflexivity.
  split; [exact L |].
  destruct (calculate_fraud_features Samples.year_sample Samples.log1p_sample
              Samples.golf 162753 (Fin 12)) as [f | e] eqn:F;
    [| vm_compute in F; discriminate F].
  assert (N : Fin (1 # 2) <> NaN) by discriminate.
  exact (proj2 (check_car_bad_threshold_is_500 Samples.utf8_console
                  Samples.year_sample Samples.expm1_sample Samples.log1p_sample
                  Samples.text_threshold Samples.golf (Fin 12) (Fin (1 # 2))
                  162753 f L eq_refl ltac:(vm_compute; reflexivity) F eq_refl N
                  (or_intror (ex_intro _ "high"%string eq_refl)))
           50 ltac:(vm_compute; reflexivity)).
Defined.

(** ** The model registry *)

Section Registry.

Variable io : console.

Local Open Scope string_scope.

(** The [try] body leaves the manager and the outcome that
    [load_progress_of] describes. *)
Lemma load_models_try_eq (fs : disk) (self : ModelManager) :
  load_models_try io fs self
  = (state_after (load_progress_of io fs) self,
     body_outcome (load_progress_of io fs)).
Proof.
  unfold load_models_try, load_progress_of, StExn.bind, StExn.call,
    StExn.modify, StExn.get, StExn.ret.
  destruct (print io ("Loading regression model from: " ++ REGRESSOR_PATH))
    as [[] | e]; [| reflexivity].
  destruct (fs REGRESSOR_PATH) as [reg | e]; [| reflexivity].
  destruct (print io ("Loading classification model from: " ++ CLASSIFIER_PATH))
    as [[] | e]; [| reflexivity].
  destruct (fs CLASSIFIER_PATH) as [bundle | e]; [| reflexivity].
  destruct (py_getitem bundle "pipeline") as [pipeline | e]; [| reflexivity].
  destruct (py_get bundle "threshold" (PyFloat DEFAULT_FRAUD_THRESHOLD))
    as [threshold | e]; [| reflexivity].
  cbn [fraud_threshold set_fraud_threshold].
  destruct (py_format io threshold) as [text | e]; [| reflexivity].
  cbv zeta.
  destruct (print io ("✅ Models loaded successfully! Threshold: " ++ text))
    as [[] | e]; reflexivity.
Qed.

(** An [except] clause prints its message and returns it with a
    failure status; it does not touch the manager. *)
Lemma load_models_except_eq (e : exn) (self : ModelManager) :
  load_models_except io e self
  = (self,
     match print io (failure_message io e) with
     | Ok _ => Ok (false, failure_message io e)
     | Raise e' => Raise e'
     end).
Proof.
  unfold load_models_except, failure_message, StExn.bind, StExn.call, StExn.ret.
  destruct e; destruct (print io _) as [[] | e']; reflexivity.
Qed.

Lemma load_models_eq (fs : disk) (self : ModelManager) :
  load_models io fs self
  = (state_after (load_progress_of io fs) self,
     match body_outcome (load_progress_of io fs) with
     | Ok status => Ok status
     | Raise e =>
         match print io (failure_message io e) with
         | Ok _ => Ok (false, failure_message io e)
         | Raise e' => Raise e'
         end
     end).
Proof.
  unfold load_models, StExn.try_except. rewrite load_models_try_eq.
  destruct (body_outcome (load_progress_of io fs)) as [status | e];
    [reflexivity | apply load_models_except_eq].
Qed.

Lemma are_models_loaded_iff (mm : ModelManager) :
  are_models_loaded mm = true
  <-> regressor_model mm <> PyNone /\ classifier_model mm <> PyNone.
Proof.
  unfold are_models_loaded. rewrite andb_true_iff.
  destruct (regressor_model mm), (classifier_model mm); cbn [is_not_None];
    split; intros [A B]; split; congruence || discriminate.
Qed.




(** What a load that returns success has done. *)
Lemma load_models_success (fs : disk) (self : ModelManager) (msg : string) :
  snd (load_models io fs self) = Ok (true, msg) ->
  exists reg bundle pipeline threshold,
    load_progress_of io fs = Completed reg pipeline threshold msg
    /\ fs REGRESSOR_PATH = Ok reg
    /\ fs CLASSIFIER_PATH = Ok bundle
    /\ py_getitem bundle "pipeline" = Ok pipeline
    /\ py_get bundle "threshold" (PyFloat DEFAULT_FRAUD_THRESHOLD) = Ok threshold.
Proof.
  rewrite load_models_eq. cbn [snd]. unfold load_progress_of.
  destruct (print io ("Loading regression model from: " ++ REGRESSOR_PATH))
    as [[] | e]; cbn [body_outcome];
    [| destruct (print io _); intros H; discriminate H].
  destruct (fs REGRESSOR_PATH) as [reg | e] eqn:E1; cbn [body_outcome];
    [| destruct (print io _); intros H; discriminate H].
  destruct (print io ("Loading classification model from: " ++ CLASSIFIER_PATH))
    as [[] | e]; cbn [body_outcome];
    [| destruct (print io _); intros H; discriminate H].
  destruct (fs CLASSIFIER_PATH) as [bundle | e] eqn:E2; cbn [body_outcome];
    [| destruct (print io _); intros H; discriminate H].
  destruct (py_getitem bundle "pipeline") as [pipeline | e] eqn:E3; cbn [body_outcome];
    [| destruct (print io _); intros H; discriminate H].
  destruct (py_get bundle "threshold" (PyFloat DEFAULT_FRAUD_THRESHOLD))
    as [threshold | e] eqn:E4; cbn [body_outcome];
    [| destruct (print io _); intros H; discriminate H].
  destruct (py_format io threshold) as [text | e]; cbn [body_outcome];
    [| destruct (print io _); intros H; discriminate H].
  cbv zeta.
  destruct (print io ("✅ Models loaded successfully! Threshold: " ++ text))
    as [[] | e]; cbn [body_outcome];
    [| destruct (print io _); intros H; discriminate H].
  intros H. injection H as <-.
  exists reg, bundle, pipeline, threshold.
  repeat split; reflexivity || assumption.
Qed.

End Registry.

Section RegistryOutcomes.

Variable io : console.

Local Open Scope string_scope.


(** A load is not undone when it fails: whatever the outcome, the
    manager holds each object from the moment the body stored it.  When
    the regressor file could be read, the new regressor is installed;
    when in addition the bundle could be read and subscripted, its
    pipeline is installed too, and when the bundle's [get] answered,
    the threshold.  When the regressor file cannot be read, nothing
    changes; when only the classifier file cannot, the new regressor
    stands next to the old classifier and threshold. *)
Theorem load_models_failure_keeps_new_regressor
    (fs : disk) (self : ModelManager) :
  let after := fst (load_models io fs self) in
  let said := fun text => print io text = Ok tt in
  (forall e, fs REGRESSOR_PATH = Raise e -> after = self)
  /\ (forall reg,
        said ("Loading regression model from: " ++ REGRESSOR_PATH) ->
        fs REGRESSOR_PATH = Ok reg ->
        regressor_model after = reg
        /\ (forall e, fs CLASSIFIER_PATH = Raise e ->
                      after = set_regressor_model reg self)
        /\ (forall bundle pipeline,
              said ("Loading classification model from: " ++ CLASSIFIER_PATH) ->
              fs CLASSIFIER_PATH = Ok bundle ->
              py_getitem bundle "pipeline" = Ok pipeline ->
              classifier_model after = pipeline
              /\ (forall e,
                    py_get bundle "threshold" (PyFloat DEFAULT_FRAUD_THRESHOLD)
                    = Raise e ->
                    fraud_threshold after = fraud_threshold self)
              /\ (forall threshold,
                    py_get bundle "threshold" (PyFloat DEFAULT_FRAUD_THRESHOLD)
                    = Ok threshold ->
                    fraud_threshold after = threshold))).
Proof.
  cbv zeta. rewrite load_models_eq. cbn [fst]. unfold load_progress_of.
  split.
  - intros e R. rewrite R.
    destruct (print io ("Loading regression model from: " ++ REGRESSOR_PATH))
      as [[] | e']; reflexivity.
  - intros reg P1 R. rewrite P1, R.
    split; [| split].
    + destruct (print io ("Loading classification model from: " ++ CLASSIFIER_PATH))
        as [[] | e']; [| reflexivity].
      destruct (fs CLASSIFIER_PATH) as [bundle | e']; [| reflexivity].
      destruct (py_getitem bundle "pipeline") as [pipeline | e'];
        [| reflexivity].
      destruct (py_get bundle "threshold" (PyFloat DEFAULT_FRAUD_THRESHOLD))
        as [threshold | e']; [| reflexivity].
      destruct (py_format io threshold) as [text | e']; [| reflexivity].
      cbv zeta.
        destruct (print io ("✅ Models loaded successfully! Threshold: " ++ text))
          as [[] | e']; reflexivity.
    + intros e C. rewrite C.
      destruct (print io ("Loading classification model from: " ++ CLASSIFIER_PATH))
        as [[] | e']; reflexivity.
    + intros bundle pipeline P2 C G. rewrite P2, C, G.
      split; [| split].
      * destruct (py_get bundle "threshold" (PyFloat DEFAULT_FRAUD_THRESHOLD))
          as [threshold | e']; [| reflexivity].
        destruct (py_format io threshold) as [text | e']; [| reflexivity].
        cbv zeta.
        destruct (print io ("✅ Models loaded successfully! Threshold: " ++ text))
          as [[] | e']; reflexivity.
      * intros e T. rewrite T. reflexivity.
      * intros threshold T. rewrite T.
        destruct (py_format io threshold) as [text | e']; [| reflexivity].
        cbv zeta.
        destruct (print io ("✅ Models loaded successfully! Threshold: " ++ text))
          as [[] | e']; reflexivity.
Qed.

(** A success status does not by itself mean ready: the manager holds
    what the files contain, and is ready exactly when neither the
    regressor object nor the bundle's pipeline is [None].  The pipeline
    is what subscripting the bundle gives; for a dict, its entry. *)
Theorem load_models_success_ready_iff
    (fs : disk) (self : ModelManager) (msg : string) :
  snd (load_models io fs self) = Ok (true, msg) ->
  exists reg bundle pipeline,
    fs REGRESSOR_PATH = Ok reg
    /\ fs CLASSIFIER_PATH = Ok bundle
    /\ py_getitem bundle "pipeline" = Ok pipeline
    /\ (forall items, bundle = PyDict items ->
                      dict_lookup items "pipeline" = Some pipeline)
    /\ regressor_model (fst (load_models io fs self)) = reg
    /\ classifier_model (fst (load_models io fs self)) = pipeline
    /\ (are_models_loaded (fst (load_models io fs self)) = true
        <-> reg <> PyNone /\ pipeline <> PyNone).
Proof.
  intros H.
  destruct (load_models_success io fs self msg H)
    as (reg & bundle & pipeline & threshold & P & A & B & C & _).
  exists reg, bundle, pipeline.
  split; [exact A |]. split; [exact B |]. split; [exact C |].
  split.
  - intros items ->. cbn [py_getitem] in C.
    destruct (dict_lookup items "pipeline"); congruence.
  - rewrite are_models_loaded_iff, load_models_eq, P. cbn.
    split; [reflexivity |]. split; reflexivity.
Qed.

(** Loading again from the same files, with the same console, changes
    nothing: state and outcome are those of the first load. *)
Theorem load_models_idempotent (fs : disk) (self : ModelManager) :
  load_models io fs (fst (load_models io fs self)) = load_models io fs self.
Proof.
  rewrite !load_models_eq. cbn [fst]. f_equal.
  destruct (load_progress_of io fs); reflexivity.
Qed.

(** Start-up leaves the manager as [load_models] left it; it goes on
    after a failed load when the warning can be printed, and it is
    aborted by an exception exactly when [load_models] raises or the
    warning cannot be printed.  With a console that prints everything,
    start-up never fails, and after the start-up of a fresh manager the
    service is ready exactly when both files were read, the bundle
    could be subscripted with ['pipeline'], and neither object is
    [None]. *)
Theorem lifespan_startup_ready_iff (fs : disk) (self : ModelManager) :
  fst (lifespan_startup io fs self) = fst (load_models io fs self)
  /\ snd (lifespan_startup io fs self)
     = match snd (load_models io fs self) with
       | Ok (success, message) =>
           if success then Ok tt
           else print io
                  ("⚠️  Warning: Application started but models failed to load: "
                     ++ message)
       | Raise e => Raise e
       end
  /\ ((forall text, print io text = Ok tt) ->
      snd (lifespan_startup io fs self) = Ok tt
      /\ (are_models_loaded (fst (lifespan_startup io fs init)) = true
          <-> exists reg bundle pipeline,
                fs REGRESSOR_PATH = Ok reg
                /\ fs CLASSIFIER_PATH = Ok bundle
                /\ py_getitem bundle "pipeline" = Ok pipeline
                /\ reg <> PyNone /\ pipeline <> PyNone)).
Proof.
  assert (A : forall s, fst (lifespan_startup io fs s) = fst (load_models io fs s)).
  { intros s. unfold lifespan_startup, StExn.bind, StExn.call, StExn.ret.
    destruct (load_models io fs s) as [s' [[[] m] | e]]; reflexivity. }
  assert (B : snd (lifespan_startup io fs self)
              = match snd (load_models io fs self) with
                | Ok (success, message) =>
                    if success then Ok tt
                    else print io
                           ("⚠️  Warning: Application started but models failed to load: "
                              ++ message)
                | Raise e => Raise e
                end).
  { unfold lifespan_startup, StExn.bind, StExn.call, StExn.ret.
    destruct (load_models io fs self) as [s' [[[] m] | e]]; reflexivity. }
  split; [apply A |]. split; [exact B |].
  intros P. split.
  - rewrite B, load_models_eq. cbn [snd].
    destruct (body_outcome (load_progress_of io fs)) as [[[] m] | e];
      rewrite ?P; try reflexivity.
  - assert (N : forall s, classifier_model s = PyNone ->
                         are_models_loaded s = true -> False).
    { intros s E H. apply are_models_loaded_iff in H. tauto. }
    rewrite A, load_models_eq. cbn [fst]. unfold load_progress_of.
    rewrite !P.
    destruct (fs REGRESSOR_PATH) as [reg | e] eqn:R.
    + destruct (fs CLASSIFIER_PATH) as [bundle | e] eqn:C.
      * destruct (py_getitem bundle "pipeline") as [pipeline | e] eqn:G.
        -- assert (S : forall p,
                     stopped_early p = false ->
                     regressor_model (state_after p init) = reg ->
                     classifier_model (state_after p init) = pipeline ->
                     (are_models_loaded (state_after p init) = true
                      <-> exists reg0 bundle0 pipeline0,
                            Ok reg = Ok reg0
                            /\ Ok bundle = Ok bundle0
                            /\ py_getitem bundle0 "pipeline" = Ok pipeline0
                            /\ reg0 <> PyNone /\ pipeline0 <> PyNone)).
           { intros p _ Er Ep. rewrite are_models_loaded_iff, Er, Ep. split.
             - intros [N1 N2]. exists reg, bundle, pipeline.
               repeat split; assumption.
             - intros (reg0 & bundle0 & pipeline0 & E1 & E2 & E3 & N1 & N2).
               injection E1 as <-. injection E2 as <-.
               assert (pipeline0 = pipeline) by congruence. subst pipeline0.
               split; assumption. }
           destruct (py_get bundle "threshold" (PyFloat DEFAULT_FRAUD_THRESHOLD))
             as [threshold | e]; [| apply S; reflexivity].
           destruct (py_format io threshold) as [text | e];
             [| apply S; reflexivity].
           cbv zeta. rewrite P. apply S; reflexivity.
        -- split; [intros H; exfalso; eapply N; [| exact H]; reflexivity |].
           intros (reg0 & bundle0 & pipeline0 & _ & E2 & E3 & _).
           injection E2 as <-. congruence.
      * split; [intros H; exfalso; eapply N; [| exact H]; reflexivity |].
        intros (reg0 & bundle0 & pipeline0 & _ & E2 & _). discriminate E2.
    + split; [intros H; exfalso; eapply N; [| exact H]; reflexivity |].
      intros (reg0 & bundle0 & pipeline0 & E1 & _). discriminate E1.
Qed.

End RegistryOutcomes.

(** ** Closed instances of the registry *)






Lemma load_models_failure_keeps_new_regressor_witness :
  let mm := Samples.constant_models (Fin 12) (Fin (1 # 2)) (lit (3 # 10)) in
  let after :=
    fst (load_models Samples.utf8_console Samples.disk_other_regressor mm) in
  snd (load_models Samples.utf8_console Samples.disk_other_regressor mm)
  = Ok (false, "❌ Error loading models: invalid load key"%string)
  /\ Samples.disk_other_regressor REGRESSOR_PATH
     = Ok (regressor (fun _ => Ok (Fin 11)))
  /\ Samples.disk_other_regressor CLASSIFIER_PATH
     = Raise (OtherException "invalid load key")
  /\ after = set_regressor_model (regressor (fun _ => Ok (Fin 11))) mm.
Proof.
  cbv zeta.
  split; [vm_compute; reflexivity |].
  split; [reflexivity |]. split; [reflexivity |].
  destruct (load_models_failure_keeps_new_regressor Samples.utf8_console
              Samples.disk_other_regressor
              (Samples.constant_models (Fin 12) (Fin (1 # 2)) (lit (3 # 10))))
    as (_ & A).
  destruct (A (regressor (fun _ => Ok (Fin 11))) eq_refl eq_refl) as (_ & B & _).
  exact (B (OtherException "invalid load key") eq_refl).
Defined.

Lemma load_models_success_ready_iff_witness :
  snd (load_models Samples.utf8_console Samples.disk_none_pipeline init)
  = Ok (true, "✅ Models loaded successfully! Threshold: 0.3"%string)
  /\ are_models_loaded
       (fst (load_models Samples.utf8_console Samples.disk_none_pipeline init))
     = false
  /\ exists reg bundle pipeline,
       Samples.disk_none_pipeline REGRESSOR_PATH = Ok reg
       /\ Samples.disk_none_pipeline CLASSIFIER_PATH = Ok bundle
       /\ py_getitem bundle "pipeline" = Ok pipeline.
Proof.
  assert (H : snd (load_models Samples.utf8_console
                     Samples.disk_none_pipeline init)
              = Ok (true, "✅ Models loaded successfully! Threshold: 0.3"%string))
    by (vm_compute; reflexivity).
  split; [exact H |]. split; [vm_compute; reflexivity |].
  destruct (load_models_success_ready_iff Samples.utf8_console
              Samples.disk_none_pipeline init _ H)
    as (reg & bundle & pl & A & B & C & _).
  exists reg, bundle, pl. split; [exact A |]. split; [exact B | exact C].
Defined.

Lemma lifespan_startup_ready_iff_witness :
  (forall text, print Samples.utf8_console text = Ok tt)
  /\ snd (lifespan_startup Samples.utf8_console Samples.disk_good init) = Ok tt
  /\ are_models_loaded
       (fst (lifespan_startup Samples.utf8_console Samples.disk_good init))
     = true.
Proof.
  assert (P : forall text, print Samples.utf8_console text = Ok tt)
    by (intros text; reflexivity).
  split; [exact P |].
  destruct (lifespan_startup_ready_iff Samples.utf8_console Samples.disk_good init)
    as (_ & _ & A).
  destruct (A P) as (B & C).
  split; [exact B |].
  apply (proj2 C).
  exists (regressor (fun _ => Ok (Fin 0))).
  exists (PyDict [("pipeline"%string, classifier (fun _ => Ok (Fin (1 # 2))));
                  ("threshold"%string, PyFloat (lit (3 # 10)))]).
  exists (classifier (fun _ => Ok (Fin (1 # 2)))).
  repeat split; discriminate.
Defined.

(** ** Reading the numbers of a reason back *)

Section Thousands.

Lemma forallb_rev_eq {A : Type} (f : A -> bool) (l : list A) :
  forallb f (rev l) = forallb f l.
Proof.
  induction l as [| x tl IH]; [reflexivity |].
  cbn [rev forallb]. rewrite forallb_app, IH. cbn [forallb].
  rewrite andb_true_r. apply andb_comm.
Qed.

Lemma strip_commas_filter (l : list ascii) :
  strip_commas (string_of_list_ascii l)
  = string_of_list_ascii (filter not_comma l).
Proof.
  induction l as [| c tl IH]; [reflexivity |].
  cbn [string_of_list_ascii strip_commas filter]. unfold not_comma at 1.
  destruct (Ascii.eqb c ","%char); cbn [negb]; rewrite IH; reflexivity.
Qed.

Lemma commas_rev_filter (l : list ascii) (seen : nat) :
  forallb not_comma l = true ->
  filter not_comma (commas_rev l seen) = l.
Proof.
  revert seen. induction l as [| c tl IH]; intros seen H; [reflexivity |].
  cbn [forallb] in H. apply andb_true_iff in H. destruct H as [Hc Htl].
  cbn [commas_rev]. destruct (Nat.eqb seen 3); cbn [filter].
  - change (not_comma ","%char) with false. cbn iota.
    rewrite Hc, IH by exact Htl. reflexivity.
  - rewrite Hc, IH by exact Htl. reflexivity.
Qed.

Lemma digits_no_comma (u : Decimal.uint) :
  forallb not_comma (list_ascii_of_string (NilEmpty.string_of_uint u)) = true.
Proof.
  induction u; cbn [NilEmpty.string_of_uint list_ascii_of_string forallb];
    try rewrite IHu; reflexivity.
Qed.

Lemma str_int_abs_no_comma (n : Z) :
  forallb not_comma (list_ascii_of_string (str_int (Z.abs n))) = true.
Proof.
  unfold str_int. destruct n as [| p | p]; [reflexivity | |];
    cbn [Z.abs Z.to_int NilZero.string_of_int]; unfold NilZero.string_of_uint;
    destruct (Pos.to_uint p) eqn:E; try reflexivity;
    rewrite <- E at 1; try apply digits_no_comma;
    match goal with
    | |- context [NilEmpty.string_of_uint ?u] =>
        exact (digits_no_comma u)
    end.
Qed.

End Thousands.

(** Taking the separators out of a formatted number gives back its
    plain decimal numeral: the mileage a reason cites is the one that
    was computed. *)
Theorem fmt_thousands_strip_commas (n : Z) :
  strip_commas (fmt_thousands n) = str_int n.
Proof.
  unfold fmt_thousands.
  set (digits := list_ascii_of_string (str_int (Z.abs n))).
  assert (G : strip_commas (string_of_list_ascii (rev (commas_rev (rev digits) 0)))
              = str_int (Z.abs n)).
  { rewrite strip_commas_filter, filter_rev, commas_rev_filter.
    - rewrite rev_involutive. unfold digits.
      apply string_of_list_ascii_of_string.
    - rewrite forallb_rev_eq. apply str_int_abs_no_comma. }
  destruct n as [| p | p].
  - exact G.
  - exact G.
  - change (Z.neg p <? 0) with true. cbn iota.
    cbn [strip_commas]. change (Ascii.eqb "-" ",") with false. cbn iota.
    rewrite G. reflexivity.
Qed.
